(** * education_extension: term results and assessment-criteria validation

    A shallow embedding of
      - education_extension/education_extension/api.py
          ([generate_class_results], [populate_student_result]) and
      - education_extension/overrides/assessment_criteria.py
          ([validate_assessment_criteria]).

    Documents are records with the field names of the source, [None] is
    [option]'s [None], a Python list is a [list] and the insertion-ordered
    dict [course_details] is an association list.  The framework calls the
    code makes are modelled as follows.

      - Reads ([frappe.get_doc], [frappe.get_all], [frappe.db.count],
        [frappe.db.get_value], [frappe.db.sql]) are the fields of a
        [Database] record: one field per call site, taking the arguments
        the call site passes and returning the rows it gets back.
      - [frappe.msgprint], [frappe.log_error], [doc.insert()] and
        [frappe.db.commit()] append an event to a log; [frappe.throw] and a
        failing [frappe.get_doc] raise.  [Action] is the resulting
        writer-with-exceptions monad.
      - Numbers (the values of Float columns and what Python computes from
        them) are an abstract type with the operations the code applies to
        them, class [Number]; exact rationals are one instance.

    The file has the model first (Python builtins, documents, framework,
    the two source files), then the vocabulary of the properties, the
    rationals and a worked school, and then the facts: about the builtins,
    about the stages of a run, the properties of each entry point, and
    runs of the worked school. *)

From Stdlib Require Import String Ascii List Bool ZArith Arith Lia.
From Stdlib Require Import QArith Qcanon Qround Lqa DecimalString.
Import ListNotations.

Local Open Scope string_scope.
Local Open Scope list_scope.

Set Implicit Arguments.

(* ------------------------------------------------------------------ *)
(** * Python values and builtins *)

Module Python.

(** The numbers of the program.  [ltb x y] is [x < y] (and [y > x]),
    [leb x y] is [x <= y] (and [y >= x]), [truthy x] is [bool(x)],
    [round2 x] is [round(x, 2)] and [of_Z] reads an [int] (a literal, or a
    [len]) as a number.  The laws are those of an ordered numeric type
    without NaN, in which zero is the only falsy number. *)
Class Number (R : Type) : Type := {
  of_Z : Z -> R;
  add : R -> R -> R;
  mul : R -> R -> R;
  div : R -> R -> R;
  round2 : R -> R;
  ltb : R -> R -> bool;
  leb : R -> R -> bool;
  truthy : R -> bool;
  truthy_false : forall x, truthy x = false <-> x = of_Z 0;
  ltb_irrefl : forall x, ltb x x = false;
  ltb_trans : forall x y z, ltb x y = true -> ltb y z = true -> ltb x z = true;
  leb_ltb : forall x y, leb x y = negb (ltb y x)
}.

Section Builtins.
Context {R : Type} {num : Number R}.

(** The [int] literal [0]. *)
Definition zero : R := of_Z 0.

(** [x or d] on a number. *)
Definition num_or (x d : R) : R := if truthy x then x else d.

(** [x or d] on a nullable number. *)
Definition opt_or (x : option R) (d : R) : R :=
  match x with
  | Some v => num_or v d
  | None => d
  end.

(** [sum(l)]: the builtin starts from [0] and adds from the left. *)
Definition py_sum (l : list R) : R := fold_left add l zero.

(** [max] of a non-empty list given as its first item and the rest: a later
    item replaces the running maximum only when it is strictly greater. *)
Definition py_max (first : R) (rest : list R) : R :=
  fold_left (fun m x => if ltb m x then x else m) rest first.

(** [min], likewise with strictly smaller. *)
Definition py_min (first : R) (rest : list R) : R :=
  fold_left (fun m x => if ltb x m then x else m) rest first.

(** [len(l)] used as a number. *)
Definition py_len (l : list R) : R := of_Z (Z.of_nat (length l)).

End Builtins.

(** [bool(s)] on a string: the empty string is falsy. *)
Definition str_truthy (s : string) : bool :=
  match s with
  | EmptyString => false
  | String _ _ => true
  end.

(** [bool(x)] on a nullable string. *)
Definition opt_str_truthy (x : option string) : bool :=
  match x with
  | Some s => str_truthy s
  | None => false
  end.

(** [x or d] on a nullable string. *)
Definition opt_str_or (x : option string) (d : string) : string :=
  match x with
  | Some s => if str_truthy s then s else d
  | None => d
  end.

(** [str(n)] on a non-negative [int]. *)
Definition py_str (n : nat) : string := NilZero.string_of_uint (Nat.to_uint n).

(** How an f-string renders a nullable string. *)
Definition fmt (x : option string) : string :=
  match x with
  | Some s => s
  | None => "None"
  end.

(** [x in l] on nullable strings. *)
Definition opt_str_eqb (x y : option string) : bool :=
  match x, y with
  | Some a, Some b => String.eqb a b
  | None, None => true
  | _, _ => false
  end.

Definition py_in (x : option string) (l : list (option string)) : bool :=
  existsb (opt_str_eqb x) l.

End Python.

Import Python.

(* ------------------------------------------------------------------ *)
(** * Documents and rows *)

(** School Term Class Result Generator: the four filters. *)
Module Generator.
Record t : Type := mk {
  assessment_group : option string;
  academic_year : option string;
  academic_term : option string;
  student_group : option string
}.
End Generator.

Module Student.
Record t : Type := mk {
  name : string;
  gender : option string
}.
End Student.

Module AcademicTerm.
Record t : Type := mk {
  term_start_date : option string;
  term_end_date : option string
}.
End AcademicTerm.

(** A row of School Settings' [overall_grading_scale]. *)
Module GradeBand.
Record t (R : Type) : Type := mk {
  min_percentage : option R;
  max_percentage : option R;
  grade_code : string
}.
End GradeBand.

(** A row of School Settings' [assessment_criteria_item]. *)
Module CriteriaItem.
Record t : Type := mk {
  criteria_name : option string
}.
End CriteriaItem.

Module SchoolSettings.
Record t (R : Type) : Type := mk {
  overall_grading_scale : list (GradeBand.t R);
  assessment_criteria_item : list CriteriaItem.t
}.
End SchoolSettings.

(** A row of the query at api.py:98 (Assessment Result joined with its
    Assessment Result Detail rows). *)
Module DetailedResult.
Record t (R : Type) : Type := mk {
  course : string;
  total_score : option R;
  grade : option string;
  assessment_criteria : option string;
  score : option R;
  maximum_score : option R
}.
End DetailedResult.

(** The dicts appended to [course_details[course]["details"]]. *)
Module Detail.
Record t (R : Type) : Type := mk {
  criteria : option string;
  score : R;
  max_score : R
}.
End Detail.

(** The values of the dict [course_details]. *)
Module CourseData.
Record t (R : Type) : Type := mk {
  details : list (Detail.t R);
  total_score : option R;
  grade : option string
}.
End CourseData.

(** A row of the child table [subjects]. *)
Module SubjectRow.
Record t (R : Type) : Type := mk {
  subject : string;
  total_score : R;
  grade : string;
  subject_position : string;
  class_highest_score : R;
  class_lowest_score : R;
  class_average_score : R
}.
Arguments subject {R} _.
Arguments total_score {R} _.
Arguments subject_position {R} _.
End SubjectRow.

(** A row of the child table [assessment_components]. *)
Module ComponentRow.
Record t (R : Type) : Type := mk {
  criteria : option string;
  score_obtained : R;
  max_score : R;
  subject : string
}.
Arguments max_score {R} _.
End ComponentRow.

(** School Term Result. *)
Module ResultDoc.
Record t (R : Type) : Type := mk {
  student : option string;
  assessment_group : option string;
  academic_year : option string;
  academic_term : option string;
  term_start_date : option string;
  term_end_date : option string;
  gender : option string;
  student_admission_id : option string;
  student_group : option string;
  number_of_students_in_class_group : option nat;
  number_of_students_in_class : option nat;
  subjects : list (SubjectRow.t R);
  assessment_components : list (ComponentRow.t R);
  total_marks_obtained : option R;
  total_max_marks : option R;
  term_average : option R;
  overall_grade : option string;
  class_arm_position : option nat;
  class_position : option nat
}.

Section Setters.
Variable R : Type.
Implicit Type d : t R.

(** [frappe.new_doc("School Term Result")]: no field is set. *)
Definition new_doc : t R :=
  mk None None None None None None None None None None None
     [] [] None None None None None None.

Definition set_student v d : t R :=
  mk v (assessment_group d) (academic_year d) (academic_term d)
     (term_start_date d) (term_end_date d) (gender d) (student_admission_id d)
     (student_group d) (number_of_students_in_class_group d)
     (number_of_students_in_class d) (subjects d) (assessment_components d)
     (total_marks_obtained d) (total_max_marks d) (term_average d)
     (overall_grade d) (class_arm_position d) (class_position d).

Definition set_assessment_group v d : t R :=
  mk (student d) v (academic_year d) (academic_term d)
     (term_start_date d) (term_end_date d) (gender d) (student_admission_id d)
     (student_group d) (number_of_students_in_class_group d)
     (number_of_students_in_class d) (subjects d) (assessment_components d)
     (total_marks_obtained d) (total_max_marks d) (term_average d)
     (overall_grade d) (class_arm_position d) (class_position d).

Definition set_academic_year v d : t R :=
  mk (student d) (assessment_group d) v (academic_term d)
     (term_start_date d) (term_end_date d) (gender d) (student_admission_id d)
     (student_group d) (number_of_students_in_class_group d)
     (number_of_students_in_class d) (subjects d) (assessment_components d)
     (total_marks_obtained d) (total_max_marks d) (term_average d)
     (overall_grade d) (class_arm_position d) (class_position d).

Definition set_academic_term v d : t R :=
  mk (student d) (assessment_group d) (academic_year d) v
     (term_start_date d) (term_end_date d) (gender d) (student_admission_id d)
     (student_group d) (number_of_students_in_class_group d)
     (number_of_students_in_class d) (subjects d) (assessment_components d)
     (total_marks_obtained d) (total_max_marks d) (term_average d)
     (overall_grade d) (class_arm_position d) (class_position d).

Definition set_term_start_date v d : t R :=
  mk (student d) (assessment_group d) (academic_year d) (academic_term d)
     v (term_end_date d) (gender d) (student_admission_id d)
     (student_group d) (number_of_students_in_class_group d)
     (number_of_students_in_class d) (subjects d) (assessment_components d)
     (total_marks_obtained d) (total_max_marks d) (term_average d)
     (overall_grade d) (class_arm_position d) (class_position d).

Definition set_term_end_date v d : t R :=
  mk (student d) (assessment_group d) (academic_year d) (academic_term d)
     (term_start_date d) v (gender d) (student_admission_id d)
     (student_group d) (number_of_students_in_class_group d)
     (number_of_students_in_class d) (subjects d) (assessment_components d)
     (total_marks_obtained d) (total_max_marks d) (term_average d)
     (overall_grade d) (class_arm_position d) (class_position d).

Definition set_gender v d : t R :=
  mk (student d) (assessment_group d) (academic_year d) (academic_term d)
     (term_start_date d) (term_end_date d) v (student_admission_id d)
     (student_group d) (number_of_students_in_class_group d)
     (number_of_students_in_class d) (subjects d) (assessment_components d)
     (total_marks_obtained d) (total_max_marks d) (term_average d)
     (overall_grade d) (class_arm_position d) (class_position d).

Definition set_student_admission_id v d : t R :=
  mk (student d) (assessment_group d) (academic_year d) (academic_term d)
     (term_start_date d) (term_end_date d) (gender d) v
     (student_group d) (number_of_students_in_class_group d)
     (number_of_students_in_class d) (subjects d) (assessment_components d)
     (total_marks_obtained d) (total_max_marks d) (term_average d)
     (overall_grade d) (class_arm_position d) (class_position d).

Definition set_student_group v d : t R :=
  mk (student d) (assessment_group d) (academic_year d) (academic_term d)
     (term_start_date d) (term_end_date d) (gender d) (student_admission_id d)
     v (number_of_students_in_class_group d)
     (number_of_students_in_class d) (subjects d) (assessment_components d)
     (total_marks_obtained d) (total_max_marks d) (term_average d)
     (overall_grade d) (class_arm_position d) (class_position d).

Definition set_number_of_students_in_class_group v d : t R :=
  mk (student d) (assessment_group d) (academic_year d) (academic_term d)
     (term_start_date d) (term_end_date d) (gender d) (student_admission_id d)
     (student_group d) v
     (number_of_students_in_class d) (subjects d) (assessment_components d)
     (total_marks_obtained d) (total_max_marks d) (term_average d)
     (overall_grade d) (class_arm_position d) (class_position d).

Definition set_number_of_students_in_class v d : t R :=
  mk (student d) (assessment_group d) (academic_year d) (academic_term d)
     (term_start_date d) (term_end_date d) (gender d) (student_admission_id d)
     (student_group d) (number_of_students_in_class_group d)
     v (subjects d) (assessment_components d)
     (total_marks_obtained d) (total_max_marks d) (term_average d)
     (overall_grade d) (class_arm_position d) (class_position d).

Definition set_subjects v d : t R :=
  mk (student d) (assessment_group d) (academic_year d) (academic_term d)
     (term_start_date d) (term_end_date d) (gender d) (student_admission_id d)
     (student_group d) (number_of_students_in_class_group d)
     (number_of_students_in_class d) v (assessment_components d)
     (total_marks_obtained d) (total_max_marks d) (term_average d)
     (overall_grade d) (class_arm_position d) (class_position d).

Definition set_assessment_components v d : t R :=
  mk (student d) (assessment_group d) (academic_year d) (academic_term d)
     (term_start_date d) (term_end_date d) (gender d) (student_admission_id d)
     (student_group d) (number_of_students_in_class_group d)
     (number_of_students_in_class d) (subjects d) v
     (total_marks_obtained d) (total_max_marks d) (term_average d)
     (overall_grade d) (class_arm_position d) (class_position d).

Definition set_total_marks_obtained v d : t R :=
  mk (student d) (assessment_group d) (academic_year d) (academic_term d)
     (term_start_date d) (term_end_date d) (gender d) (student_admission_id d)
     (student_group d) (number_of_students_in_class_group d)
     (number_of_students_in_class d) (subjects d) (assessment_components d)
     v (total_max_marks d) (term_average d)
     (overall_grade d) (class_arm_position d) (class_position d).

Definition set_total_max_marks v d : t R :=
  mk (student d) (assessment_group d) (academic_year d) (academic_term d)
     (term_start_date d) (term_end_date d) (gender d) (student_admission_id d)
     (student_group d) (number_of_students_in_class_group d)
     (number_of_students_in_class d) (subjects d) (assessment_components d)
     (total_marks_obtained d) v (term_average d)
     (overall_grade d) (class_arm_position d) (class_position d).

Definition set_term_average v d : t R :=
  mk (student d) (assessment_group d) (academic_year d) (academic_term d)
     (term_start_date d) (term_end_date d) (gender d) (student_admission_id d)
     (student_group d) (number_of_students_in_class_group d)
     (number_of_students_in_class d) (subjects d) (assessment_components d)
     (total_marks_obtained d) (total_max_marks d) v
     (overall_grade d) (class_arm_position d) (class_position d).

Definition set_overall_grade v d : t R :=
  mk (student d) (assessment_group d) (academic_year d) (academic_term d)
     (term_start_date d) (term_end_date d) (gender d) (student_admission_id d)
     (student_group d) (number_of_students_in_class_group d)
     (number_of_students_in_class d) (subjects d) (assessment_components d)
     (total_marks_obtained d) (total_max_marks d) (term_average d)
     v (class_arm_position d) (class_position d).

Definition set_class_arm_position v d : t R :=
  mk (student d) (assessment_group d) (academic_year d) (academic_term d)
     (term_start_date d) (term_end_date d) (gender d) (student_admission_id d)
     (student_group d) (number_of_students_in_class_group d)
     (number_of_students_in_class d) (subjects d) (assessment_components d)
     (total_marks_obtained d) (total_max_marks d) (term_average d)
     (overall_grade d) v (class_position d).

Definition set_class_position v d : t R :=
  mk (student d) (assessment_group d) (academic_year d) (academic_term d)
     (term_start_date d) (term_end_date d) (gender d) (student_admission_id d)
     (student_group d) (number_of_students_in_class_group d)
     (number_of_students_in_class d) (subjects d) (assessment_components d)
     (total_marks_obtained d) (total_max_marks d) (term_average d)
     (overall_grade d) (class_arm_position d) v.

End Setters.
End ResultDoc.

(** Assessment Criteria, as the validation hook reads it. *)
Module AssessmentCriteriaDoc.
Record t : Type := mk {
  assessment_criteria : option string
}.
End AssessmentCriteriaDoc.

(* ------------------------------------------------------------------ *)
(** * The framework: exceptions, effects and reads *)

Module Frappe.

Inductive Exc : Type :=
| DoesNotExistError (doctype : string) (name : option string)
| ValidationError (msg : string).

(** [str(e)]. *)
Definition exc_str (e : Exc) : string :=
  match e with
  | DoesNotExistError doctype name => doctype ++ " " ++ fmt name ++ " not found"
  | ValidationError msg => msg
  end.

Inductive Outcome (A : Type) : Type :=
| Returned (a : A)
| Raised (e : Exc).

Arguments Returned {A} a.
Arguments Raised {A} e.

(** What a call leaves behind besides its result, in the order it happens:
    [frappe.msgprint], [frappe.log_error], [doc.insert()] of a School Term
    Result and [frappe.db.commit()]. *)
Inductive Event (R : Type) : Type :=
| Msgprint (msg : string)
| LogError (msg : string)
| Insert (doc : ResultDoc.t R)
| Commit.

Arguments Msgprint {R} msg.
Arguments LogError {R} msg.
Arguments Insert {R} doc.
Arguments Commit {R}.

(** A computation: how it ends and the events it emitted until then. *)
Definition Action (R A : Type) : Type := (Outcome A * list (Event R))%type.

Section Monad.
Context {R : Type}.

Definition ret {A} (a : A) : Action R A := (Returned a, []).

Definition bind {A B} (m : Action R A) (f : A -> Action R B) : Action R B :=
  match fst m with
  | Returned a => (fst (f a), snd m ++ snd (f a))
  | Raised e => (Raised e, snd m)
  end.

Definition emit (ev : Event R) : Action R unit := (Returned tt, [ev]).

Definition raise {A} (e : Exc) : Action R A := (Raised e, []).

(** [frappe.msgprint(msg)]. *)
Definition msgprint (msg : string) : Action R unit := emit (Msgprint msg).

(** [frappe.log_error(msg)]. *)
Definition log_error (msg : string) : Action R unit := emit (LogError msg).

(** [frappe.throw(msg)]. *)
Definition throw {A} (msg : string) : Action R A := raise (ValidationError msg).

(** [frappe.get_doc(doctype, name)] given what the database holds under
    that name. *)
Definition get_doc {A} (doctype : string) (name : option string)
    (found : option A) : Action R A :=
  match found with
  | Some d => ret d
  | None => raise (DoesNotExistError doctype name)
  end.

(** [for x in l: body(x)]. *)
Fixpoint for_each {A} (l : list A) (body : A -> Action R unit) : Action R unit :=
  match l with
  | [] => ret tt
  | x :: rest => bind (body x) (fun _ => for_each rest body)
  end.

End Monad.

Notation "x <- m ;; k" := (bind m (fun x => k))
  (at level 61, m at next level, right associativity).
Notation "m ;; k" := (bind m (fun _ => k))
  (at level 61, right associativity).

(** The reads of the two source files, one field per call site.

    - [generator]: [frappe.get_doc("School Term Class Result Generator", docname)].
    - [group_students parent]: the [student] column of
      [frappe.get_all("Student Group Student", filters={"parent": parent})], api.py:18.
    - [student_doc], [academic_term_doc]: [frappe.get_doc("Student", _)],
      [frappe.get_doc("Academic Term", _)].
    - [student_groups student]: the [parent] column of
      [frappe.get_all("Student Group Student", filters={"student": student})], api.py:65.
    - [count_group_students], [program_of_group], [count_program_enrollment]:
      api.py:76, api.py:82 and 250, api.py:85.
    - [detailed_results student year term group]: the query at api.py:98.
    - [class_scores group course assessment_group term year]: the
      [total_score] column of the query at api.py:160, which keeps only
      non-null scores.
    - [class_arm_totals group assessment_group term year]: the rows
      (student, SUM(total_score)) of the query at api.py:227; and
      [class_totals program year term assessment_group] those of api.py:252.
      [total_score] is a Float column, which the framework declares NOT NULL,
      so the sum of a group of rows is a number.
    - [school_settings]: [frappe.get_doc("School Settings")]. *)
Record Database (R : Type) : Type := {
  generator : string -> option Generator.t;
  group_students : option string -> list string;
  student_doc : option string -> option Student.t;
  academic_term_doc : option string -> option AcademicTerm.t;
  student_groups : option string -> list string;
  count_group_students : string -> nat;
  program_of_group : option string -> option string;
  count_program_enrollment :
    option string -> option string -> option string -> nat;
  detailed_results :
    option string -> option string -> option string -> option string ->
    list (DetailedResult.t R);
  class_scores :
    option string -> string -> option string -> option string ->
    option string -> list R;
  class_arm_totals :
    option string -> option string -> option string -> option string ->
    list (string * R);
  class_totals :
    option string -> option string -> option string -> option string ->
    list (string * R);
  school_settings : option (SchoolSettings.t R)
}.

End Frappe.

Import Frappe.

(* ------------------------------------------------------------------ *)
(** * education_extension/education_extension/api.py *)

Module Api.
Section Code.
Context {R : Type} {num : Number R}.
Variable db : Database R.

(** [try: body except Exception as e: handler(e)]. *)
Definition try_except {A} (body : Action R A) (handler : Exc -> Action R A)
    : Action R A :=
  match fst body with
  | Returned _ => body
  | Raised e => (fst (handler e), snd body ++ snd (handler e))
  end.

(** ** Grouping the rows by course (api.py:121-134) *)

(** [course in course_details]. *)
Fixpoint has_course (course : string) (course_details : list (string * CourseData.t R))
    : bool :=
  match course_details with
  | [] => false
  | (k, _) :: rest => if String.eqb k course then true else has_course course rest
  end.

(** [course_details[course]["details"].append(d)]. *)
Fixpoint append_detail (course : string) (d : Detail.t R)
    (course_details : list (string * CourseData.t R))
    : list (string * CourseData.t R) :=
  match course_details with
  | [] => []
  | (k, data) :: rest =>
      if String.eqb k course
      then (k, CourseData.mk (CourseData.details data ++ [d])
                 (CourseData.total_score data) (CourseData.grade data)) :: rest
      else (k, data) :: append_detail course d rest
  end.

(** The body of [for row in detailed_results] at api.py:122. *)
Definition course_details_step (course_details : list (string * CourseData.t R))
    (row : DetailedResult.t R) : list (string * CourseData.t R) :=
  let course := DetailedResult.course row in
  let course_details :=
    if has_course course course_details then course_details
    else course_details ++
           [(course, CourseData.mk [] (DetailedResult.total_score row)
                       (DetailedResult.grade row))] in
  append_detail course
    (Detail.mk (DetailedResult.assessment_criteria row)
       (opt_or (DetailedResult.score row) zero)
       (opt_or (DetailedResult.maximum_score row) zero))
    course_details.

Definition build_course_details (detailed_results : list (DetailedResult.t R))
    : list (string * CourseData.t R) :=
  fold_left course_details_step detailed_results [].

(** ** The child tables (api.py:137-155) *)

(** The dict appended to [subjects] for one item of [course_details]. *)
Definition subject_row_of (item : string * CourseData.t R) : SubjectRow.t R :=
  SubjectRow.mk (fst item)
    (opt_or (CourseData.total_score (snd item)) zero)
    (opt_str_or (CourseData.grade (snd item)) "")
    "" zero zero zero.

Definition append_subjects (course_details : list (string * CourseData.t R))
    (doc : ResultDoc.t R) : ResultDoc.t R :=
  fold_left
    (fun doc item =>
       ResultDoc.set_subjects (ResultDoc.subjects doc ++ [subject_row_of item]) doc)
    course_details doc.

(** The dict appended to [assessment_components] for one row. *)
Definition component_row_of (row : DetailedResult.t R) : ComponentRow.t R :=
  ComponentRow.mk (DetailedResult.assessment_criteria row)
    (opt_or (DetailedResult.score row) zero)
    (opt_or (DetailedResult.maximum_score row) zero)
    (DetailedResult.course row).

Definition append_components (detailed_results : list (DetailedResult.t R))
    (doc : ResultDoc.t R) : ResultDoc.t R :=
  fold_left
    (fun doc row =>
       ResultDoc.set_assessment_components
         (ResultDoc.assessment_components doc ++ [component_row_of row]) doc)
    detailed_results doc.

(** ** Class statistics and subject position (api.py:158-188) *)

(** [position = 1; for v in values: if v > mine: position += 1]
    (api.py:184-187, 243-246 and 272-275). *)
Definition position_among (values : list R) (mine : R) : nat :=
  fold_left (fun position v => if ltb mine v then S position else position)
    values 1%nat.

(** The body of [for subject_row in doc.subjects]. *)
Definition class_stats (doc : ResultDoc.t R) (subject_row : SubjectRow.t R)
    : SubjectRow.t R :=
  if opt_str_truthy (ResultDoc.student_group doc)
     && str_truthy (SubjectRow.subject subject_row)
  then
    match class_scores db (ResultDoc.student_group doc)
            (SubjectRow.subject subject_row) (ResultDoc.assessment_group doc)
            (ResultDoc.academic_term doc) (ResultDoc.academic_year doc) with
    | [] => subject_row
    | first :: rest =>
        let scores_list := first :: rest in
        let current_student_score :=
          num_or (SubjectRow.total_score subject_row) zero in
        SubjectRow.mk (SubjectRow.subject subject_row)
          (SubjectRow.total_score subject_row)
          (SubjectRow.grade subject_row)
          (py_str (position_among scores_list current_student_score))
          (py_max first rest)
          (py_min first rest)
          (round2 (div (py_sum scores_list) (py_len scores_list)))
    end
  else subject_row.

(** ** Totals and term average (api.py:191-197) *)

Definition total_marks_of (doc : ResultDoc.t R) : R :=
  py_sum (map (fun subject => num_or (SubjectRow.total_score subject) zero)
            (ResultDoc.subjects doc)).

Definition max_marks_of (doc : ResultDoc.t R) : R :=
  py_sum (map (fun component => num_or (ComponentRow.max_score component) zero)
            (ResultDoc.assessment_components doc)).

Definition totals (doc : ResultDoc.t R) : ResultDoc.t R :=
  let total_marks := total_marks_of doc in
  let doc := ResultDoc.set_total_marks_obtained (Some total_marks) doc in
  let max_marks := max_marks_of doc in
  let doc := ResultDoc.set_total_max_marks (Some max_marks) doc in
  if ltb zero max_marks
  then ResultDoc.set_term_average
         (Some (round2 (mul (div total_marks max_marks) (of_Z 100)))) doc
  else doc.

(** ** Overall grade (api.py:200-222) *)

(** [for grade_row in scale: ... break], started with [overall_grade]. *)
Fixpoint scan_grading_scale (scale : list (GradeBand.t R)) (term_average : R)
    (overall_grade : string) : string :=
  match scale with
  | [] => overall_grade
  | grade_row :: rest =>
      let min_pct := opt_or (GradeBand.min_percentage grade_row) zero in
      let max_pct := opt_or (GradeBand.max_percentage grade_row) (of_Z 100) in
      if leb min_pct term_average && leb term_average max_pct
      then GradeBand.grade_code grade_row
      else scan_grading_scale rest term_average overall_grade
  end.

(** The fallback thresholds. *)
Definition fallback_grade (avg : R) : string :=
  if leb (of_Z 80) avg then "A"
  else if leb (of_Z 70) avg then "B"
  else if leb (of_Z 60) avg then "C"
  else if leb (of_Z 50) avg then "D"
  else "F".

Definition overall_grade_step (doc : ResultDoc.t R) : Action R (ResultDoc.t R) :=
  match ResultDoc.term_average doc with
  | None => ret doc
  | Some term_average =>
      if truthy term_average then
        try_except
          (settings <- get_doc "School Settings" (Some "School Settings")
                         (school_settings db) ;;
           let overall_grade :=
             match SchoolSettings.overall_grading_scale settings with
             | [] => fallback_grade term_average
             | scale => scan_grading_scale scale term_average "N/A"
             end in
           ret (ResultDoc.set_overall_grade (Some overall_grade) doc))
          (fun e =>
             log_error ("Error calculating overall grade: " ++ exc_str e) ;;
             ret (ResultDoc.set_overall_grade (Some "N/A") doc))
      else ret doc
  end.

(** ** Class-arm and program positions (api.py:225-276) *)

Definition positions (doc : ResultDoc.t R) : ResultDoc.t R :=
  if opt_str_truthy (ResultDoc.student_group doc) then
    let doc :=
      match class_arm_totals db (ResultDoc.student_group doc)
              (ResultDoc.assessment_group doc) (ResultDoc.academic_term doc)
              (ResultDoc.academic_year doc) with
      | [] => doc
      | rows =>
          let student_total_marks :=
            opt_or (ResultDoc.total_marks_obtained doc) zero in
          ResultDoc.set_class_arm_position
            (Some (position_among (map snd rows) student_total_marks)) doc
      end in
    let program := program_of_group db (ResultDoc.student_group doc) in
    if opt_str_truthy program then
      match class_totals db program (ResultDoc.academic_year doc)
              (ResultDoc.academic_term doc) (ResultDoc.assessment_group doc) with
      | [] => doc
      | rows =>
          let student_total_marks :=
            opt_or (ResultDoc.total_marks_obtained doc) zero in
          ResultDoc.set_class_position
            (Some (position_among (map snd rows) student_total_marks)) doc
      end
    else doc
  else doc.

(** ** [populate_student_result] *)

(** Term dates and student fields (api.py:57-62). *)
Definition student_info (student_doc : Student.t) (term_doc : AcademicTerm.t)
    (doc : ResultDoc.t R) : ResultDoc.t R :=
  let doc := ResultDoc.set_term_start_date (AcademicTerm.term_start_date term_doc) doc in
  let doc := ResultDoc.set_term_end_date (AcademicTerm.term_end_date term_doc) doc in
  let doc := ResultDoc.set_gender (Student.gender student_doc) doc in
  ResultDoc.set_student_admission_id (Some (Student.name student_doc)) doc.

(** Student group and class sizes (api.py:65-95). *)
Definition group_info (doc : ResultDoc.t R) : Action R (ResultDoc.t R) :=
  match student_groups db (ResultDoc.student doc) with
  | student_group_name :: _ =>
      let doc := ResultDoc.set_student_group (Some student_group_name) doc in
      let doc :=
        ResultDoc.set_number_of_students_in_class_group
          (Some (count_group_students db student_group_name)) doc in
      let program := program_of_group db (Some student_group_name) in
      ret (ResultDoc.set_number_of_students_in_class
             (Some (count_program_enrollment db program
                      (ResultDoc.academic_year doc) (ResultDoc.academic_term doc)))
             doc)
  | [] =>
      msgprint ("No Student Group found for " ++ fmt (ResultDoc.student doc)) ;;
      ret doc
  end.

(** The branch [if detailed_results:] (api.py:121-276). *)
Definition fill_from_results (detailed_results : list (DetailedResult.t R))
    (doc : ResultDoc.t R) : Action R (ResultDoc.t R) :=
  let course_details := build_course_details detailed_results in
  let doc := append_subjects course_details doc in
  let doc := append_components detailed_results doc in
  let doc :=
    ResultDoc.set_subjects (map (class_stats doc) (ResultDoc.subjects doc)) doc in
  let doc := totals doc in
  doc <- overall_grade_step doc ;;
  ret (positions doc).

Definition populate_student_result (doc : ResultDoc.t R)
    : Action R (ResultDoc.t R) :=
  student_doc <- get_doc "Student" (ResultDoc.student doc)
                   (student_doc db (ResultDoc.student doc)) ;;
  term_doc <- get_doc "Academic Term" (ResultDoc.academic_term doc)
                (academic_term_doc db (ResultDoc.academic_term doc)) ;;
  let doc := student_info student_doc term_doc doc in
  doc <- group_info doc ;;
  let detailed_results :=
    detailed_results db (ResultDoc.student doc) (ResultDoc.academic_year doc)
      (ResultDoc.academic_term doc) (ResultDoc.assessment_group doc) in
  let doc := ResultDoc.set_subjects [] doc in
  let doc := ResultDoc.set_assessment_components [] doc in
  match detailed_results with
  | [] =>
      msgprint ("No Assessment Results found for student "
                ++ fmt (ResultDoc.student doc)) ;;
      ret doc
  | _ => fill_from_results detailed_results doc
  end.

(** ** [generate_class_results] *)

(** The stub built at api.py:32-36. *)
Definition result_stub (generator_doc : Generator.t) (student_id : string)
    : ResultDoc.t R :=
  let result_doc := ResultDoc.new_doc R in
  let result_doc := ResultDoc.set_student (Some student_id) result_doc in
  let result_doc :=
    ResultDoc.set_assessment_group (Generator.assessment_group generator_doc) result_doc in
  let result_doc :=
    ResultDoc.set_academic_year (Generator.academic_year generator_doc) result_doc in
  ResultDoc.set_academic_term (Generator.academic_term generator_doc) result_doc.

(** The test of api.py:13-14. *)
Definition filters_set (generator_doc : Generator.t) : bool :=
  opt_str_truthy (Generator.assessment_group generator_doc)
  && opt_str_truthy (Generator.academic_year generator_doc)
  && opt_str_truthy (Generator.academic_term generator_doc)
  && opt_str_truthy (Generator.student_group generator_doc).

(** The body of [for entry in students] (api.py:28-43). *)
Definition generate_one (generator_doc : Generator.t) (student_id : string)
    : Action R unit :=
  result_doc <- populate_student_result (result_stub generator_doc student_id) ;;
  emit (Insert result_doc) ;;
  emit Commit.

Definition generate_class_results (docname : string) : Action R unit :=
  generator_doc <- get_doc "School Term Class Result Generator" (Some docname)
                     (generator db docname) ;;
  if negb (filters_set generator_doc) then
    throw "Assessment Group, Academic Year, Academic Term, and Student Group are required."
  else
    let students := group_students db (Generator.student_group generator_doc) in
    match students with
    | [] =>
        msgprint ("No students found in "
                  ++ fmt (Generator.student_group generator_doc))
    | _ =>
        for_each students (generate_one generator_doc) ;;
        msgprint ("Generated results for " ++ py_str (length students)
                  ++ " students in "
                  ++ fmt (Generator.student_group generator_doc) ++ ".")
    end.

End Code.
End Api.

(* ------------------------------------------------------------------ *)
(** * education_extension/overrides/assessment_criteria.py *)

Module Overrides.
Section Code.
Context {R : Type}.
Variable db : Database R.

(** The character [chr(34)] around the name in the error message. *)
Definition quote : string := String (Ascii.ascii_of_nat 34) EmptyString.

Definition not_configured (name : option string) : string :=
  "Assessment Criteria " ++ quote ++ fmt name ++ quote
  ++ " is not configured in School Settings. Please add it first.".

(** [validate_assessment_criteria(doc, method)]: the [try] returns when
    [frappe.get_doc] raises [DoesNotExistError]. *)
Definition validate_assessment_criteria (doc : AssessmentCriteriaDoc.t)
    (method : string) : Action R unit :=
  match school_settings db with
  | None => ret tt
  | Some settings =>
      let valid_criteria :=
        map CriteriaItem.criteria_name
          (SchoolSettings.assessment_criteria_item settings) in
      match valid_criteria with
      | [] => ret tt
      | _ =>
          if negb (py_in (AssessmentCriteriaDoc.assessment_criteria doc) valid_criteria)
          then throw (not_configured (AssessmentCriteriaDoc.assessment_criteria doc))
          else ret tt
      end
  end.

End Code.
End Overrides.

(* ------------------------------------------------------------------ *)
(** * Reading the record and the log

    The vocabulary of the properties below: what a record or a log is
    asked, and the intermediate records of a run. *)

Unset Implicit Arguments.

Section Reading.
Context {R : Type} {num : Number R}.
Variable db : Database R.

(** The number of [values] strictly greater than [mine]. *)
Definition count_exceeding (values : list R) (mine : R) : nat :=
  length (filter (ltb mine) values).

(** The rows of the query at api.py:98 for a record. *)
Definition results_of (doc : ResultDoc.t R) : list (DetailedResult.t R) :=
  detailed_results db (ResultDoc.student doc) (ResultDoc.academic_year doc)
    (ResultDoc.academic_term doc) (ResultDoc.assessment_group doc).

(** The group the record ends up with: the first one the roster query
    returns, else what the record already held. *)
Definition resolved_group (doc : ResultDoc.t R) : option string :=
  match student_groups db (ResultDoc.student doc) with
  | student_group_name :: _ => Some student_group_name
  | [] => ResultDoc.student_group doc
  end.

(** The child tables as built from the rows, before the class statistics. *)
Definition initial_subjects (results : list (DetailedResult.t R))
    : list (SubjectRow.t R) :=
  map Api.subject_row_of (Api.build_course_details results).

(** The record after the group step, whatever the roster query returns. *)
Definition with_group (doc : ResultDoc.t R) : ResultDoc.t R :=
  match student_groups db (ResultDoc.student doc) with
  | student_group_name :: _ =>
      ResultDoc.set_number_of_students_in_class
        (Some (count_program_enrollment db
                 (program_of_group db (Some student_group_name))
                 (ResultDoc.academic_year doc) (ResultDoc.academic_term doc)))
        (ResultDoc.set_number_of_students_in_class_group
           (Some (count_group_students db student_group_name))
           (ResultDoc.set_student_group (Some student_group_name) doc))
  | [] => doc
  end.

(** The record once both child tables are filled and the class statistics
    are computed. *)
Definition with_tables (results : list (DetailedResult.t R))
    (doc : ResultDoc.t R) : ResultDoc.t R :=
  let doc := ResultDoc.set_subjects [] doc in
  let doc := ResultDoc.set_assessment_components [] doc in
  let doc := Api.append_subjects (Api.build_course_details results) doc in
  let doc := Api.append_components results doc in
  ResultDoc.set_subjects
    (map (Api.class_stats db doc) (ResultDoc.subjects doc)) doc.

(** The record when the grade step starts: the totals are computed too. *)
Definition before_grade (results : list (DetailedResult.t R))
    (doc : ResultDoc.t R) : ResultDoc.t R :=
  Api.totals (with_tables results doc).

(** The fields [class_stats] reads from the record. *)
Definition same_keys (d1 d2 : ResultDoc.t R) : Prop :=
  ResultDoc.student d1 = ResultDoc.student d2 /\
  ResultDoc.student_group d1 = ResultDoc.student_group d2 /\
  ResultDoc.assessment_group d1 = ResultDoc.assessment_group d2 /\
  ResultDoc.academic_year d1 = ResultDoc.academic_year d2 /\
  ResultDoc.academic_term d1 = ResultDoc.academic_term d2.

(** The range a band stands for: its lower bound is [min_percentage], or 0
    when that is unset; its upper bound is [max_percentage], or 100 when
    that is unset or zero. *)
Definition in_band (band : GradeBand.t R) (avg : R) : bool :=
  leb (opt_or (GradeBand.min_percentage band) zero) avg
  && leb avg (opt_or (GradeBand.max_percentage band) (of_Z 100)).

(** A band's range read as its two stored bounds, nothing else: the
    average is in it when min% <= average <= max%. *)
Definition in_stored_range (band : GradeBand.t R) (avg : R) : bool :=
  match GradeBand.min_percentage band, GradeBand.max_percentage band with
  | Some lo, Some hi => leb lo avg && leb avg hi
  | _, _ => false
  end.

(** The grade code of the first band, in configured order, whose stored
    range contains the average. *)
Fixpoint first_band_in_stored_range (scale : list (GradeBand.t R)) (avg : R)
    : option string :=
  match scale with
  | [] => None
  | band :: rest =>
      if in_stored_range band avg then Some (GradeBand.grade_code band)
      else first_band_in_stored_range rest avg
  end.

(** The School Term Result records a log inserts, in order. *)
Fixpoint inserted (evs : list (Event R)) : list (ResultDoc.t R) :=
  match evs with
  | [] => []
  | Insert doc :: rest => doc :: inserted rest
  | _ :: rest => inserted rest
  end.

(** The persistence layer replayed over a log: an insert is pending until
    the next commit makes it durable.  The result is the pending records
    and the committed ones. *)
Fixpoint replay (evs : list (Event R))
    (pending committed : list (ResultDoc.t R))
    : list (ResultDoc.t R) * list (ResultDoc.t R) :=
  match evs with
  | [] => (pending, committed)
  | Insert doc :: rest => replay rest (pending ++ [doc]) committed
  | Commit :: rest => replay rest [] (committed ++ pending)
  | _ :: rest => replay rest pending committed
  end.

(** An event that writes nothing: a message or an error-log entry. *)
Definition notice (ev : Event R) : Prop :=
  match ev with
  | Msgprint _ | LogError _ => True
  | Insert _ | Commit => False
  end.

(** The record the run for one student of the roster returns. *)
Definition populated (generator_doc : Generator.t) (student_id : string)
    : ResultDoc.t R :=
  match fst (Api.populate_student_result db
               (Api.result_stub generator_doc student_id)) with
  | Returned doc => doc
  | Raised _ => Api.result_stub generator_doc student_id
  end.

(** The log of one pass of the loop body. *)
Definition pass_log (generator_doc : Generator.t) (student_id : string)
    : list (Event R) :=
  snd (Api.populate_student_result db (Api.result_stub generator_doc student_id))
  ++ [Insert (populated generator_doc student_id); Commit].

(** The criteria names School Settings lists. *)
Definition whitelist (settings : SchoolSettings.t R) : list (option string) :=
  map CriteriaItem.criteria_name (SchoolSettings.assessment_criteria_item settings).

End Reading.

(* ------------------------------------------------------------------ *)
(** * Exact rationals as numbers, and a worked school *)

Module Rational.

(** [round(x, 2)] on an exact value: to the nearest hundredth, a tie going
    to the even one. *)
Definition round_half_even (q : Q) : Z :=
  let f := Qfloor q in
  match Qcompare (q - inject_Z f)%Q (1 # 2)%Q with
  | Lt => f
  | Gt => (f + 1)%Z
  | Eq => if Z.even f then f else (f + 1)%Z
  end.

Definition Qc_round2 (x : Qc) : Qc :=
  Q2Qc (inject_Z (round_half_even (this x * 100)%Q) / 100)%Q.

Definition Qc_ltb (x y : Qc) : bool :=
  match Qccompare x y with
  | Lt => true
  | _ => false
  end.

Definition Qc_truthy (x : Qc) : bool := negb (Qc_eq_bool x (Q2Qc 0)).

Definition Qc_of_Z (z : Z) : Qc := Q2Qc (inject_Z z).

End Rational.

Module School.
Import Rational.

Definition q (z : Z) : Qc := Qc_of_Z z.

Definition band (lo hi : Z) (code : string) : GradeBand.t Qc :=
  GradeBand.mk (Some (q lo)) (Some (q hi)) code.

(** Total scores in Math and English of the students with results. *)
Definition marks (student : option string) : option (Z * Z) :=
  match student with
  | Some "S1" => Some (90, 70)%Z
  | Some "S2" => Some (90, 80)%Z
  | Some "S3" => Some (80, 90)%Z
  | Some "S4" => Some (60, 70)%Z
  | Some "S6" => Some (0, 0)%Z
  | _ => None
  end.

Definition row (course : string) (total : Z) (criteria : string) (score max : Z)
    : DetailedResult.t Qc :=
  DetailedResult.mk course (Some (q total)) (Some "-") (Some criteria)
    (Some (q score)) (Some (q max)).

(** The rows of the query at api.py:98, ordered by course, then by detail. *)
Definition rows_of (math english : Z) : list (DetailedResult.t Qc) :=
  [ row "English" english "CA" (english * 2 / 5) 40;
    row "English" english "Exam" (english * 3 / 5) 60;
    row "Math" math "CA" (math * 2 / 5) 40;
    row "Math" math "Exam" (math * 3 / 5) 60 ].

Definition keys (year term group : option string) : bool :=
  opt_str_eqb year (Some "2025") && opt_str_eqb term (Some "T1")
  && opt_str_eqb group (Some "AG1").

(** A school with one class G1 of S1, S2 and S3 in program P1, the students
    S4 and S6 with results but no class, the student S5 with neither, and
    the given grading scale. *)
Definition db (scale : list (GradeBand.t Qc)) : Database Qc := {|
  generator := fun docname =>
    match docname with
    | "GEN-1" =>
        Some (Generator.mk (Some "AG1") (Some "2025") (Some "T1") (Some "G1"))
    | "GEN-2" => Some (Generator.mk (Some "AG1") (Some "2025") (Some "T1") None)
    | "GEN-3" => Some (Generator.mk (Some "AG1") (Some "") (Some "T1") (Some "G1"))
    | _ => None
    end;
  group_students := fun parent =>
    if opt_str_eqb parent (Some "G1") then ["S1"; "S2"; "S3"] else [];
  student_doc := fun name =>
    match name with
    | Some "S1" => Some (Student.mk "S1" (Some "Female"))
    | Some "S2" => Some (Student.mk "S2" (Some "Male"))
    | Some "S3" => Some (Student.mk "S3" (Some "Female"))
    | Some "S4" => Some (Student.mk "S4" (Some "Male"))
    | Some "S5" => Some (Student.mk "S5" None)
    | Some "S6" => Some (Student.mk "S6" None)
    | _ => None
    end;
  academic_term_doc := fun name =>
    if opt_str_eqb name (Some "T1")
    then Some (AcademicTerm.mk (Some "2025-01-06") (Some "2025-04-11"))
    else None;
  student_groups := fun student =>
    match student with
    | Some "S1" | Some "S2" | Some "S3" => ["G1"]
    | _ => []
    end;
  count_group_students := fun parent => 3%nat;
  program_of_group := fun name =>
    if opt_str_eqb name (Some "G1") then Some "P1" else None;
  count_program_enrollment := fun program year term => 3%nat;
  detailed_results := fun student year term group =>
    if keys year term group then
      match marks student with
      | Some (math, english) => rows_of math english
      | None => []
      end
    else [];
  class_scores := fun group course assessment_group term year =>
    if opt_str_eqb group (Some "G1") && keys year term assessment_group then
      match course with
      | "Math" => [q 90; q 90; q 80]
      | "English" => [q 70; q 80; q 90]
      | _ => []
      end
    else [];
  class_arm_totals := fun group assessment_group term year =>
    if opt_str_eqb group (Some "G1") && keys year term assessment_group
    then [("S2", q 170); ("S3", q 170); ("S1", q 160)]
    else [];
  class_totals := fun program year term assessment_group =>
    if opt_str_eqb program (Some "P1") && keys year term assessment_group
    then [("S2", q 170); ("S3", q 170); ("S1", q 160)]
    else [];
  school_settings :=
    Some (SchoolSettings.mk scale
            [CriteriaItem.mk (Some "CA"); CriteriaItem.mk (Some "Exam")])
|}.

(** The grading scale A from 80, B below. *)
Definition scale_ab : list (GradeBand.t Qc) := [band 80 100 "A"; band 0 79 "B"].

(** The stub of a student, as the batch builds it from GEN-1. *)
Definition stub (student : string) : ResultDoc.t Qc :=
  Api.result_stub
    (Generator.mk (Some "AG1") (Some "2025") (Some "T1") (Some "G1")) student.

(** What a run returns, if it returns. *)
Definition returned {A} (run : Action Qc A) : option A :=
  match fst run with
  | Returned a => Some a
  | Raised _ => None
  end.

End School.

(* ------------------------------------------------------------------ *)
(** * Exact rationals satisfy the laws of numbers *)

Module RationalNumber.
Import Rational.

Lemma Qc_ltb_lt (x y : Qc) : Qc_ltb x y = true <-> (x < y)%Qc.
Proof.
  unfold Qc_ltb. rewrite Qclt_alt.
  destruct (Qccompare x y); split; congruence.
Qed.

Lemma Qc_truthy_false (x : Qc) : Qc_truthy x = false <-> x = Qc_of_Z 0.
Proof.
  unfold Qc_truthy, Qc_of_Z. rewrite negb_false_iff. split.
  - apply Qc_eq_bool_correct.
  - intros ->. unfold Qc_eq_bool.
    destruct (Qc_eq_dec _ _) as [_ | n]; [reflexivity | now destruct n].
Qed.

Lemma Qc_ltb_irrefl (x : Qc) : Qc_ltb x x = false.
Proof.
  destruct (Qc_ltb x x) eqn:E; [| reflexivity].
  apply Qc_ltb_lt in E. now apply Qclt_not_eq in E.
Qed.

Lemma Qc_ltb_trans (x y z : Qc) :
  Qc_ltb x y = true -> Qc_ltb y z = true -> Qc_ltb x z = true.
Proof.
  rewrite !Qc_ltb_lt. apply Qclt_trans.
Qed.

#[export] Instance Qc_Number : Number Qc := {|
  of_Z := Qc_of_Z;
  add := Qcplus;
  mul := Qcmult;
  div := Qcdiv;
  round2 := Qc_round2;
  ltb := Qc_ltb;
  leb := fun x y => negb (Qc_ltb y x);
  truthy := Qc_truthy;
  truthy_false := Qc_truthy_false;
  ltb_irrefl := Qc_ltb_irrefl;
  ltb_trans := Qc_ltb_trans;
  leb_ltb := fun x y => eq_refl
|}.

Local Open Scope Q_scope.

(** [round_half_even] picks an integer at distance at most one half. *)
Lemma round_half_even_close (x : Q) :
  (x - (1 # 2) <= inject_Z (round_half_even x) <= x + (1 # 2))%Q.
Proof.
  unfold round_half_even.
  pose proof (Qfloor_le x) as Hlo. pose proof (Qlt_floor x) as Hhi.
  rewrite inject_Z_plus in Hhi. change (inject_Z 1) with 1 in Hhi.
  set (f := inject_Z (Qfloor x)) in *.
  destruct (Qcompare (x - f) (1 # 2)) eqn:E.
  - apply Qeq_alt in E.
    destruct (Z.even (Qfloor x)); rewrite ?inject_Z_plus; fold f;
      change (inject_Z 1) with 1; split; lra.
  - apply Qlt_alt in E. fold f. split; lra.
  - apply Qgt_alt in E. rewrite inject_Z_plus. fold f.
    change (inject_Z 1) with 1. split; lra.
Qed.

(** [round(x, 2)] on a rational is a whole number of hundredths within half
    a hundredth of [x]. *)
Lemma Qc_round2_hundredths (x : Qc) :
  this (Qc_round2 x) == inject_Z (round_half_even (this x * 100)) / 100.
Proof. unfold Qc_round2, Q2Qc. cbn [this]. apply Qred_correct. Qed.

Lemma Qc_round2_close (x : Qc) :
  this x - (1 # 200) <= this (Qc_round2 x) <= this x + (1 # 200).
Proof.
  rewrite Qc_round2_hundredths.
  pose proof (round_half_even_close (this x * 100)) as [Hlo Hhi].
  set (z := inject_Z (round_half_even (this x * 100))) in *.
  split.
  - apply Qle_shift_div_l; [reflexivity | lra].
  - apply Qle_shift_div_r; [reflexivity | lra].
Qed.

End RationalNumber.

(* ------------------------------------------------------------------ *)
(** * Facts about the builtins *)

Section BuiltinFacts.
Context {R : Type} {num : Number R}.

Lemma num_or_zero (x : R) : num_or x zero = x.
Proof.
  unfold num_or. destruct (truthy x) eqn:E; [reflexivity |].
  apply truthy_false in E. now subst.
Qed.

Lemma map_num_or_zero {A} (f : A -> R) (l : list A) :
  map (fun a => num_or (f a) zero) l = map f l.
Proof. apply map_ext. intro a. apply num_or_zero. Qed.

Lemma position_loop (values : list R) (mine : R) (start : nat) :
  fold_left (fun position v => if ltb mine v then S position else position)
    values start = (start + count_exceeding values mine)%nat.
Proof.
  revert start. induction values as [| v values IH]; intro start; cbn.
  - unfold count_exceeding. cbn. lia.
  - rewrite IH. unfold count_exceeding. cbn. destruct (ltb mine v); cbn; lia.
Qed.

Lemma position_among_count (values : list R) (mine : R) :
  Api.position_among values mine = S (count_exceeding values mine).
Proof. unfold Api.position_among. now rewrite position_loop. Qed.

Lemma py_max_In (first : R) (rest : list R) : In (py_max first rest) (first :: rest).
Proof.
  unfold py_max. revert first. induction rest as [| x rest IH]; intro first; cbn.
  - now left.
  - destruct (IH (if ltb first x then x else first)) as [E | H].
    + destruct (ltb first x); rewrite <- E; auto.
    + auto.
Qed.

Lemma py_max_bound (rest : list R) :
  forall first s, ltb first s = false \/ In s rest -> ltb (py_max first rest) s = false.
Proof.
  unfold py_max. induction rest as [| x rest IH]; intros first s H; cbn.
  - destruct H as [H | []]. exact H.
  - apply IH. destruct H as [H | [-> | H]]; [left | left | now right].
    + destruct (ltb first x) eqn:E; [| exact H].
      destruct (ltb x s) eqn:E'; [| reflexivity].
      now rewrite (ltb_trans _ _ _ E E') in H.
    + destruct (ltb first s) eqn:E; [apply ltb_irrefl | exact E].
Qed.

Lemma py_max_upper (first : R) (rest : list R) (s : R) :
  In s (first :: rest) -> ltb (py_max first rest) s = false.
Proof.
  intros [<- | H]; apply py_max_bound; [left; apply ltb_irrefl | now right].
Qed.

Lemma py_min_In (first : R) (rest : list R) : In (py_min first rest) (first :: rest).
Proof.
  unfold py_min. revert first. induction rest as [| x rest IH]; intro first; cbn.
  - now left.
  - destruct (IH (if ltb x first then x else first)) as [E | H].
    + destruct (ltb x first); rewrite <- E; auto.
    + auto.
Qed.

Lemma py_min_bound (rest : list R) :
  forall first s, ltb s first = false \/ In s rest -> ltb s (py_min first rest) = false.
Proof.
  unfold py_min. induction rest as [| x rest IH]; intros first s H; cbn.
  - destruct H as [H | []]. exact H.
  - apply IH. destruct H as [H | [-> | H]]; [left | left | now right].
    + destruct (ltb x first) eqn:E; [| exact H].
      destruct (ltb s x) eqn:E'; [| reflexivity].
      now rewrite (ltb_trans _ _ _ E' E) in H.
    + destruct (ltb s first) eqn:E; [apply ltb_irrefl | exact E].
Qed.

Lemma py_min_lower (first : R) (rest : list R) (s : R) :
  In s (first :: rest) -> ltb s (py_min first rest) = false.
Proof.
  intros [<- | H]; apply py_min_bound; [left; apply ltb_irrefl | now right].
Qed.

End BuiltinFacts.

(* ------------------------------------------------------------------ *)
(** * The stages of [populate_student_result] *)

Section ApiFacts.
Context {R : Type} {num : Number R}.
Variable db : Database R.

Lemma bind_returned {A B} (m : Action R A) (f : A -> Action R B) b evs :
  bind m f = (Returned b, evs) ->
  exists a e1 e2, m = (Returned a, e1) /\ f a = (Returned b, e2) /\ evs = e1 ++ e2.
Proof.
  unfold bind. destruct m as [[a | e] e1]; cbn; intro H; [| discriminate].
  exists a, e1, (snd (f a)). inversion H; subst. 
  repeat split. now destruct (f a).
Qed.

Lemma append_subjects_eq (course_details : list (string * CourseData.t R)) :
  forall doc,
    Api.append_subjects course_details doc =
    ResultDoc.set_subjects
      (ResultDoc.subjects doc ++ map Api.subject_row_of course_details) doc.
Proof.
  unfold Api.append_subjects.
  induction course_details as [| item rest IH]; intro doc; cbn.
  - rewrite app_nil_r. now destruct doc.
  - rewrite IH. cbn. now rewrite <- app_assoc.
Qed.

Lemma append_components_eq (rows : list (DetailedResult.t R)) :
  forall doc,
    Api.append_components rows doc =
    ResultDoc.set_assessment_components
      (ResultDoc.assessment_components doc ++ map Api.component_row_of rows) doc.
Proof.
  unfold Api.append_components.
  induction rows as [| row rest IH]; intro doc; cbn.
  - rewrite app_nil_r. now destruct doc.
  - rewrite IH. cbn. now rewrite <- app_assoc.
Qed.

Lemma group_info_returns doc :
  exists msgs, Api.group_info db doc = (Returned (with_group db doc), msgs).
Proof.
  unfold Api.group_info, with_group.
  destruct (student_groups db _); eexists; reflexivity.
Qed.

Lemma overall_grade_step_returns doc :
  exists doc' msgs, Api.overall_grade_step db doc = (Returned doc', msgs).
Proof.
  unfold Api.overall_grade_step.
  destruct (ResultDoc.term_average doc) as [avg |]; [| now eexists; eexists].
  destruct (truthy avg); [| now eexists; eexists].
  destruct (school_settings db); cbn; eexists; eexists; reflexivity.
Qed.

Lemma with_group_keys doc :
  ResultDoc.student (with_group db doc) = ResultDoc.student doc /\
  ResultDoc.assessment_group (with_group db doc) = ResultDoc.assessment_group doc /\
  ResultDoc.academic_year (with_group db doc) = ResultDoc.academic_year doc /\
  ResultDoc.academic_term (with_group db doc) = ResultDoc.academic_term doc.
Proof. unfold with_group. destruct (student_groups db _); now cbn. Qed.

Lemma populate_returned doc doc' evs :
  Api.populate_student_result db doc = (Returned doc', evs) ->
  exists sd td,
    student_doc db (ResultDoc.student doc) = Some sd /\
    academic_term_doc db (ResultDoc.academic_term doc) = Some td /\
    let grouped := with_group db (Api.student_info sd td doc) in
    match results_of db doc with
    | [] =>
        doc' = ResultDoc.set_assessment_components []
                 (ResultDoc.set_subjects [] grouped) /\
        evs = snd (Api.group_info db (Api.student_info sd td doc))
              ++ [Msgprint ("No Assessment Results found for student "
                            ++ fmt (ResultDoc.student doc))]
    | results =>
        exists graded msgs,
          Api.overall_grade_step db (before_grade db results grouped)
            = (Returned graded, msgs) /\
          doc' = Api.positions db graded
    end.
Proof.
  unfold Api.populate_student_result. intro H.
  apply bind_returned in H as (sd & e1 & e2 & Hsd & H & E1).
  apply bind_returned in H as (td & e3 & e4 & Htd & H & E2).
  apply bind_returned in H as (grouped & e5 & e6 & Hg & H & E3).
  unfold get_doc in Hsd, Htd.
  destruct (student_doc db _) as [sd' |]; [| discriminate].
  destruct (academic_term_doc db _) as [td' |]; [| discriminate].
  inversion Hsd; inversion Htd; subst sd' td' e1 e3.
  exists sd, td. repeat split.
  destruct (group_info_returns (Api.student_info sd td doc)) as [msgs Hg'].
  rewrite Hg'. rewrite Hg' in Hg.
  assert (grouped = with_group db (Api.student_info sd td doc) /\ e5 = msgs)
    as [-> ->] by (split; congruence).
  clear Hg Hg'. cbv zeta in *.
  set (grouped := with_group db (Api.student_info sd td doc)) in *.
  assert (Hkeys : detailed_results db (ResultDoc.student grouped)
            (ResultDoc.academic_year grouped) (ResultDoc.academic_term grouped)
            (ResultDoc.assessment_group grouped) = results_of db doc
          /\ ResultDoc.student grouped = ResultDoc.student doc).
  { unfold results_of, grouped.
    destruct (with_group_keys (Api.student_info sd td doc)) as (-> & -> & -> & ->).
    now split. }
  destruct Hkeys as [Hres Hst].
  cbn [ResultDoc.student ResultDoc.academic_year ResultDoc.academic_term
       ResultDoc.assessment_group ResultDoc.set_subjects
       ResultDoc.set_assessment_components] in H.
  rewrite Hres, ?Hst in H.
  destruct (results_of db doc) as [| row rows].
  - apply bind_returned in H as (? & ? & ? & Hm & H & E4).
    inversion Hm; inversion H; subst.
    split; [reflexivity |]. cbn [snd app]. reflexivity.
  - unfold Api.fill_from_results in H.
    apply bind_returned in H as (graded & g1 & g2 & Hgr & H & _).
    exists graded, g1. split; [exact Hgr | now inversion H].
Qed.

Lemma class_stats_ext d1 d2 row :
  same_keys d1 d2 -> Api.class_stats db d1 row = Api.class_stats db d2 row.
Proof.
  intros (_ & Hg & Ha & Hy & Ht). unfold Api.class_stats.
  now rewrite Hg, Ha, Hy, Ht.
Qed.

Lemma overall_grade_step_cases d d' msgs :
  Api.overall_grade_step db d = (Returned d', msgs) ->
  d' = d \/ exists g, d' = ResultDoc.set_overall_grade (Some g) d.
Proof.
  unfold Api.overall_grade_step.
  destruct (ResultDoc.term_average d) as [avg |];
    [| intro H; inversion H; now left].
  destruct (truthy avg); [| intro H; inversion H; now left].
  destruct (school_settings db); cbn; intro H; inversion H; right; eauto.
Qed.

Lemma overall_grade_step_frame d d' msgs :
  Api.overall_grade_step db d = (Returned d', msgs) ->
  same_keys d' d /\
  ResultDoc.subjects d' = ResultDoc.subjects d /\
  ResultDoc.assessment_components d' = ResultDoc.assessment_components d /\
  ResultDoc.total_marks_obtained d' = ResultDoc.total_marks_obtained d /\
  ResultDoc.total_max_marks d' = ResultDoc.total_max_marks d /\
  ResultDoc.term_average d' = ResultDoc.term_average d /\
  ResultDoc.class_arm_position d' = ResultDoc.class_arm_position d.
Proof.
  intro H. apply overall_grade_step_cases in H as [-> | [g ->]];
    unfold same_keys; cbn; tauto.
Qed.

Lemma positions_frame d :
  same_keys (Api.positions db d) d /\
  ResultDoc.subjects (Api.positions db d) = ResultDoc.subjects d /\
  ResultDoc.assessment_components (Api.positions db d)
    = ResultDoc.assessment_components d /\
  ResultDoc.total_marks_obtained (Api.positions db d)
    = ResultDoc.total_marks_obtained d /\
  ResultDoc.total_max_marks (Api.positions db d) = ResultDoc.total_max_marks d /\
  ResultDoc.term_average (Api.positions db d) = ResultDoc.term_average d /\
  ResultDoc.overall_grade (Api.positions db d) = ResultDoc.overall_grade d.
Proof.
  unfold Api.positions, same_keys.
  destruct (opt_str_truthy (ResultDoc.student_group d)); [| tauto].
  destruct (class_arm_totals db _ _ _ _); cbn;
    destruct (opt_str_truthy (program_of_group db _)); try tauto;
    destruct (class_totals db _ _ _ _); cbn; tauto.
Qed.

Lemma totals_frame d :
  same_keys (Api.totals d) d /\
  ResultDoc.subjects (Api.totals d) = ResultDoc.subjects d /\
  ResultDoc.assessment_components (Api.totals d)
    = ResultDoc.assessment_components d /\
  ResultDoc.overall_grade (Api.totals d) = ResultDoc.overall_grade d /\
  ResultDoc.class_arm_position (Api.totals d) = ResultDoc.class_arm_position d.
Proof.
  unfold Api.totals, same_keys. cbv zeta.
  destruct (ltb zero _); cbn; tauto.
Qed.

Lemma totals_values d :
  let total := py_sum (map SubjectRow.total_score (ResultDoc.subjects d)) in
  let max := py_sum (map ComponentRow.max_score (ResultDoc.assessment_components d)) in
  ResultDoc.total_marks_obtained (Api.totals d) = Some total /\
  ResultDoc.total_max_marks (Api.totals d) = Some max /\
  ResultDoc.term_average (Api.totals d) =
    if ltb zero max then Some (round2 (mul (div total max) (of_Z 100)))
    else ResultDoc.term_average d.
Proof.
  unfold Api.totals, Api.total_marks_of, Api.max_marks_of. cbv zeta. cbn.
  rewrite !map_num_or_zero.
  destruct (ltb zero _); cbn; tauto.
Qed.

Lemma with_tables_frame results d :
  same_keys (with_tables db results d) d /\
  ResultDoc.subjects (with_tables db results d)
    = map (Api.class_stats db d) (initial_subjects results) /\
  ResultDoc.assessment_components (with_tables db results d)
    = map Api.component_row_of results /\
  ResultDoc.term_average (with_tables db results d) = ResultDoc.term_average d /\
  ResultDoc.overall_grade (with_tables db results d) = ResultDoc.overall_grade d /\
  ResultDoc.class_arm_position (with_tables db results d)
    = ResultDoc.class_arm_position d.
Proof.
  unfold with_tables. cbv zeta.
  rewrite append_subjects_eq, append_components_eq.
  unfold same_keys. cbn. repeat split.
Qed.

Lemma grouped_frame sd td doc :
  let grouped := with_group db (Api.student_info sd td doc) in
  ResultDoc.student grouped = ResultDoc.student doc /\
  ResultDoc.student_group grouped = resolved_group db doc /\
  ResultDoc.assessment_group grouped = ResultDoc.assessment_group doc /\
  ResultDoc.academic_year grouped = ResultDoc.academic_year doc /\
  ResultDoc.academic_term grouped = ResultDoc.academic_term doc /\
  ResultDoc.term_average grouped = ResultDoc.term_average doc /\
  ResultDoc.overall_grade grouped = ResultDoc.overall_grade doc /\
  ResultDoc.class_arm_position grouped = ResultDoc.class_arm_position doc.
Proof.
  unfold with_group, resolved_group, Api.student_info. cbn.
  destruct (student_groups db _); cbn; tauto.
Qed.

(** What a returning run over a student with assessment results leaves in
    the record. *)
Lemma populate_filled doc doc' evs :
  Api.populate_student_result db doc = (Returned doc', evs) ->
  results_of db doc <> [] ->
  let total := py_sum (map SubjectRow.total_score (ResultDoc.subjects doc')) in
  let max :=
    py_sum (map ComponentRow.max_score (ResultDoc.assessment_components doc')) in
  ResultDoc.student doc' = ResultDoc.student doc /\
  ResultDoc.student_group doc' = resolved_group db doc /\
  ResultDoc.assessment_group doc' = ResultDoc.assessment_group doc /\
  ResultDoc.academic_year doc' = ResultDoc.academic_year doc /\
  ResultDoc.academic_term doc' = ResultDoc.academic_term doc /\
  ResultDoc.subjects doc'
    = map (Api.class_stats db doc') (initial_subjects (results_of db doc)) /\
  ResultDoc.assessment_components doc'
    = map Api.component_row_of (results_of db doc) /\
  ResultDoc.total_marks_obtained doc' = Some total /\
  ResultDoc.total_max_marks doc' = Some max /\
  ResultDoc.term_average doc' =
    (if ltb zero max then Some (round2 (mul (div total max) (of_Z 100)))
     else ResultDoc.term_average doc) /\
  exists ungraded graded msgs,
    Api.overall_grade_step db ungraded = (Returned graded, msgs) /\
    doc' = Api.positions db graded /\
    ResultDoc.term_average ungraded = ResultDoc.term_average doc' /\
    ResultDoc.overall_grade ungraded = ResultDoc.overall_grade doc /\
    ResultDoc.class_arm_position graded = ResultDoc.class_arm_position doc /\
    ResultDoc.total_marks_obtained graded = Some total /\
    same_keys graded doc'.
Proof.
  intros H Hne. apply populate_returned in H as (sd & td & _ & _ & H).
  cbv zeta in H. destruct (results_of db doc) as [| row rows] eqn:Eres; [easy |].
  destruct H as (graded & msgs & Hstep & ->).
  set (grouped := with_group db (Api.student_info sd td doc)) in *.
  set (results := row :: rows) in *.
  destruct (grouped_frame sd td doc) as (G1 & G2 & G3 & G4 & G5 & G6 & G7 & G8).
  fold grouped in G1, G2, G3, G4, G5, G6, G7, G8.
  destruct (with_tables_frame results grouped) as (Wk & Ws & Wc & Wa & Wg & Wp).
  destruct (totals_frame (with_tables db results grouped)) as (Tk & Ts & Tc & Tg & Tp).
  pose proof (totals_values (with_tables db results grouped)) as (T1 & T2 & T3).
  fold (before_grade db results grouped) in Tk, Ts, Tc, Tg, Tp, T1, T2, T3.
  pose proof Hstep as Hframe. apply overall_grade_step_frame in Hframe.
  destruct Hframe as (Ok & Os & Oc & Ot & Om & Oa & Op).
  destruct (positions_frame graded) as (Pk & Ps & Pc & Pt & Pm & Pa & Pg).
  assert (Hkeys : same_keys (Api.positions db graded) grouped).
  { unfold same_keys in *. intuition congruence. }
  assert (Hsub : ResultDoc.subjects (Api.positions db graded)
                 = map (Api.class_stats db (Api.positions db graded))
                     (initial_subjects results)).
  { rewrite Ps, Os, Ts, Ws. apply map_ext. intro r. apply class_stats_ext.
    unfold same_keys in *. intuition congruence. }
  assert (Es : ResultDoc.subjects (with_tables db results grouped)
               = ResultDoc.subjects (Api.positions db graded)) by congruence.
  assert (Ec : ResultDoc.assessment_components (with_tables db results grouped)
               = ResultDoc.assessment_components (Api.positions db graded))
    by congruence.
  rewrite Es in T1, T3. rewrite Ec in T2, T3.
  unfold same_keys in *.
  repeat match goal with |- _ /\ _ => split end; try intuition congruence.
  - rewrite Pa, Oa, T3. destruct (ltb zero _); congruence.
  - exists (before_grade db results grouped), graded, msgs.
    repeat match goal with |- _ /\ _ => split end; try intuition congruence.
Qed.

End ApiFacts.

(* ------------------------------------------------------------------ *)
(** * What [populate_student_result] returns *)

Section RunFacts.
Context {R : Type} {num : Number R}.
Variable db : Database R.

Lemma bind_eval {A B} (m : Action R A) (f : A -> Action R B) a e1 :
  m = (Returned a, e1) -> bind m f = (fst (f a), e1 ++ snd (f a)).
Proof. intros ->. reflexivity. Qed.

(** The run returns as soon as the Student and Academic Term records exist. *)
Lemma populate_returns doc sd td :
  student_doc db (ResultDoc.student doc) = Some sd ->
  academic_term_doc db (ResultDoc.academic_term doc) = Some td ->
  exists doc' evs, Api.populate_student_result db doc = (Returned doc', evs).
Proof.
  intros Hsd Htd. unfold Api.populate_student_result.
  rewrite Hsd, Htd. cbn [get_doc].
  rewrite (bind_eval _ _ sd []) by reflexivity.
  rewrite (bind_eval _ _ td []) by reflexivity.
  destruct (group_info_returns db (Api.student_info sd td doc)) as [msgs Hg].
  rewrite (bind_eval _ _ _ _ Hg). cbv zeta.
  destruct (detailed_results db _ _ _ _) as [| row rows].
  - eexists; eexists. reflexivity.
  - unfold Api.fill_from_results. cbv zeta.
    match goal with |- context [Api.overall_grade_step db ?d] =>
      destruct (overall_grade_step_returns db d) as (graded & gmsgs & Hs) end.
    rewrite (bind_eval _ _ _ _ Hs). eexists; eexists. reflexivity.
Qed.

Lemma class_stats_subject d (row : SubjectRow.t R) :
  SubjectRow.subject (Api.class_stats db d row) = SubjectRow.subject row /\
  SubjectRow.total_score (Api.class_stats db d row) = SubjectRow.total_score row.
Proof.
  unfold Api.class_stats.
  destruct (_ && _); [| now split].
  destruct (class_scores db _ _ _ _ _); now split.
Qed.

Lemma class_stats_computed d (row : SubjectRow.t R) first rest :
  opt_str_truthy (ResultDoc.student_group d) = true ->
  str_truthy (SubjectRow.subject row) = true ->
  class_scores db (ResultDoc.student_group d) (SubjectRow.subject row)
    (ResultDoc.assessment_group d) (ResultDoc.academic_term d)
    (ResultDoc.academic_year d) = first :: rest ->
  let scores := first :: rest in
  let updated := Api.class_stats db d row in
  SubjectRow.subject_position updated
    = py_str (S (count_exceeding scores (SubjectRow.total_score row))) /\
  SubjectRow.class_highest_score updated = py_max first rest /\
  SubjectRow.class_lowest_score updated = py_min first rest /\
  SubjectRow.class_average_score updated
    = round2 (div (py_sum scores) (py_len scores)).
Proof.
  intros Hg Hs Hc. unfold Api.class_stats. rewrite Hg, Hs, Hc.
  cbn [andb]. cbv zeta.
  cbn [SubjectRow.subject_position SubjectRow.class_highest_score
       SubjectRow.class_lowest_score SubjectRow.class_average_score].
  rewrite num_or_zero, position_among_count. repeat split.
Qed.

(** A row of the populated [subjects] table is a row of the initial table
    after the class statistics step; with no results the table is empty. *)
Lemma populate_subject_row doc doc' evs row :
  Api.populate_student_result db doc = (Returned doc', evs) ->
  In row (ResultDoc.subjects doc') ->
  results_of db doc <> [] /\
  exists row0, In row0 (initial_subjects (results_of db doc)) /\
               row = Api.class_stats db doc' row0.
Proof.
  intros H Hin.
  assert (Hne : results_of db doc <> []).
  { intro E. apply populate_returned in H as (sd & td & _ & _ & H).
    cbv zeta in H. rewrite E in H. destruct H as [-> _]. exact Hin. }
  split; [exact Hne |].
  destruct (populate_filled db _ _ _ H Hne) as (_ & _ & _ & _ & _ & Hs & _).
  rewrite Hs in Hin. apply in_map_iff in Hin as (row0 & <- & Hin). eauto.
Qed.

End RunFacts.

Section CountFacts.
Context {R : Type} {num : Number R}.

Lemma count_exceeding_none (values : list R) (mine : R) :
  (forall v, In v values -> ltb mine v = false) -> count_exceeding values mine = 0%nat.
Proof.
  unfold count_exceeding. induction values as [| v values IH]; intro H; cbn.
  - reflexivity.
  - rewrite (H v (or_introl eq_refl)). apply IH. intros w Hw. apply H. now right.
Qed.

End CountFacts.

(* ------------------------------------------------------------------ *)
(** * Properties of the populated record *)

Section PopulateClaims.
Context {R : Type} {num : Number R}.
Variable db : Database R.

(** C2.  Subject position.  For a record whose Student and Academic Term
    records exist the run returns, and for every row of its [subjects]
    table whose course is named, in a resolved student group whose class
    query returns at least one score: the position written is [str] of 1
    plus the number of class scores strictly greater than the row's own
    total score; so a row no class score exceeds gets position 1, and in
    particular a row whose score is the class maximum does. *)
Theorem subject_position_counts_higher_scores
    (doc : ResultDoc.t R) (sd : Student.t) (td : AcademicTerm.t) :
  student_doc db (ResultDoc.student doc) = Some sd ->
  academic_term_doc db (ResultDoc.academic_term doc) = Some td ->
  exists doc' evs,
    Api.populate_student_result db doc = (Returned doc', evs) /\
    forall row first rest,
      In row (ResultDoc.subjects doc') ->
      opt_str_truthy (ResultDoc.student_group doc') = true ->
      str_truthy (SubjectRow.subject row) = true ->
      class_scores db (ResultDoc.student_group doc') (SubjectRow.subject row)
        (ResultDoc.assessment_group doc') (ResultDoc.academic_term doc')
        (ResultDoc.academic_year doc') = first :: rest ->
      let scores := first :: rest in
      SubjectRow.subject_position row
        = py_str (1 + count_exceeding scores (SubjectRow.total_score row)) /\
      ((forall s, In s scores -> ltb (SubjectRow.total_score row) s = false) ->
       SubjectRow.subject_position row = "1") /\
      (SubjectRow.total_score row = py_max first rest ->
       SubjectRow.subject_position row = "1").
Proof.
  intros Hsd Htd.
  destruct (populate_returns db doc sd td Hsd Htd) as (doc' & evs & Hrun).
  exists doc', evs. split; [exact Hrun |].
  intros row first rest Hin Hgroup Hsubject Hscores scores.
  destruct (populate_subject_row db _ _ _ _ Hrun Hin) as (_ & row0 & _ & ->).
  destruct (class_stats_subject db doc' row0) as [Es Et].
  rewrite Es in Hsubject, Hscores. rewrite Et.
  destruct (class_stats_computed db doc' row0 _ _ Hgroup Hsubject Hscores)
    as (Hpos & _).
  fold scores in Hpos.
  assert (Htop : (forall s, In s scores
                    -> ltb (SubjectRow.total_score row0) s = false)
                 -> SubjectRow.subject_position (Api.class_stats db doc' row0) = "1").
  { intro H. rewrite Hpos, (count_exceeding_none _ _ H). reflexivity. }
  repeat split.
  - exact Hpos.
  - exact Htop.
  - intro E. apply Htop. intros s Hs. rewrite E. now apply py_max_upper.
Qed.

(** C7.  Class statistics.  For a record whose Student and Academic Term
    records exist the run returns, and for every row of its [subjects]
    table whose course is named, in a resolved student group whose class
    query returns at least one score: the class average is the sum of the
    scores divided by their number, rounded to two decimals; the class
    highest is one of the scores and none is greater; the class lowest is
    one of the scores and none is smaller. *)
Theorem class_statistics_of_scores
    (doc : ResultDoc.t R) (sd : Student.t) (td : AcademicTerm.t) :
  student_doc db (ResultDoc.student doc) = Some sd ->
  academic_term_doc db (ResultDoc.academic_term doc) = Some td ->
  exists doc' evs,
    Api.populate_student_result db doc = (Returned doc', evs) /\
    forall row first rest,
      In row (ResultDoc.subjects doc') ->
      opt_str_truthy (ResultDoc.student_group doc') = true ->
      str_truthy (SubjectRow.subject row) = true ->
      class_scores db (ResultDoc.student_group doc') (SubjectRow.subject row)
        (ResultDoc.assessment_group doc') (ResultDoc.academic_term doc')
        (ResultDoc.academic_year doc') = first :: rest ->
      let scores := first :: rest in
      SubjectRow.class_average_score row
        = round2 (div (py_sum scores) (py_len scores)) /\
      (In (SubjectRow.class_highest_score row) scores /\
       forall s, In s scores -> ltb (SubjectRow.class_highest_score row) s = false) /\
      (In (SubjectRow.class_lowest_score row) scores /\
       forall s, In s scores -> ltb s (SubjectRow.class_lowest_score row) = false).
Proof.
  intros Hsd Htd.
  destruct (populate_returns db doc sd td Hsd Htd) as (doc' & evs & Hrun).
  exists doc', evs. split; [exact Hrun |].
  intros row first rest Hin Hgroup Hsubject Hscores scores.
  destruct (populate_subject_row db _ _ _ _ Hrun Hin) as (_ & row0 & _ & ->).
  destruct (class_stats_subject db doc' row0) as [Es _].
  rewrite Es in Hsubject, Hscores.
  destruct (class_stats_computed db doc' row0 _ _ Hgroup Hsubject Hscores)
    as (_ & -> & -> & ->).
  repeat split.
  - apply py_max_In.
  - apply py_max_upper.
  - apply py_min_In.
  - apply py_min_lower.
Qed.

(** C3.  Totals and term average.  For a record whose Student and Academic
    Term records exist and whose student has assessment results the run
    returns with: the overall total the sum of the total scores of its
    [subjects] rows; the overall max the sum of the max scores of its
    [assessment_components] rows; the term average
    [round(total / max * 100, 2)] when the max is strictly positive, and
    what the record held before (nothing, for a new record) when the max is
    not, in particular when it is 0. *)
Theorem totals_and_term_average
    (doc : ResultDoc.t R) (sd : Student.t) (td : AcademicTerm.t) :
  student_doc db (ResultDoc.student doc) = Some sd ->
  academic_term_doc db (ResultDoc.academic_term doc) = Some td ->
  results_of db doc <> [] ->
  exists doc' evs,
    Api.populate_student_result db doc = (Returned doc', evs) /\
    let total := py_sum (map SubjectRow.total_score (ResultDoc.subjects doc')) in
    let max :=
      py_sum (map ComponentRow.max_score (ResultDoc.assessment_components doc')) in
    ResultDoc.total_marks_obtained doc' = Some total /\
    ResultDoc.total_max_marks doc' = Some max /\
    (ltb zero max = true ->
     ResultDoc.term_average doc'
       = Some (round2 (mul (div total max) (of_Z 100)))) /\
    (ltb zero max = false ->
     ResultDoc.term_average doc' = ResultDoc.term_average doc) /\
    (max = zero -> ResultDoc.term_average doc' = ResultDoc.term_average doc).
Proof.
  intros Hsd Htd Hne.
  destruct (populate_returns db doc sd td Hsd Htd) as (doc' & evs & Hrun).
  exists doc', evs. split; [exact Hrun |].
  destruct (populate_filled db _ _ _ Hrun Hne)
    as (_ & _ & _ & _ & _ & _ & _ & Ht & Hm & Ha & _).
  cbv zeta in *. repeat split.
  - exact Ht.
  - exact Hm.
  - intro E. now rewrite E in Ha.
  - intro E. now rewrite E in Ha.
  - intro E. rewrite E, ltb_irrefl in Ha. exact Ha.
Qed.

(** C4.  Class-arm position.  For a record whose Student and Academic Term
    records exist the run returns, and
    - when the roster query resolves a (named) group, the student has
      assessment results and the group query returns at least one member
      row, the class-arm position is 1 plus the number of member rows whose
      summed total is strictly greater than the record's overall total (so
      equal totals get equal positions, and a lower total gets the number of
      strictly higher rows plus 1);
    - when the student has no group, the position is left as it was. *)
Theorem class_arm_position_counts_higher_totals
    (doc : ResultDoc.t R) (sd : Student.t) (td : AcademicTerm.t) :
  student_doc db (ResultDoc.student doc) = Some sd ->
  academic_term_doc db (ResultDoc.academic_term doc) = Some td ->
  exists doc' evs,
    Api.populate_student_result db doc = (Returned doc', evs) /\
    (forall group others row rows,
       student_groups db (ResultDoc.student doc) = group :: others ->
       str_truthy group = true ->
       results_of db doc <> [] ->
       class_arm_totals db (Some group) (ResultDoc.assessment_group doc)
         (ResultDoc.academic_term doc) (ResultDoc.academic_year doc)
         = row :: rows ->
       let student_total :=
         py_sum (map SubjectRow.total_score (ResultDoc.subjects doc')) in
       ResultDoc.student_group doc' = Some group /\
       ResultDoc.class_arm_position doc'
         = Some (1 + count_exceeding (map snd (row :: rows)) student_total)%nat) /\
    (student_groups db (ResultDoc.student doc) = [] ->
     opt_str_truthy (ResultDoc.student_group doc) = false ->
     ResultDoc.class_arm_position doc' = ResultDoc.class_arm_position doc).
Proof.
  intros Hsd Htd.
  destruct (populate_returns db doc sd td Hsd Htd) as (doc' & evs & Hrun).
  exists doc', evs. split; [exact Hrun |]. split.
  - intros group others row rows Hgroups Hnamed Hne Hrows student_total.
    destruct (populate_filled db _ _ _ Hrun Hne)
      as (_ & Hg & Hag & Hy & Ht & _ & _ & _ & _ & _ & Hstep).
    destruct Hstep as (ungraded & graded & msgs & _ & Hpos & _ & _ & _ & Htot & Hk).
    unfold resolved_group in Hg. rewrite Hgroups in Hg.
    split; [exact Hg |].
    destruct Hk as (_ & Kg & Ka & Ky & Kt).
    rewrite Hpos. unfold Api.positions.
    rewrite Kg, Ka, Ky, Kt, Hg, Hag, Hy, Ht. cbn [opt_str_truthy].
    rewrite Hnamed, Hrows, Htot. cbn [opt_or]. cbv beta iota zeta.
    rewrite num_or_zero, position_among_count. fold student_total.
    destruct (opt_str_truthy (program_of_group db _));
      [destruct (class_totals db _ _ _ _) |]; reflexivity.
  - intros Hgroups Hnone.
    destruct (results_of db doc) as [| r rs] eqn:Eres.
    + apply populate_returned in Hrun as (sd' & td' & _ & _ & H).
      cbv zeta in H. rewrite Eres in H. destruct H as [-> _]. cbn.
      now destruct (grouped_frame db sd' td' doc) as (_ & _ & _ & _ & _ & _ & _ & ->).
    + assert (Hne : results_of db doc <> []) by (rewrite Eres; discriminate).
      destruct (populate_filled db _ _ _ Hrun Hne)
        as (_ & Hg & _ & _ & _ & _ & _ & _ & _ & _ & Hstep).
      destruct Hstep as (ungraded & graded & msgs & _ & Hpos & _ & _ & Hp & _ & Hk).
      destruct Hk as (_ & Kg & _).
      unfold resolved_group in Hg. rewrite Hgroups in Hg.
      rewrite Hpos. unfold Api.positions. rewrite Kg, Hg, Hnone. exact Hp.
Qed.

(** C8.  No assessment results.  For a record whose Student and Academic
    Term records exist and whose student has no matching assessment result,
    the run returns (it does not raise), leaves [subjects] and
    [assessment_components] empty and ends with the notice. *)
Theorem no_results_leaves_tables_empty
    (doc : ResultDoc.t R) (sd : Student.t) (td : AcademicTerm.t) :
  student_doc db (ResultDoc.student doc) = Some sd ->
  academic_term_doc db (ResultDoc.academic_term doc) = Some td ->
  results_of db doc = [] ->
  exists doc' evs,
    Api.populate_student_result db doc = (Returned doc', evs) /\
    ResultDoc.subjects doc' = [] /\
    ResultDoc.assessment_components doc' = [] /\
    In (Msgprint ("No Assessment Results found for student "
                  ++ fmt (ResultDoc.student doc))) evs.
Proof.
  intros Hsd Htd Hnone.
  destruct (populate_returns db doc sd td Hsd Htd) as (doc' & evs & Hrun).
  exists doc', evs. split; [exact Hrun |].
  apply populate_returned in Hrun as (sd' & td' & _ & _ & H).
  cbv zeta in H. rewrite Hnone in H. destruct H as [-> ->].
  repeat split. apply in_or_app. right. now left.
Qed.

End PopulateClaims.

Section GradeClaims.
Context {R : Type} {num : Number R}.
Variable db : Database R.

Lemma scan_first_match (before after : list (GradeBand.t R))
    (band : GradeBand.t R) (avg : R) (start : string) :
  (forall b, In b before -> in_band b avg = false) ->
  in_band band avg = true ->
  Api.scan_grading_scale (before ++ band :: after) avg start
    = GradeBand.grade_code band.
Proof.
  intros Hbefore Hband. induction before as [| b before IH]; cbn.
  - unfold in_band in Hband. now rewrite Hband.
  - pose proof (Hbefore b (or_introl eq_refl)) as Hb. unfold in_band in Hb.
    rewrite Hb. apply IH. intros b' Hb'. apply Hbefore. now right.
Qed.

Lemma scan_no_match (scale : list (GradeBand.t R)) (avg : R) (start : string) :
  (forall b, In b scale -> in_band b avg = false) ->
  Api.scan_grading_scale scale avg start = start.
Proof.
  induction scale as [| b scale IH]; intro H; cbn.
  - reflexivity.
  - pose proof (H b (or_introl eq_refl)) as Hb. unfold in_band in Hb.
    rewrite Hb. apply IH. intros b' Hb'. apply H. now right.
Qed.

(** The grade the grade step writes when the average is set and truthy and
    School Settings loads. *)
Lemma overall_grade_step_grade d graded msgs avg settings :
  Api.overall_grade_step db d = (Returned graded, msgs) ->
  ResultDoc.term_average d = Some avg ->
  truthy avg = true ->
  school_settings db = Some settings ->
  ResultDoc.overall_grade graded =
    Some match SchoolSettings.overall_grading_scale settings with
         | [] => Api.fallback_grade avg
         | scale => Api.scan_grading_scale scale avg "N/A"
         end.
Proof.
  unfold Api.overall_grade_step. intros H Havg Htruthy Hsettings.
  rewrite Havg, Htruthy, Hsettings in H. cbn in H.
  inversion H. reflexivity.
Qed.

Lemma populate_grade doc doc' evs avg settings :
  Api.populate_student_result db doc = (Returned doc', evs) ->
  results_of db doc <> [] ->
  ResultDoc.term_average doc' = Some avg ->
  truthy avg = true ->
  school_settings db = Some settings ->
  ResultDoc.overall_grade doc' =
    Some match SchoolSettings.overall_grading_scale settings with
         | [] => Api.fallback_grade avg
         | scale => Api.scan_grading_scale scale avg "N/A"
         end.
Proof.
  intros Hrun Hne Havg Htruthy Hsettings.
  destruct (populate_filled db _ _ _ Hrun Hne)
    as (_ & _ & _ & _ & _ & _ & _ & _ & _ & _ & Hstep).
  destruct Hstep as (ungraded & graded & msgs & Hstep & -> & Ha & _).
  destruct (positions_frame db graded) as (_ & _ & _ & _ & _ & _ & ->).
  apply (overall_grade_step_grade ungraded graded msgs avg settings Hstep);
    [congruence | exact Htruthy | exact Hsettings].
Qed.

(** C1 (amended).  Overall grade.  For a record whose Student and Academic
    Term records exist and whose student has assessment results, with School
    Settings loaded, the run returns; when its term average is set and not
    zero, the overall grade is
    - the grade code of the first band, in configured order, whose range
      contains the average, where a band's range runs from its min% (0 when
      unset) to its max% (100 when unset or zero);
    - with no band configured, the fallback: A from 80, B from 70, C from
      60, D from 50, else F. *)
Theorem overall_grade_first_band_or_fallback
    (doc : ResultDoc.t R) (sd : Student.t) (td : AcademicTerm.t)
    (settings : SchoolSettings.t R) :
  student_doc db (ResultDoc.student doc) = Some sd ->
  academic_term_doc db (ResultDoc.academic_term doc) = Some td ->
  results_of db doc <> [] ->
  school_settings db = Some settings ->
  exists doc' evs,
    Api.populate_student_result db doc = (Returned doc', evs) /\
    forall avg,
      ResultDoc.term_average doc' = Some avg ->
      truthy avg = true ->
      (forall before band after,
         SchoolSettings.overall_grading_scale settings = before ++ band :: after ->
         (forall b, In b before -> in_band b avg = false) ->
         in_band band avg = true ->
         ResultDoc.overall_grade doc' = Some (GradeBand.grade_code band)) /\
      (SchoolSettings.overall_grading_scale settings = [] ->
       ResultDoc.overall_grade doc' =
         Some (if leb (of_Z 80) avg then "A"
               else if leb (of_Z 70) avg then "B"
               else if leb (of_Z 60) avg then "C"
               else if leb (of_Z 50) avg then "D"
               else "F")).
Proof.
  intros Hsd Htd Hne Hsettings.
  destruct (populate_returns db doc sd td Hsd Htd) as (doc' & evs & Hrun).
  exists doc', evs. split; [exact Hrun |].
  intros avg Havg Htruthy.
  pose proof (populate_grade doc doc' evs avg settings Hrun Hne Havg Htruthy
                Hsettings) as Hgrade.
  split.
  - intros before band after Hscale Hbefore Hband.
    rewrite Hgrade, Hscale.
    rewrite <- (scan_first_match before after band avg "N/A" Hbefore Hband).
    now destruct before.
  - intro Hscale. rewrite Hgrade, Hscale. reflexivity.
Qed.

(** C10 (amended).  No matching band.  For a record whose Student and
    Academic Term records exist and whose student has assessment results,
    with School Settings loaded and at least one band configured, the run
    returns (nothing is raised); when its term average is set and not zero
    and no band's range contains it, where a band's range runs from its
    min% (0 when unset) to its max% (100 when unset or zero), the overall
    grade is "N/A". *)
Theorem overall_grade_not_applicable
    (doc : ResultDoc.t R) (sd : Student.t) (td : AcademicTerm.t)
    (settings : SchoolSettings.t R) :
  student_doc db (ResultDoc.student doc) = Some sd ->
  academic_term_doc db (ResultDoc.academic_term doc) = Some td ->
  results_of db doc <> [] ->
  school_settings db = Some settings ->
  SchoolSettings.overall_grading_scale settings <> [] ->
  exists doc' evs,
    Api.populate_student_result db doc = (Returned doc', evs) /\
    forall avg,
      ResultDoc.term_average doc' = Some avg ->
      truthy avg = true ->
      (forall b, In b (SchoolSettings.overall_grading_scale settings) ->
                 in_band b avg = false) ->
      ResultDoc.overall_grade doc' = Some "N/A".
Proof.
  intros Hsd Htd Hne Hsettings Hscale.
  destruct (populate_returns db doc sd td Hsd Htd) as (doc' & evs & Hrun).
  exists doc', evs. split; [exact Hrun |].
  intros avg Havg Htruthy Hnone.
  rewrite (populate_grade doc doc' evs avg settings Hrun Hne Havg Htruthy
             Hsettings).
  destruct (SchoolSettings.overall_grading_scale settings) as [| b scale];
    [easy |].
  now rewrite (scan_no_match (b :: scale) avg "N/A" Hnone).
Qed.

End GradeClaims.

(* ------------------------------------------------------------------ *)
(** * Properties of [generate_class_results] *)

Section GenerateClaims.
Context {R : Type} {num : Number R}.
Variable db : Database R.

Lemma bind_notices {A B} (m : Action R A) (f : A -> Action R B) :
  Forall notice (snd m) ->
  (forall a, Forall notice (snd (f a))) ->
  Forall notice (snd (bind m f)).
Proof.
  intros Hm Hf. unfold bind. destruct m as [[a | e] evs]; cbn in *.
  - apply Forall_app. split; [exact Hm | apply Hf].
  - exact Hm.
Qed.

Lemma get_doc_notices {A} doctype name (found : option A) :
  Forall notice (snd (get_doc (R := R) doctype name found)).
Proof. destruct found; constructor. Qed.

Lemma overall_grade_step_notices doc :
  Forall notice (snd (Api.overall_grade_step db doc)).
Proof.
  unfold Api.overall_grade_step.
  destruct (ResultDoc.term_average doc) as [avg |]; [| constructor].
  destruct (truthy avg); [| constructor].
  destruct (school_settings db); cbn; repeat constructor.
Qed.

(** [populate_student_result] writes nothing. *)
Lemma populate_notices doc :
  Forall notice (snd (Api.populate_student_result db doc)).
Proof.
  unfold Api.populate_student_result.
  apply bind_notices; [apply get_doc_notices | intro sd].
  apply bind_notices; [apply get_doc_notices | intro td].
  apply bind_notices.
  - unfold Api.group_info. destruct (student_groups db _); repeat constructor.
  - intro grouped. cbv zeta. destruct (detailed_results db _ _ _ _).
    + repeat constructor.
    + unfold Api.fill_from_results. cbv zeta.
      apply bind_notices; [apply overall_grade_step_notices | constructor].
Qed.

Lemma replay_notices (evs : list (Event R)) : forall rest pending committed,
  Forall notice evs ->
  replay (evs ++ rest) pending committed = replay rest pending committed.
Proof.
  induction evs as [| ev evs IH]; intros rest pending committed H; [reflexivity |].
  inversion H as [| ? ? Hev Hevs]; subst.
  destruct ev; cbn in *; solve [apply IH; assumption | contradiction].
Qed.

Lemma inserted_notices (evs : list (Event R)) : forall rest,
  Forall notice evs -> inserted (evs ++ rest) = inserted rest.
Proof.
  induction evs as [| ev evs IH]; intros rest H; [reflexivity |].
  inversion H as [| ? ? Hev Hevs]; subst.
  destruct ev; cbn in *; solve [apply IH; assumption | contradiction].
Qed.

Lemma populate_student doc doc' evs :
  Api.populate_student_result db doc = (Returned doc', evs) ->
  ResultDoc.student doc' = ResultDoc.student doc.
Proof.
  intro Hrun. destruct (results_of db doc) as [| r rs] eqn:Eres.
  - apply populate_returned in Hrun as (sd & td & _ & _ & H).
    cbv zeta in H. rewrite Eres in H. destruct H as [-> _]. cbn.
    now destruct (grouped_frame db sd td doc) as (-> & _).
  - assert (Hne : results_of db doc <> []) by (rewrite Eres; discriminate).
    now destruct (populate_filled db _ _ _ Hrun Hne) as (-> & _).
Qed.

Lemma generate_one_returns generator_doc student_id sd td :
  student_doc db (Some student_id) = Some sd ->
  academic_term_doc db (Generator.academic_term generator_doc) = Some td ->
  Api.generate_one db generator_doc student_id
    = (Returned tt, pass_log db generator_doc student_id)
  /\ ResultDoc.student (populated db generator_doc student_id) = Some student_id.
Proof.
  intros Hsd Htd. unfold Api.generate_one, pass_log, populated.
  destruct (populate_returns db (Api.result_stub generator_doc student_id) sd td
              Hsd Htd) as (doc' & evs & Hrun).
  rewrite Hrun. split; [reflexivity |].
  cbn [fst]. now rewrite (populate_student _ _ _ Hrun).
Qed.

Lemma for_each_returns generator_doc students td :
  (forall s, In s students -> student_doc db (Some s) <> None) ->
  academic_term_doc db (Generator.academic_term generator_doc) = Some td ->
  for_each students (Api.generate_one db generator_doc)
    = (Returned tt, flat_map (pass_log db generator_doc) students).
Proof.
  intros Hstudents Htd. induction students as [| s students IH]; [reflexivity |].
  cbn [for_each flat_map].
  destruct (student_doc db (Some s)) as [sd |] eqn:Hsd;
    [| now destruct (Hstudents s (or_introl eq_refl))].
  destruct (generate_one_returns generator_doc s sd td Hsd Htd) as [-> _].
  rewrite IH by (intros s' Hs'; apply Hstudents; now right).
  reflexivity.
Qed.

Lemma replay_pass generator_doc student_id rest committed :
  replay (pass_log db generator_doc student_id ++ rest) [] committed
    = replay rest [] (committed ++ [populated db generator_doc student_id]).
Proof.
  unfold pass_log. rewrite <- app_assoc.
  rewrite replay_notices by apply populate_notices. reflexivity.
Qed.

Lemma replay_passes generator_doc students : forall rest committed,
  replay (flat_map (pass_log db generator_doc) students ++ rest) [] committed
    = replay rest [] (committed ++ map (populated db generator_doc) students).
Proof.
  induction students as [| s students IH]; intros rest committed; cbn.
  - now rewrite app_nil_r.
  - rewrite <- app_assoc, replay_pass, IH, <- app_assoc. reflexivity.
Qed.

Lemma inserted_passes generator_doc students : forall rest,
  inserted (flat_map (pass_log db generator_doc) students ++ rest)
    = map (populated db generator_doc) students ++ inserted rest.
Proof.
  induction students as [| s students IH]; intro rest; cbn; [reflexivity |].
  unfold pass_log at 1. rewrite <- !app_assoc.
  rewrite inserted_notices by apply populate_notices. cbn.
  now rewrite IH.
Qed.

(** C5.  Required filters.  When the generator record exists and any of
    its four filters is unset (None or empty), the call raises the
    validation error and its log is empty: nothing is inserted. *)
Theorem missing_filter_raises_before_any_write
    (docname : string) (generator_doc : Generator.t) :
  generator db docname = Some generator_doc ->
  opt_str_truthy (Generator.assessment_group generator_doc) = false
  \/ opt_str_truthy (Generator.academic_year generator_doc) = false
  \/ opt_str_truthy (Generator.academic_term generator_doc) = false
  \/ opt_str_truthy (Generator.student_group generator_doc) = false ->
  Api.generate_class_results db docname
    = (Raised (ValidationError
         "Assessment Group, Academic Year, Academic Term, and Student Group are required."),
       [])
  /\ inserted (snd (Api.generate_class_results db docname)) = [].
Proof.
  intros Hdoc Hunset.
  assert (Hfilters : Api.filters_set generator_doc = false).
  { unfold Api.filters_set.
    destruct Hunset as [-> | [-> | [-> | ->]]];
      rewrite ?andb_false_r; reflexivity. }
  assert (Hrun : Api.generate_class_results db docname
    = (Raised (ValidationError
         "Assessment Group, Academic Year, Academic Term, and Student Group are required."),
       [])).
  { unfold Api.generate_class_results. rewrite Hdoc. cbn [get_doc].
    unfold bind, ret. cbn [fst snd]. rewrite Hfilters. reflexivity. }
  split; [exact Hrun | now rewrite Hrun].
Qed.

(** C6.  One record per student.  When the generator record exists with
    its four filters set, every student of the roster has a Student record
    and the Academic Term record exists, the call returns and, with K the
    length of the roster:
    - replaying its log leaves exactly the K populated db records committed,
      in roster order, and none pending;
    - the inserted records are those K, the i-th linked to the i-th student
      of the roster, so to distinct students when the roster lists no
      student twice;
    - when the pass for a student starts, the records of all students
      before it are committed and none is pending. *)
Theorem one_committed_record_per_student
    (docname : string) (generator_doc : Generator.t) (td : AcademicTerm.t) :
  generator db docname = Some generator_doc ->
  Api.filters_set generator_doc = true ->
  (forall s, In s (group_students db (Generator.student_group generator_doc)) ->
             student_doc db (Some s) <> None) ->
  academic_term_doc db (Generator.academic_term generator_doc) = Some td ->
  let students := group_students db (Generator.student_group generator_doc) in
  let run := Api.generate_class_results db docname in
  fst run = Returned tt /\
  replay (snd run) [] [] = ([], map (populated db generator_doc) students) /\
  inserted (snd run) = map (populated db generator_doc) students /\
  length (inserted (snd run)) = length students /\
  map (@ResultDoc.student R) (inserted (snd run)) = map Some students /\
  (NoDup students -> NoDup (map (@ResultDoc.student R) (inserted (snd run)))) /\
  (forall before s after,
     students = before ++ s :: after ->
     exists log_before log_after,
       snd run = log_before ++ pass_log db generator_doc s ++ log_after /\
       replay log_before [] [] = ([], map (populated db generator_doc) before)).
Proof.
  intros Hdoc Hfilters Hstudents Htd students run.
  assert (Hlog : exists final,
            run = (Returned tt,
                   flat_map (pass_log db generator_doc) students ++ final)
            /\ Forall notice final).
  { unfold run, Api.generate_class_results. rewrite Hdoc. cbn [get_doc].
    unfold bind at 1. cbn [fst snd ret]. rewrite Hfilters. cbn [negb app].
    pose proof (for_each_returns generator_doc students td Hstudents Htd)
      as Hloop.
    unfold students in *. clear students.
    destruct (group_students db _) as [| s rest].
    - eexists. split; [reflexivity |]. repeat constructor.
    - unfold bind. rewrite Hloop. cbn [fst snd].
      eexists. split; [reflexivity |]. repeat constructor. }
  destruct Hlog as (final & Hrun & Hfinal). rewrite Hrun. cbn [fst snd].
  assert (Hins : inserted (flat_map (pass_log db generator_doc) students ++ final)
                 = map (populated db generator_doc) students).
  { rewrite inserted_passes.
    rewrite <- (app_nil_r final), (inserted_notices _ _ Hfinal).
    apply app_nil_r. }
  assert (Hlinked : map (@ResultDoc.student R)
                      (map (populated db generator_doc) students)
                    = map Some students).
  { rewrite map_map. apply map_ext_in. intros s Hs.
    destruct (student_doc db (Some s)) as [sd |] eqn:Hsd;
      [| now destruct (Hstudents s Hs)].
    now destruct (generate_one_returns generator_doc s sd td Hsd Htd). }
  repeat split.
  - rewrite replay_passes.
    rewrite <- (app_nil_r final), (replay_notices _ _ _ _ Hfinal). reflexivity.
  - exact Hins.
  - rewrite Hins. apply length_map.
  - rewrite Hins. exact Hlinked.
  - intro Hnodup. rewrite Hins, Hlinked.
    clear -Hnodup. induction Hnodup as [| s l Hnotin _ IH]; cbn; constructor.
    + rewrite in_map_iff. intros (s' & E & Hin). inversion E. now subst.
    + exact IH.
  - intros before s after Hsplit.
    exists (flat_map (pass_log db generator_doc) before),
           (flat_map (pass_log db generator_doc) after ++ final).
    split.
    + rewrite Hsplit, flat_map_app. cbn [flat_map].
      now rewrite <- !app_assoc.
    + rewrite <- (app_nil_r (flat_map _ before)), replay_passes. reflexivity.
Qed.

End GenerateClaims.

(* ------------------------------------------------------------------ *)
(** * Properties of [validate_assessment_criteria] *)

Section ValidationClaims.
Context {R : Type}.
Variable db : Database R.

Lemma opt_str_eqb_eq (x y : option string) : opt_str_eqb x y = true <-> x = y.
Proof.
  destruct x as [a |], y as [b |]; cbn; try (split; congruence).
  rewrite String.eqb_eq. split; congruence.
Qed.

Lemma py_in_In (x : option string) (l : list (option string)) :
  py_in x l = true <-> In x l.
Proof.
  unfold py_in. rewrite existsb_exists. split.
  - intros (y & Hy & E). apply opt_str_eqb_eq in E. now subst.
  - intro H. exists x. split; [exact H | now apply opt_str_eqb_eq].
Qed.

(** C9.  Validation hook.  The hook raises exactly when the settings record
    exists, its whitelist is not empty and the record's criteria name is
    not in it, and then with the descriptive validation error; in every
    other case, in particular with no settings record or an empty
    whitelist, it returns; it emits nothing either way. *)
Theorem validation_raises_iff_not_whitelisted
    (doc : AssessmentCriteriaDoc.t) (method : string) :
  let name := AssessmentCriteriaDoc.assessment_criteria doc in
  let run := Overrides.validate_assessment_criteria db doc method in
  let rejected :=
    exists settings,
      school_settings db = Some settings /\
      whitelist settings <> [] /\
      ~ In name (whitelist settings) in
  ((exists e, fst run = Raised e) <-> rejected) /\
  (rejected -> run = (Raised (ValidationError (Overrides.not_configured name)), [])) /\
  (~ rejected -> run = (Returned tt, [])) /\
  (school_settings db = None -> run = (Returned tt, [])) /\
  (forall settings,
     school_settings db = Some settings -> whitelist settings = [] ->
     run = (Returned tt, [])).
Proof.
  intros name run rejected.
  assert (Hcases :
    (rejected /\ run = (Raised (ValidationError (Overrides.not_configured name)), []))
    \/ (~ rejected /\ run = (Returned tt, []))).
  { unfold run, rejected, Overrides.validate_assessment_criteria.
    destruct (school_settings db) as [settings |] eqn:Hs.
    - fold (whitelist settings). fold name.
      destruct (whitelist settings) as [| item items] eqn:Hw.
      + right. split; [| reflexivity].
        intros (s & E & Hne & _). inversion E; subst s. now rewrite Hw in Hne.
      + destruct (py_in name (item :: items)) eqn:Hin; cbn [negb].
        * right. split; [| reflexivity].
          intros (s & E & _ & Hnot). inversion E; subst s.
          apply Hnot. rewrite Hw. now apply py_in_In.
        * left. split; [| reflexivity].
          exists settings. rewrite Hw. repeat split; [discriminate |].
          intro H. apply py_in_In in H. congruence.
    - right. split; [| reflexivity]. intros (s & E & _). discriminate. }
  repeat split.
  - intros [e He]. destruct Hcases as [[H _] | [_ H]]; [exact H |].
    rewrite H in He. cbn in He. discriminate.
  - intro H. destruct Hcases as [[_ E] | [Hn _]]; [| contradiction].
    rewrite E. cbn. eauto.
  - intro H. destruct Hcases as [[_ E] | [Hn _]]; [exact E | contradiction].
  - intro H. destruct Hcases as [[Hr _] | [_ E]]; [contradiction | exact E].
  - intro Hnone. destruct Hcases as [[(s & E & _) _] | [_ E]]; [congruence | exact E].
  - intros settings Hs Hw. destruct Hcases as [[(s & E & Hne & _) _] | [_ E]];
      [| exact E].
    rewrite Hs in E. inversion E; subst s. contradiction.
Qed.

End ValidationClaims.

(* ------------------------------------------------------------------ *)
(** * Worked runs *)

Module Worked.
Import Rational RationalNumber School.

(** Replaces the record a run is known to return by its value. *)
Ltac evaluate Hrun :=
  match type of Hrun with
  | ?run = (Returned ?doc', _) =>
      let E := fresh "E" in
      assert (E : returned run = Some doc')
        by (unfold returned; rewrite Hrun; reflexivity);
      vm_compute in E; injection E as <-
  end.

(** C2 at the Math scores 90, 90 and 80 of S1, S2 and S3 (English: 70, 80
    and 90): the positions are 1, 1 and 3 in Math and 3, 2 and 1 in
    English. *)
Lemma subject_position_witness :
  (exists doc' evs,
     Api.populate_student_result (db scale_ab) (stub "S1") = (Returned doc', evs) /\
     map (fun r => (SubjectRow.subject r, SubjectRow.subject_position r))
       (ResultDoc.subjects doc') = [("English", "3"); ("Math", "1")]) /\
  (exists doc' evs,
     Api.populate_student_result (db scale_ab) (stub "S2") = (Returned doc', evs) /\
     map (fun r => (SubjectRow.subject r, SubjectRow.subject_position r))
       (ResultDoc.subjects doc') = [("English", "2"); ("Math", "1")]) /\
  (exists doc' evs,
     Api.populate_student_result (db scale_ab) (stub "S3") = (Returned doc', evs) /\
     map (fun r => (SubjectRow.subject r, SubjectRow.subject_position r))
       (ResultDoc.subjects doc') = [("English", "1"); ("Math", "3")]).
Proof.
  repeat split.
  - destruct (subject_position_counts_higher_scores (db scale_ab) (stub "S1")
                _ _ eq_refl eq_refl) as (doc' & evs & Hrun & Hrows).
    exists doc', evs. split; [exact Hrun |]. evaluate Hrun.
    cbn [map ResultDoc.subjects SubjectRow.subject].
    destruct (Hrows _ _ _ (or_introl eq_refl) eq_refl eq_refl eq_refl)
      as (Henglish & _).
    destruct (Hrows _ _ _ (or_intror (or_introl eq_refl)) eq_refl eq_refl eq_refl)
      as (_ & _ & Hmath).
    rewrite Henglish, (Hmath eq_refl). reflexivity.
  - destruct (subject_position_counts_higher_scores (db scale_ab) (stub "S2")
                _ _ eq_refl eq_refl) as (doc' & evs & Hrun & Hrows).
    exists doc', evs. split; [exact Hrun |]. evaluate Hrun.
    cbn [map ResultDoc.subjects SubjectRow.subject].
    destruct (Hrows _ _ _ (or_introl eq_refl) eq_refl eq_refl eq_refl)
      as (Henglish & _).
    destruct (Hrows _ _ _ (or_intror (or_introl eq_refl)) eq_refl eq_refl eq_refl)
      as (_ & _ & Hmath).
    rewrite Henglish, (Hmath eq_refl). reflexivity.
  - destruct (subject_position_counts_higher_scores (db scale_ab) (stub "S3")
                _ _ eq_refl eq_refl) as (doc' & evs & Hrun & Hrows).
    exists doc', evs. split; [exact Hrun |]. evaluate Hrun.
    cbn [map ResultDoc.subjects SubjectRow.subject].
    destruct (Hrows _ _ _ (or_introl eq_refl) eq_refl eq_refl eq_refl)
      as (_ & _ & Henglish).
    destruct (Hrows _ _ _ (or_intror (or_introl eq_refl)) eq_refl eq_refl eq_refl)
      as (Hmath & _).
    rewrite (Henglish eq_refl), Hmath. reflexivity.
Defined.

(** C7 at the English scores 70, 80 and 90 and the Math scores 90, 90 and
    80, in the record of S1: the class averages are 80 and 86.67, the
    highest 90 and 90, the lowest 70 and 80. *)
Lemma class_statistics_witness :
  exists doc' evs,
    Api.populate_student_result (db scale_ab) (stub "S1") = (Returned doc', evs) /\
    map (fun r => (SubjectRow.subject r,
                   this (SubjectRow.class_average_score r),
                   this (SubjectRow.class_highest_score r),
                   this (SubjectRow.class_lowest_score r)))
      (ResultDoc.subjects doc')
    = [("English", 80, 90, 70); ("Math", 8667 # 100, 90, 80)]%Q.
Proof.
  destruct (class_statistics_of_scores (db scale_ab) (stub "S1")
              _ _ eq_refl eq_refl) as (doc' & evs & Hrun & Hrows).
  exists doc', evs. split; [exact Hrun |]. evaluate Hrun.
  cbn [map ResultDoc.subjects SubjectRow.subject].
  destruct (Hrows _ _ _ (or_introl eq_refl) eq_refl eq_refl eq_refl)
    as (Ha1 & _).
  destruct (Hrows _ _ _ (or_intror (or_introl eq_refl)) eq_refl eq_refl eq_refl)
    as (Ha2 & _).
  rewrite Ha1, Ha2. reflexivity.
Defined.

(** C3 in the record of S1: total 160 of 200, term average 80. *)
Lemma totals_and_term_average_witness :
  exists doc' evs,
    Api.populate_student_result (db scale_ab) (stub "S1") = (Returned doc', evs) /\
    option_map this (ResultDoc.total_marks_obtained doc') = Some 160%Q /\
    option_map this (ResultDoc.total_max_marks doc') = Some 200%Q /\
    option_map this (ResultDoc.term_average doc') = Some 80%Q.
Proof.
  assert (Hresults : results_of (db scale_ab) (stub "S1") <> []) by discriminate.
  destruct (totals_and_term_average (db scale_ab) (stub "S1")
              _ _ eq_refl eq_refl Hresults)
    as (doc' & evs & Hrun & Htotal & Hmax & Haverage & _).
  exists doc', evs. split; [exact Hrun |]. evaluate Hrun.
  rewrite Htotal, Hmax, (Haverage eq_refl). repeat split.
Defined.

(** C4 in the class G1 with totals 170, 170 and 160: S2 and S3 are both
    first, S1 is third; S4, who is in no class, gets no position. *)
Lemma class_arm_position_witness :
  (exists doc' evs,
     Api.populate_student_result (db scale_ab) (stub "S1") = (Returned doc', evs) /\
     ResultDoc.class_arm_position doc' = Some 3%nat) /\
  (exists doc' evs,
     Api.populate_student_result (db scale_ab) (stub "S2") = (Returned doc', evs) /\
     ResultDoc.class_arm_position doc' = Some 1%nat) /\
  (exists doc' evs,
     Api.populate_student_result (db scale_ab) (stub "S3") = (Returned doc', evs) /\
     ResultDoc.class_arm_position doc' = Some 1%nat) /\
  (exists doc' evs,
     Api.populate_student_result (db scale_ab) (stub "S4") = (Returned doc', evs) /\
     ResultDoc.class_arm_position doc' = None).
Proof.
  repeat split.
  - destruct (class_arm_position_counts_higher_totals (db scale_ab) (stub "S1")
                _ _ eq_refl eq_refl) as (doc' & evs & Hrun & Hgroup & _).
    exists doc', evs. split; [exact Hrun |].
    destruct (Hgroup "G1" [] ("S2", q 170) [("S3", q 170); ("S1", q 160)]
                eq_refl eq_refl ltac:(discriminate) eq_refl) as (_ & Hposition).
    evaluate Hrun. rewrite Hposition. reflexivity.
  - destruct (class_arm_position_counts_higher_totals (db scale_ab) (stub "S2")
                _ _ eq_refl eq_refl) as (doc' & evs & Hrun & Hgroup & _).
    exists doc', evs. split; [exact Hrun |].
    destruct (Hgroup "G1" [] ("S2", q 170) [("S3", q 170); ("S1", q 160)]
                eq_refl eq_refl ltac:(discriminate) eq_refl) as (_ & Hposition).
    evaluate Hrun. rewrite Hposition. reflexivity.
  - destruct (class_arm_position_counts_higher_totals (db scale_ab) (stub "S3")
                _ _ eq_refl eq_refl) as (doc' & evs & Hrun & Hgroup & _).
    exists doc', evs. split; [exact Hrun |].
    destruct (Hgroup "G1" [] ("S2", q 170) [("S3", q 170); ("S1", q 160)]
                eq_refl eq_refl ltac:(discriminate) eq_refl) as (_ & Hposition).
    evaluate Hrun. rewrite Hposition. reflexivity.
  - destruct (class_arm_position_counts_higher_totals (db scale_ab) (stub "S4")
                _ _ eq_refl eq_refl) as (doc' & evs & Hrun & _ & Hskip).
    exists doc', evs. split; [exact Hrun |].
    exact (Hskip eq_refl eq_refl).
Defined.

(** C8 for S5, who has no assessment result. *)
Lemma no_results_witness :
  exists doc' evs,
    Api.populate_student_result (db scale_ab) (stub "S5") = (Returned doc', evs) /\
    ResultDoc.subjects doc' = [] /\
    ResultDoc.assessment_components doc' = [] /\
    evs = [Msgprint "No Student Group found for S5";
           Msgprint "No Assessment Results found for student S5"].
Proof.
  destruct (no_results_leaves_tables_empty (db scale_ab) (stub "S5")
              _ _ eq_refl eq_refl eq_refl)
    as (doc' & evs & Hrun & Hsubjects & Hcomponents & _).
  exists doc', evs. repeat split; try assumption.
  assert (E : snd (Api.populate_student_result (db scale_ab) (stub "S5")) = evs)
    by now rewrite Hrun.
  vm_compute in E. now subst evs.
Defined.

(** C1 (amended): with the bands (80, 100, A), (0, 79, B) the average 85 of
    S2 gets A; with no band the average 65 of S4 gets C. *)
Lemma overall_grade_witness :
  (exists doc' evs,
     Api.populate_student_result (db scale_ab) (stub "S2") = (Returned doc', evs) /\
     option_map this (ResultDoc.term_average doc') = Some 85%Q /\
     ResultDoc.overall_grade doc' = Some "A") /\
  (exists doc' evs,
     Api.populate_student_result (db []) (stub "S4") = (Returned doc', evs) /\
     option_map this (ResultDoc.term_average doc') = Some 65%Q /\
     ResultDoc.overall_grade doc' = Some "C").
Proof.
  split.
  - assert (Hresults : results_of (db scale_ab) (stub "S2") <> []) by discriminate.
    destruct (overall_grade_first_band_or_fallback (db scale_ab) (stub "S2")
                _ _ _ eq_refl eq_refl Hresults eq_refl)
      as (doc' & evs & Hrun & Hgrade).
    exists doc', evs. split; [exact Hrun |]. evaluate Hrun.
    split; [reflexivity |].
    destruct (Hgrade _ eq_refl eq_refl) as [Hband _].
    apply (Hband [] (band 80 100 "A") [band 0 79 "B"] eq_refl);
      [intros b [] | reflexivity].
  - assert (Hresults : results_of (db []) (stub "S4") <> []) by discriminate.
    destruct (overall_grade_first_band_or_fallback (db []) (stub "S4")
                _ _ _ eq_refl eq_refl Hresults eq_refl)
      as (doc' & evs & Hrun & Hgrade).
    exists doc', evs. split; [exact Hrun |]. evaluate Hrun.
    split; [reflexivity |].
    destruct (Hgrade _ eq_refl eq_refl) as [_ Hfallback].
    exact (Hfallback eq_refl).
Defined.

(** C10 (amended): with the single band (90, 100, A) the average 80 of S1
    is in no band and the grade is N/A. *)
Lemma overall_grade_not_applicable_witness :
  exists doc' evs,
    Api.populate_student_result (db [band 90 100 "A"]) (stub "S1")
      = (Returned doc', evs) /\
    option_map this (ResultDoc.term_average doc') = Some 80%Q /\
    ResultDoc.overall_grade doc' = Some "N/A".
Proof.
  assert (Hresults : results_of (db [band 90 100 "A"]) (stub "S1") <> [])
    by discriminate.
  assert (Hscale : SchoolSettings.overall_grading_scale
                     (SchoolSettings.mk [band 90 100 "A"]
                        [CriteriaItem.mk (Some "CA"); CriteriaItem.mk (Some "Exam")])
                   <> []) by discriminate.
  destruct (overall_grade_not_applicable (db [band 90 100 "A"]) (stub "S1")
              _ _ _ eq_refl eq_refl Hresults eq_refl Hscale)
    as (doc' & evs & Hrun & Hgrade).
  exists doc', evs. split; [exact Hrun |]. evaluate Hrun.
  split; [reflexivity |].
  apply (Hgrade _ eq_refl eq_refl).
  intros b [<- | []]. reflexivity.
Defined.

(** C1 as stated fails: with the bands (0, 0, F), (50, 100, P) the average
    80 of S1 is in the stored range of the second band only, and the grade
    written is F, the code of the first. *)
Lemma overall_grade_first_band_counterexample :
  exists doc' evs avg,
    Api.populate_student_result (db [band 0 0 "F"; band 50 100 "P"]) (stub "S1")
      = (Returned doc', evs) /\
    ResultDoc.term_average doc' = Some avg /\
    this avg = 80%Q /\
    first_band_in_stored_range [band 0 0 "F"; band 50 100 "P"] avg = Some "P" /\
    ResultDoc.overall_grade doc' = Some "F" /\
    ResultDoc.overall_grade doc'
      <> first_band_in_stored_range [band 0 0 "F"; band 50 100 "P"] avg.
Proof.
  destruct (populate_returns (db [band 0 0 "F"; band 50 100 "P"]) (stub "S1")
              _ _ eq_refl eq_refl) as (doc' & evs & Hrun).
  exists doc', evs. evaluate Hrun. eexists.
  split; [exact Hrun |]. split; [reflexivity |]. repeat split. discriminate.
Qed.

(** C10 as stated fails: with the single band (80, 0, A) the average 85 of
    S2 is in no band's stored range, and the grade written is A. *)
Lemma overall_grade_not_applicable_counterexample :
  exists doc' evs avg,
    Api.populate_student_result (db [band 80 0 "A"]) (stub "S2")
      = (Returned doc', evs) /\
    ResultDoc.term_average doc' = Some avg /\
    this avg = 85%Q /\
    truthy avg = true /\
    forallb (fun b => negb (in_stored_range b avg)) [band 80 0 "A"] = true /\
    ResultDoc.overall_grade doc' = Some "A" /\
    ResultDoc.overall_grade doc' <> Some "N/A".
Proof.
  destruct (populate_returns (db [band 80 0 "A"]) (stub "S2")
              _ _ eq_refl eq_refl) as (doc' & evs & Hrun).
  exists doc', evs. evaluate Hrun. eexists.
  split; [exact Hrun |]. split; [reflexivity |]. repeat split. discriminate.
Qed.

(** A computed average of 0 is falsy at api.py:200: S6, who scored 0 of
    200, gets the average 0 and no overall grade, bands or not. *)
Lemma zero_average_leaves_grade_unset :
  exists doc' evs avg,
    Api.populate_student_result (db scale_ab) (stub "S6") = (Returned doc', evs) /\
    ResultDoc.term_average doc' = Some avg /\
    this avg = 0%Q /\
    ResultDoc.overall_grade doc' = None.
Proof.
  destruct (populate_returns (db scale_ab) (stub "S6") _ _ eq_refl eq_refl)
    as (doc' & evs & Hrun).
  exists doc', evs. evaluate Hrun. eexists.
  split; [exact Hrun |]. split; [reflexivity |]. split; reflexivity.
Qed.

(** C5 for GEN-2, whose student group is None, and GEN-3, whose academic
    year is the empty string. *)
Lemma missing_filter_witness :
  (fst (Api.generate_class_results (db scale_ab) "GEN-2")
     = Raised (ValidationError
         "Assessment Group, Academic Year, Academic Term, and Student Group are required.")
   /\ inserted (snd (Api.generate_class_results (db scale_ab) "GEN-2")) = []) /\
  (fst (Api.generate_class_results (db scale_ab) "GEN-3")
     = Raised (ValidationError
         "Assessment Group, Academic Year, Academic Term, and Student Group are required.")
   /\ inserted (snd (Api.generate_class_results (db scale_ab) "GEN-3")) = []).
Proof.
  split.
  - destruct (missing_filter_raises_before_any_write (db scale_ab) "GEN-2" _
                eq_refl (or_intror (or_intror (or_intror eq_refl))))
      as [-> _].
    split; reflexivity.
  - destruct (missing_filter_raises_before_any_write (db scale_ab) "GEN-3" _
                eq_refl (or_intror (or_introl eq_refl)))
      as [-> _].
    split; reflexivity.
Defined.

(** C6 for GEN-1 over the class G1 of S1, S2 and S3. *)
Lemma one_committed_record_per_student_witness :
  fst (Api.generate_class_results (db scale_ab) "GEN-1") = Returned tt /\
  map (@ResultDoc.student Qc)
    (snd (replay (snd (Api.generate_class_results (db scale_ab) "GEN-1")) [] []))
    = [Some "S1"; Some "S2"; Some "S3"] /\
  fst (replay (snd (Api.generate_class_results (db scale_ab) "GEN-1")) [] []) = [] /\
  NoDup (map (@ResultDoc.student Qc)
           (inserted (snd (Api.generate_class_results (db scale_ab) "GEN-1")))).
Proof.
  assert (Hstudents :
    forall s, In s (group_students (db scale_ab) (Some "G1")) ->
              student_doc (db scale_ab) (Some s) <> None).
  { intros s [<- | [<- | [<- | []]]]; discriminate. }
  assert (Hnodup : NoDup ["S1"; "S2"; "S3"]).
  { repeat constructor; cbn; intuition discriminate. }
  destruct (one_committed_record_per_student (db scale_ab) "GEN-1"
              (Generator.mk (Some "AG1") (Some "2025") (Some "T1") (Some "G1"))
              _ eq_refl eq_refl Hstudents eq_refl)
    as (Hreturns & Hreplay & Hinserted & _ & Hlinked & Hdistinct & _).
  split; [exact Hreturns |].
  split; [rewrite Hreplay; cbn [snd]; rewrite <- Hinserted; exact Hlinked |].
  split; [now rewrite Hreplay | exact (Hdistinct Hnodup)].
Defined.

(** C9 with the whitelist CA, Exam: Quiz is rejected, CA passes. *)
Lemma validation_witness :
  Overrides.validate_assessment_criteria (db scale_ab)
    (AssessmentCriteriaDoc.mk (Some "Quiz")) "validate"
  = (Raised (ValidationError (Overrides.not_configured (Some "Quiz"))), []) /\
  Overrides.validate_assessment_criteria (db scale_ab)
    (AssessmentCriteriaDoc.mk (Some "CA")) "validate"
  = (Returned tt, []).
Proof.
  split.
  - destruct (validation_raises_iff_not_whitelisted (db scale_ab)
                (AssessmentCriteriaDoc.mk (Some "Quiz")) "validate")
      as (_ & Hraises & _).
    apply Hraises. eexists. split; [reflexivity |]. split; [discriminate |].
    cbn. intuition discriminate.
  - destruct (validation_raises_iff_not_whitelisted (db scale_ab)
                (AssessmentCriteriaDoc.mk (Some "CA")) "validate")
      as (_ & _ & Hreturns & _).
    apply Hreturns.
    intros (settings & E & _ & Hnot). inversion E; subst settings.
    apply Hnot. now left.
Defined.

End Worked.

(* ------------------------------------------------------------------ *)
(** * More of [populate_student_result]: the child tables *)

Section Rows.
Context {R : Type} {num : Number R}.

(** The first row of each course, in the order of the rows. *)
Fixpoint first_rows (rows : list (DetailedResult.t R))
    : list (DetailedResult.t R) :=
  match rows with
  | [] => []
  | row :: rest =>
      row :: filter (fun r => negb (String.eqb (DetailedResult.course r)
                                      (DetailedResult.course row)))
               (first_rows rest)
  end.

(** The rows of one course, in the order of the rows. *)
Definition rows_of_course (course : string) (rows : list (DetailedResult.t R))
    : list (DetailedResult.t R) :=
  filter (fun r => String.eqb (DetailedResult.course r) course) rows.

(** [course_details.get(course)]. *)
Fixpoint lookup_course (course : string)
    (course_details : list (string * CourseData.t R)) : option (CourseData.t R) :=
  match course_details with
  | [] => None
  | (k, data) :: rest =>
      if String.eqb k course then Some data else lookup_course course rest
  end.

(** The dict appended to a course's details for one row (api.py:130-134). *)
Definition detail_of (row : DetailedResult.t R) : Detail.t R :=
  Detail.mk (DetailedResult.assessment_criteria row)
    (opt_or (DetailedResult.score row) zero)
    (opt_or (DetailedResult.maximum_score row) zero).

(** What the subjects table keeps of an item of [course_details], and of a
    row. *)
Definition item_summary (item : string * CourseData.t R)
    : string * option R * option string :=
  (fst item, CourseData.total_score (snd item), CourseData.grade (snd item)).

Definition row_summary (row : DetailedResult.t R)
    : string * option R * option string :=
  (DetailedResult.course row, DetailedResult.total_score row,
   DetailedResult.grade row).

End Rows.

Section GroupingFacts.
Context {R : Type} {num : Number R}.

Implicit Types (cd : list (string * CourseData.t R)) (rows : list (DetailedResult.t R)).

Lemma append_detail_summary course d cd :
  map item_summary (Api.append_detail course d cd) = map item_summary cd.
Proof.
  induction cd as [| [k data] cd IH]; cbn; [reflexivity |].
  destruct (String.eqb k course); cbn; [reflexivity | now rewrite IH].
Qed.

Lemma has_course_summary course cd cd' :
  map item_summary cd = map item_summary cd' ->
  Api.has_course course cd = Api.has_course course cd'.
Proof.
  revert cd'. induction cd as [| [k data] cd IH]; intros [| [k' data'] cd'] H;
    try discriminate; [reflexivity |].
  cbn in *. inversion H; subst. now rewrite (IH cd').
Qed.

Lemma has_course_app course cd k data :
  Api.has_course course (cd ++ [(k, data)])
    = Api.has_course course cd || String.eqb k course.
Proof.
  induction cd as [| [k' data'] cd IH]; cbn.
  - now destruct (String.eqb k course).
  - destruct (String.eqb k' course); [reflexivity | exact IH].
Qed.

Lemma filter_filter {A} (p q : A -> bool) (l : list A) :
  filter p (filter q l) = filter (fun x => q x && p x) l.
Proof.
  induction l as [| x l IH]; cbn; [reflexivity |].
  destruct (q x); cbn; [destruct (p x) |]; now rewrite IH.
Qed.

(** The loop of api.py:122-134 adds, after the items it starts from, one
    item per course not yet there, holding the score and grade of the first
    row of that course. *)
Lemma course_details_loop rows : forall cd,
  map item_summary (fold_left Api.course_details_step rows cd)
    = map item_summary cd
      ++ map row_summary
           (filter (fun r => negb (Api.has_course (DetailedResult.course r) cd))
              (first_rows rows)).
Proof.
  induction rows as [| row rows IH]; intro cd; cbn [fold_left first_rows].
  - cbn. now rewrite app_nil_r.
  - rewrite IH. unfold Api.course_details_step. cbv zeta.
    set (c := DetailedResult.course row).
    cbn [filter]. fold c.
    destruct (Api.has_course c cd) eqn:Hc; cbn [negb].
    + rewrite append_detail_summary. f_equal. f_equal.
      rewrite filter_filter. apply filter_ext. intro r.
      rewrite (has_course_summary _ _ cd (append_detail_summary c _ cd)).
      destruct (String.eqb (DetailedResult.course r) c) eqn:E; [| reflexivity].
      apply String.eqb_eq in E. rewrite E, Hc. reflexivity.
    + rewrite append_detail_summary, map_app. cbn [map].
      rewrite <- app_assoc. cbn [app]. f_equal. f_equal. f_equal.
      rewrite filter_filter. apply filter_ext. intro r.
      rewrite (has_course_summary _ _ _ (append_detail_summary c _ _)).
      rewrite has_course_app, negb_orb, (String.eqb_sym c). apply andb_comm.
Qed.

Lemma build_course_details_summary rows :
  map item_summary (Api.build_course_details rows)
    = map row_summary (first_rows rows).
Proof.
  unfold Api.build_course_details. rewrite course_details_loop. cbn.
  f_equal. induction (first_rows rows) as [| r l IH]; cbn; now rewrite ?IH.
Qed.

Lemma lookup_append_detail course k d cd :
  lookup_course course (Api.append_detail k d cd)
    = if String.eqb k course
      then option_map
             (fun data => CourseData.mk (CourseData.details data ++ [d])
                            (CourseData.total_score data) (CourseData.grade data))
             (lookup_course course cd)
      else lookup_course course cd.
Proof.
  induction cd as [| [key data] cd IH]; cbn.
  - now destruct (String.eqb k course).
  - destruct (String.eqb key k) eqn:Ek; cbn.
    + apply String.eqb_eq in Ek. subst key.
      now destruct (String.eqb k course).
    + rewrite IH. destruct (String.eqb key course) eqn:Ec; [| reflexivity].
      apply String.eqb_eq in Ec. subst key. now rewrite String.eqb_sym, Ek.
Qed.

Lemma lookup_app course cd k data :
  lookup_course course (cd ++ [(k, data)])
    = match lookup_course course cd with
      | Some found => Some found
      | None => if String.eqb k course then Some data else None
      end.
Proof.
  induction cd as [| [key data'] cd IH]; cbn; [reflexivity |].
  now destruct (String.eqb key course).
Qed.

Lemma has_course_lookup course cd :
  Api.has_course course cd
    = match lookup_course course cd with Some _ => true | None => false end.
Proof.
  induction cd as [| [key data] cd IH]; cbn; [reflexivity |].
  now destruct (String.eqb key course).
Qed.

(** What the loop of api.py:122-134 leaves under a course: the item that
    was there with the details of the course's rows appended, else a new
    item made from the course's rows, else nothing. *)
Lemma course_details_loop_lookup rows : forall cd course,
  lookup_course course (fold_left Api.course_details_step rows cd)
    = match lookup_course course cd with
      | Some data =>
          Some (CourseData.mk
                  (CourseData.details data
                   ++ map detail_of (rows_of_course course rows))
                  (CourseData.total_score data) (CourseData.grade data))
      | None =>
          match rows_of_course course rows with
          | [] => None
          | first :: _ =>
              Some (CourseData.mk (map detail_of (rows_of_course course rows))
                      (DetailedResult.total_score first)
                      (DetailedResult.grade first))
          end
      end.
Proof.
  induction rows as [| row rows IH]; intros cd course; cbn [fold_left].
  - cbn. destruct (lookup_course course cd) as [[ds t g] |]; [| reflexivity].
    cbn. now rewrite app_nil_r.
  - rewrite IH. unfold Api.course_details_step. cbv zeta.
    fold (detail_of row). set (k := DetailedResult.course row).
    unfold rows_of_course. cbn [filter]. fold k.
    fold (rows_of_course course rows).
    rewrite lookup_append_detail.
    destruct (Api.has_course k cd) eqn:Hk; rewrite has_course_lookup in Hk.
    + destruct (String.eqb k course) eqn:E.
      * apply String.eqb_eq in E. subst course.
        destruct (lookup_course k cd) as [data |]; [| discriminate].
        cbn. now rewrite <- app_assoc.
      * now destruct (lookup_course course cd).
    + rewrite lookup_app.
      destruct (String.eqb k course) eqn:E.
      * apply String.eqb_eq in E. subst course.
        destruct (lookup_course k cd) as [data |]; [discriminate |].
        reflexivity.
      * now destruct (lookup_course course cd).
Qed.

Lemma first_rows_courses rows course :
  In course (map (@DetailedResult.course R) (first_rows rows))
  <-> In course (map (@DetailedResult.course R) rows).
Proof.
  induction rows as [| row rows IH]; cbn; [tauto |].
  rewrite <- IH, !in_map_iff. split.
  - intros [E | (r & E & Hr)]; [now left |].
    apply filter_In in Hr as [Hr _]. right. eauto.
  - intros [E | (r & E & Hr)]; [now left |].
    destruct (String.eqb course (DetailedResult.course row)) eqn:Ec.
    + apply String.eqb_eq in Ec. now left.
    + right. exists r. split; [exact E |]. apply filter_In.
      split; [exact Hr |]. now rewrite E, Ec.
Qed.

Lemma first_rows_NoDup rows :
  NoDup (map (@DetailedResult.course R) (first_rows rows)).
Proof.
  induction rows as [| row rows IH]; cbn; constructor.
  - rewrite in_map_iff. intros (r & E & Hr). apply filter_In in Hr as [_ Hr].
    now rewrite E, String.eqb_refl in Hr.
  - induction (first_rows rows) as [| r l IHl]; cbn; [constructor |].
    inversion IH as [| ? ? Hnotin Hl]; subst.
    destruct (negb _); cbn; [constructor |]; auto.
    rewrite in_map_iff. intros (r' & E & Hr'). apply filter_In in Hr' as [Hr' _].
    apply Hnotin. rewrite in_map_iff. eauto.
Qed.

End GroupingFacts.

Section TableProperties.
Context {R : Type} {num : Number R}.
Variable db : Database R.

Lemma class_stats_keeps d (row : SubjectRow.t R) :
  (SubjectRow.subject (Api.class_stats db d row),
   SubjectRow.total_score (Api.class_stats db d row),
   SubjectRow.grade (Api.class_stats db d row))
  = (SubjectRow.subject row, SubjectRow.total_score row, SubjectRow.grade row).
Proof.
  unfold Api.class_stats.
  destruct (_ && _); [| reflexivity].
  destruct (class_scores db _ _ _ _ _); reflexivity.
Qed.

(** Grouping by course.  After the loop of api.py:122-134 over the rows,
    looking a course up in [course_details] finds nothing exactly when no
    row has that course; otherwise it finds the total score and grade of
    the first row of the course, with one detail per row of the course, in
    the order of the rows. *)
Theorem course_details_groups_rows_by_course
    (rows : list (DetailedResult.t R)) (course : string) :
  lookup_course course (Api.build_course_details rows)
    = match rows_of_course course rows with
      | [] => None
      | first :: _ =>
          Some (CourseData.mk (map detail_of (rows_of_course course rows))
                  (DetailedResult.total_score first)
                  (DetailedResult.grade first))
      end.
Proof.
  unfold Api.build_course_details. now rewrite course_details_loop_lookup.
Qed.

(** Subjects table.  For a record whose Student and Academic Term records
    exist and whose student has assessment results the run returns with one
    subject row per course, in the order the courses first appear in the
    rows: each holds the total score (0 when null or zero) and grade (empty
    when null) of the first row of its course; no course appears twice and
    every course of a row appears; and the overall total is the sum of
    those first-row scores, however many rows each course has. *)
Theorem subjects_are_the_first_rows_of_each_course
    (doc : ResultDoc.t R) (sd : Student.t) (td : AcademicTerm.t) :
  student_doc db (ResultDoc.student doc) = Some sd ->
  academic_term_doc db (ResultDoc.academic_term doc) = Some td ->
  results_of db doc <> [] ->
  exists doc' evs,
    Api.populate_student_result db doc = (Returned doc', evs) /\
    map (fun row => (SubjectRow.subject row, SubjectRow.total_score row,
                     SubjectRow.grade row))
      (ResultDoc.subjects doc')
    = map (fun r => (DetailedResult.course r,
                     opt_or (DetailedResult.total_score r) zero,
                     opt_str_or (DetailedResult.grade r) ""))
        (first_rows (results_of db doc)) /\
    NoDup (map SubjectRow.subject (ResultDoc.subjects doc')) /\
    (forall course,
       In course (map SubjectRow.subject (ResultDoc.subjects doc'))
       <-> In course (map (@DetailedResult.course R) (results_of db doc))) /\
    ResultDoc.total_marks_obtained doc'
    = Some (py_sum (map (fun r => opt_or (DetailedResult.total_score r) zero)
                      (first_rows (results_of db doc)))).
Proof.
  intros Hsd Htd Hne.
  destruct (populate_returns db doc sd td Hsd Htd) as (doc' & evs & Hrun).
  exists doc', evs. split; [exact Hrun |].
  destruct (populate_filled db _ _ _ Hrun Hne)
    as (_ & _ & _ & _ & _ & Hs & _ & Ht & _).
  cbv zeta in Ht.
  assert (Hrows :
    map (fun row => (SubjectRow.subject row, SubjectRow.total_score row,
                     SubjectRow.grade row))
      (ResultDoc.subjects doc')
    = map (fun r => (DetailedResult.course r,
                     opt_or (DetailedResult.total_score r) zero,
                     opt_str_or (DetailedResult.grade r) ""))
        (first_rows (results_of db doc))).
  { rewrite Hs. unfold initial_subjects. rewrite !map_map.
    erewrite map_ext by (intro item; apply class_stats_keeps).
    pose proof (build_course_details_summary (results_of db doc)) as Hsum.
    apply (f_equal (map (fun s : string * option R * option string =>
             (fst (fst s), opt_or (snd (fst s)) zero, opt_str_or (snd s) ""))))
      in Hsum.
    rewrite !map_map in Hsum. exact Hsum. }
  assert (Hnames : map SubjectRow.subject (ResultDoc.subjects doc')
                   = map (@DetailedResult.course R)
                       (first_rows (results_of db doc))).
  { apply (f_equal (map (fun s : string * R * string => fst (fst s)))) in Hrows.
    rewrite !map_map in Hrows. exact Hrows. }
  repeat split.
  - exact Hrows.
  - rewrite Hnames. apply first_rows_NoDup.
  - rewrite Hnames. apply first_rows_courses.
  - rewrite Hnames. apply first_rows_courses.
  - rewrite Ht. f_equal. f_equal.
    apply (f_equal (map (fun s : string * R * string => snd (fst s)))) in Hrows.
    rewrite !map_map in Hrows. exact Hrows.
Qed.

(** Components table.  For a record whose Student and Academic Term records
    exist and whose student has assessment results the run returns with one
    component row per row of the query, in the same order, carrying the
    row's course and criteria and its score and maximum score (0 when null
    or zero); and the overall max is the sum of the maximum scores of all
    rows. *)
Theorem components_are_the_rows
    (doc : ResultDoc.t R) (sd : Student.t) (td : AcademicTerm.t) :
  student_doc db (ResultDoc.student doc) = Some sd ->
  academic_term_doc db (ResultDoc.academic_term doc) = Some td ->
  results_of db doc <> [] ->
  exists doc' evs,
    Api.populate_student_result db doc = (Returned doc', evs) /\
    length (ResultDoc.assessment_components doc') = length (results_of db doc) /\
    map (fun c => (ComponentRow.subject c, ComponentRow.criteria c,
                   ComponentRow.score_obtained c, ComponentRow.max_score c))
      (ResultDoc.assessment_components doc')
    = map (fun r => (DetailedResult.course r, DetailedResult.assessment_criteria r,
                     opt_or (DetailedResult.score r) zero,
                     opt_or (DetailedResult.maximum_score r) zero))
        (results_of db doc) /\
    ResultDoc.total_max_marks doc'
    = Some (py_sum (map (fun r => opt_or (DetailedResult.maximum_score r) zero)
                      (results_of db doc))).
Proof.
  intros Hsd Htd Hne.
  destruct (populate_returns db doc sd td Hsd Htd) as (doc' & evs & Hrun).
  exists doc', evs. split; [exact Hrun |].
  destruct (populate_filled db _ _ _ Hrun Hne)
    as (_ & _ & _ & _ & _ & _ & Hc & _ & Hm & _).
  cbv zeta in Hm. rewrite Hm, Hc, !map_map, length_map. repeat split.
Qed.

End TableProperties.

(* ------------------------------------------------------------------ *)
(** * More of [populate_student_result] and [generate_class_results]:
      the other fields, the edges and the failures *)

Section RunShape.
Context {R : Type} {num : Number R}.
Variable db : Database R.

(** A returning run, with its log: the notices of the group step, then
    either the notice of the empty case or the log of the grade step. *)
Lemma populate_log doc doc' evs :
  Api.populate_student_result db doc = (Returned doc', evs) ->
  exists sd td,
    student_doc db (ResultDoc.student doc) = Some sd /\
    academic_term_doc db (ResultDoc.academic_term doc) = Some td /\
    let grouped := with_group db (Api.student_info sd td doc) in
    match results_of db doc with
    | [] =>
        doc' = ResultDoc.set_assessment_components []
                 (ResultDoc.set_subjects [] grouped) /\
        evs = snd (Api.group_info db (Api.student_info sd td doc))
              ++ [Msgprint ("No Assessment Results found for student "
                            ++ fmt (ResultDoc.student doc))]
    | results =>
        exists graded msgs,
          Api.overall_grade_step db (before_grade db results grouped)
            = (Returned graded, msgs) /\
          doc' = Api.positions db graded /\
          evs = snd (Api.group_info db (Api.student_info sd td doc)) ++ msgs
    end.
Proof.
  unfold Api.populate_student_result. intro H.
  apply bind_returned in H as (sd & e1 & e2 & Hsd & H & E1).
  apply bind_returned in H as (td & e3 & e4 & Htd & H & E2).
  apply bind_returned in H as (grouped & e5 & e6 & Hg & H & E3).
  unfold get_doc in Hsd, Htd.
  destruct (student_doc db _) as [sd' |]; [| discriminate].
  destruct (academic_term_doc db _) as [td' |]; [| discriminate].
  inversion Hsd; inversion Htd; subst sd' td' e1 e3.
  exists sd, td. repeat split.
  destruct (group_info_returns db (Api.student_info sd td doc)) as [msgs Hg'].
  rewrite Hg'. rewrite Hg' in Hg.
  assert (grouped = with_group db (Api.student_info sd td doc) /\ e5 = msgs)
    as [-> ->] by (split; congruence).
  clear Hg Hg'. cbv zeta in *.
  set (grouped := with_group db (Api.student_info sd td doc)) in *.
  assert (Hkeys : detailed_results db (ResultDoc.student grouped)
            (ResultDoc.academic_year grouped) (ResultDoc.academic_term grouped)
            (ResultDoc.assessment_group grouped) = results_of db doc
          /\ ResultDoc.student grouped = ResultDoc.student doc).
  { unfold results_of, grouped.
    destruct (with_group_keys db (Api.student_info sd td doc)) as (-> & -> & -> & ->).
    now split. }
  destruct Hkeys as [Hres Hst].
  cbn [ResultDoc.student ResultDoc.academic_year ResultDoc.academic_term
       ResultDoc.assessment_group ResultDoc.set_subjects
       ResultDoc.set_assessment_components] in H.
  rewrite Hres, ?Hst in H.
  destruct (results_of db doc) as [| row rows].
  - apply bind_returned in H as (? & ? & ? & Hm & H & E4).
    inversion Hm; inversion H; subst.
    split; [reflexivity |]. cbn [snd app]. reflexivity.
  - unfold Api.fill_from_results in H.
    apply bind_returned in H as (graded & g1 & g2 & Hgr & H & E4).
    exists graded, g1. inversion H; subst.
    split; [exact Hgr |]. split; [reflexivity |].
    cbn [snd app]. now rewrite app_nil_r.
Qed.

(** The fields of the record that only the first two steps write. *)
Definition header (d : ResultDoc.t R) :=
  (ResultDoc.student d, ResultDoc.assessment_group d, ResultDoc.academic_year d,
   ResultDoc.academic_term d, ResultDoc.term_start_date d,
   ResultDoc.term_end_date d, ResultDoc.gender d,
   ResultDoc.student_admission_id d, ResultDoc.student_group d,
   ResultDoc.number_of_students_in_class_group d,
   ResultDoc.number_of_students_in_class d).

Lemma positions_header d : header (Api.positions db d) = header d.
Proof.
  unfold Api.positions, header.
  destruct (opt_str_truthy (ResultDoc.student_group d)); [| reflexivity].
  destruct (class_arm_totals db _ _ _ _); cbn;
    destruct (opt_str_truthy (program_of_group db _)); try reflexivity;
    destruct (class_totals db _ _ _ _); reflexivity.
Qed.

Lemma before_grade_header results d : header (before_grade db results d) = header d.
Proof.
  unfold before_grade, with_tables, Api.totals, header. cbv zeta.
  rewrite append_subjects_eq, append_components_eq.
  destruct (ltb zero _); reflexivity.
Qed.

Lemma overall_grade_step_header d d' msgs :
  Api.overall_grade_step db d = (Returned d', msgs) -> header d' = header d.
Proof.
  intro H. apply overall_grade_step_cases in H as [-> | [g ->]]; reflexivity.
Qed.

Lemma populate_header doc doc' evs sd td :
  Api.populate_student_result db doc = (Returned doc', evs) ->
  student_doc db (ResultDoc.student doc) = Some sd ->
  academic_term_doc db (ResultDoc.academic_term doc) = Some td ->
  header doc' = header (with_group db (Api.student_info sd td doc)).
Proof.
  intros Hrun Hsd Htd.
  apply populate_log in Hrun as (sd' & td' & Hsd' & Htd' & H).
  rewrite Hsd in Hsd'. rewrite Htd in Htd'.
  inversion Hsd'; inversion Htd'; subst sd' td'. cbv zeta in H.
  destruct (results_of db doc) as [| row rows].
  - destruct H as [-> _]. reflexivity.
  - destruct H as (graded & msgs & Hstep & -> & _).
    now rewrite positions_header, (overall_grade_step_header _ _ _ Hstep),
      before_grade_header.
Qed.

Lemma populate_graded doc doc' evs :
  Api.populate_student_result db doc = (Returned doc', evs) ->
  results_of db doc <> [] ->
  exists graded,
    doc' = Api.positions db graded /\
    ResultDoc.student_group graded = resolved_group db doc /\
    ResultDoc.assessment_group graded = ResultDoc.assessment_group doc /\
    ResultDoc.academic_year graded = ResultDoc.academic_year doc /\
    ResultDoc.academic_term graded = ResultDoc.academic_term doc /\
    ResultDoc.total_marks_obtained graded
      = Some (py_sum (map SubjectRow.total_score (ResultDoc.subjects doc'))) /\
    ResultDoc.class_arm_position graded = ResultDoc.class_arm_position doc /\
    ResultDoc.class_position graded = ResultDoc.class_position doc.
Proof.
  intros Hrun Hne.
  destruct (populate_filled db _ _ _ Hrun Hne)
    as (_ & Hg & Ha & Hy & Ht & _ & _ & Htot & _).
  cbv zeta in Htot.
  apply populate_log in Hrun as (sd & td & _ & _ & H). cbv zeta in H.
  destruct (results_of db doc) as [| row rows]; [easy |].
  destruct H as (graded & msgs & Hstep & -> & _).
  exists graded.
  destruct (positions_frame db graded) as ((_ & Kg & Ka & Ky & Kt) & _ & _ & Pt & _).
  repeat split; try congruence.
  - apply overall_grade_step_cases in Hstep as [-> | [g ->]]; cbn;
      unfold before_grade, with_tables, Api.totals; cbv zeta;
      rewrite append_subjects_eq, append_components_eq;
      (destruct (ltb zero _); cbn;
       now destruct (grouped_frame db sd td doc) as (_ & _ & _ & _ & _ & _ & _ & ->)).
  - apply overall_grade_step_cases in Hstep as [-> | [g ->]]; cbn;
      unfold before_grade, with_tables, Api.totals; cbv zeta;
      rewrite append_subjects_eq, append_components_eq;
      (destruct (ltb zero _); cbn; unfold with_group;
       destruct (student_groups db _); reflexivity).
Qed.

End RunShape.

Section MoreOfTheRecord.
Context {R : Type} {num : Number R}.
Variable db : Database R.

(** Student and term fields.  For a record whose Student and Academic Term
    records exist the run returns with the term's start and end date, the
    student's gender and, as admission id, the name of the Student record;
    the student and the three filters are what the stub held. *)
Theorem record_carries_student_and_term_fields
    (doc : ResultDoc.t R) (sd : Student.t) (td : AcademicTerm.t) :
  student_doc db (ResultDoc.student doc) = Some sd ->
  academic_term_doc db (ResultDoc.academic_term doc) = Some td ->
  exists doc' evs,
    Api.populate_student_result db doc = (Returned doc', evs) /\
    ResultDoc.term_start_date doc' = AcademicTerm.term_start_date td /\
    ResultDoc.term_end_date doc' = AcademicTerm.term_end_date td /\
    ResultDoc.gender doc' = Student.gender sd /\
    ResultDoc.student_admission_id doc' = Some (Student.name sd) /\
    ResultDoc.student doc' = ResultDoc.student doc /\
    ResultDoc.assessment_group doc' = ResultDoc.assessment_group doc /\
    ResultDoc.academic_year doc' = ResultDoc.academic_year doc /\
    ResultDoc.academic_term doc' = ResultDoc.academic_term doc.
Proof.
  intros Hsd Htd.
  destruct (populate_returns db doc sd td Hsd Htd) as (doc' & evs & Hrun).
  exists doc', evs. split; [exact Hrun |].
  pose proof (populate_header db _ _ _ _ _ Hrun Hsd Htd) as H.
  unfold header, with_group in H.
  destruct (student_groups db _); cbn in H; inversion H; repeat split.
Qed.

(** Group fields.  For a record whose Student and Academic Term records
    exist the run returns, and
    - when the roster query lists groups for the student, the record gets
      the first one, the number of students the count query gives for it,
      and the number of submitted enrollments in that group's program for
      the record's year and term;
    - when it lists none, the three fields are left as they were and the
      notice is emitted. *)
Theorem group_fields_come_from_the_first_group
    (doc : ResultDoc.t R) (sd : Student.t) (td : AcademicTerm.t) :
  student_doc db (ResultDoc.student doc) = Some sd ->
  academic_term_doc db (ResultDoc.academic_term doc) = Some td ->
  exists doc' evs,
    Api.populate_student_result db doc = (Returned doc', evs) /\
    (forall group others,
       student_groups db (ResultDoc.student doc) = group :: others ->
       ResultDoc.student_group doc' = Some group /\
       ResultDoc.number_of_students_in_class_group doc'
         = Some (count_group_students db group) /\
       ResultDoc.number_of_students_in_class doc'
         = Some (count_program_enrollment db (program_of_group db (Some group))
                   (ResultDoc.academic_year doc) (ResultDoc.academic_term doc))) /\
    (student_groups db (ResultDoc.student doc) = [] ->
     ResultDoc.student_group doc' = ResultDoc.student_group doc /\
     ResultDoc.number_of_students_in_class_group doc'
       = ResultDoc.number_of_students_in_class_group doc /\
     ResultDoc.number_of_students_in_class doc'
       = ResultDoc.number_of_students_in_class doc /\
     In (Msgprint ("No Student Group found for " ++ fmt (ResultDoc.student doc)))
        evs).
Proof.
  intros Hsd Htd.
  destruct (populate_returns db doc sd td Hsd Htd) as (doc' & evs & Hrun).
  exists doc', evs. split; [exact Hrun |].
  pose proof (populate_header db _ _ _ _ _ Hrun Hsd Htd) as H.
  unfold header, with_group in H. split.
  - intros group others Hgroups. cbn in H. rewrite Hgroups in H. cbn in H.
    inversion H. repeat split.
  - intro Hgroups. cbn in H. rewrite Hgroups in H. cbn in H.
    inversion H. repeat split.
    apply populate_log in Hrun as (sd' & td' & _ & _ & Hlog). cbv zeta in Hlog.
    assert (Hnotice :
      In (Msgprint ("No Student Group found for " ++ fmt (ResultDoc.student doc)))
         (snd (Api.group_info db (Api.student_info sd' td' doc)))).
    { unfold Api.group_info.
      change (ResultDoc.student (Api.student_info sd' td' doc))
        with (ResultDoc.student doc).
      rewrite Hgroups. left. reflexivity. }
    destruct (results_of db doc).
    + destruct Hlog as [_ ->]. apply in_or_app. left. congruence.
    + destruct Hlog as (graded & msgs & _ & _ & ->). apply in_or_app.
      left. congruence.
Qed.

End MoreOfTheRecord.

Section Positions.
Context {R : Type} {num : Number R}.
Variable db : Database R.

Lemma count_exceeding_le (values : list R) (mine : R) :
  (count_exceeding values mine <= length values)%nat.
Proof. unfold count_exceeding. apply filter_length_le. Qed.

Lemma count_exceeding_lt (values : list R) (mine : R) :
  In mine values -> (count_exceeding values mine < length values)%nat.
Proof.
  unfold count_exceeding. induction values as [| v values IH]; [easy |].
  intros [-> | Hin]; cbn.
  - rewrite ltb_irrefl. pose proof (filter_length_le (ltb mine) values). lia.
  - specialize (IH Hin). destruct (ltb mine v); cbn; lia.
Qed.

Lemma count_exceeding_antitone (values : list R) (a b : R) :
  ltb a b = true ->
  (count_exceeding values b <= count_exceeding values a)%nat.
Proof.
  intro Hab. unfold count_exceeding.
  induction values as [| v values IH]; cbn; [lia |].
  destruct (ltb b v) eqn:Hb.
  - rewrite (ltb_trans _ _ _ Hab Hb). cbn. lia.
  - destruct (ltb a v); cbn; lia.
Qed.

(** Positions are ranks.  The position the loops of api.py:184-187, 243-246
    and 272-275 compute among N values lies between 1 and N + 1, and
    between 1 and N when the value ranked is one of them; a strictly
    greater value never gets a later position. *)
Theorem position_is_a_rank (values : list R) (mine : R) :
  (1 <= Api.position_among values mine <= length values + 1)%nat /\
  (In mine values -> (Api.position_among values mine <= length values)%nat) /\
  (forall better,
     ltb mine better = true ->
     (Api.position_among values better <= Api.position_among values mine)%nat).
Proof.
  rewrite position_among_count. repeat split.
  - lia.
  - pose proof (count_exceeding_le values mine). lia.
  - intro Hin. pose proof (count_exceeding_lt values mine Hin). lia.
  - intros better Hb. rewrite position_among_count.
    pose proof (count_exceeding_antitone values mine better Hb). lia.
Qed.

(** Program position.  For a record whose Student and Academic Term records
    exist the run returns, and
    - when the roster query resolves a (named) group whose program is
      named, the student has assessment results and the program query
      returns at least one row, the class position is 1 plus the number of
      its rows whose summed total is strictly greater than the record's
      overall total;
    - when the group has no program, or the student has no group, the class
      position is left as it was. *)
Theorem class_position_counts_higher_totals
    (doc : ResultDoc.t R) (sd : Student.t) (td : AcademicTerm.t) :
  student_doc db (ResultDoc.student doc) = Some sd ->
  academic_term_doc db (ResultDoc.academic_term doc) = Some td ->
  exists doc' evs,
    Api.populate_student_result db doc = (Returned doc', evs) /\
    (forall group others program row rows,
       student_groups db (ResultDoc.student doc) = group :: others ->
       str_truthy group = true ->
       results_of db doc <> [] ->
       program_of_group db (Some group) = Some program ->
       str_truthy program = true ->
       class_totals db (Some program) (ResultDoc.academic_year doc)
         (ResultDoc.academic_term doc) (ResultDoc.assessment_group doc)
         = row :: rows ->
       let student_total :=
         py_sum (map SubjectRow.total_score (ResultDoc.subjects doc')) in
       ResultDoc.class_position doc'
         = Some (1 + count_exceeding (map snd (row :: rows)) student_total)%nat) /\
    (forall group others,
       student_groups db (ResultDoc.student doc) = group :: others ->
       opt_str_truthy (program_of_group db (Some group)) = false ->
       ResultDoc.class_position doc' = ResultDoc.class_position doc) /\
    (student_groups db (ResultDoc.student doc) = [] ->
     opt_str_truthy (ResultDoc.student_group doc) = false ->
     ResultDoc.class_position doc' = ResultDoc.class_position doc).
Proof.
  intros Hsd Htd.
  destruct (populate_returns db doc sd td Hsd Htd) as (doc' & evs & Hrun).
  exists doc', evs. split; [exact Hrun |].
  assert (Hempty : results_of db doc = [] ->
                   ResultDoc.class_position doc' = ResultDoc.class_position doc).
  { intro E. apply populate_log in Hrun as (sd' & td' & _ & _ & H).
    cbv zeta in H. rewrite E in H. destruct H as [-> _]. cbn.
    unfold with_group. now destruct (student_groups db _). }
  split; [| split].
  - intros group others program row rows Hgroups Hnamed Hne Hprogram Hpnamed
      Hrows student_total.
    destruct (populate_graded db _ _ _ Hrun Hne)
      as (graded & -> & Kg & Ka & Ky & Kt & Ktot & _).
    unfold resolved_group in Kg. rewrite Hgroups in Kg.
    unfold Api.positions. rewrite Kg. cbn [opt_str_truthy]. rewrite Hnamed.
    destruct (class_arm_totals db _ _ _ _);
      cbn [ResultDoc.student_group ResultDoc.set_class_arm_position
           ResultDoc.academic_year ResultDoc.academic_term
           ResultDoc.assessment_group ResultDoc.total_marks_obtained];
      rewrite Kg, Hprogram; cbn [opt_str_truthy]; rewrite Hpnamed;
      rewrite Ka, Ky, Kt, Hrows, Ktot; cbn [opt_or]; cbv beta iota zeta;
      rewrite num_or_zero, position_among_count; reflexivity.
  - intros group others Hgroups Hprogram.
    destruct (results_of db doc) as [| r rs] eqn:Eres; [now apply Hempty |].
    assert (Hne : results_of db doc <> []) by (rewrite Eres; discriminate).
    destruct (populate_graded db _ _ _ Hrun Hne)
      as (graded & -> & Kg & _ & _ & _ & _ & _ & Kp).
    unfold resolved_group in Kg. rewrite Hgroups in Kg.
    unfold Api.positions. rewrite Kg.
    destruct (opt_str_truthy (Some group)); [| exact Kp].
    destruct (class_arm_totals db _ _ _ _);
      cbn [ResultDoc.student_group ResultDoc.set_class_arm_position];
      rewrite Kg, Hprogram; exact Kp.
  - intros Hgroups Hnone.
    destruct (results_of db doc) as [| r rs] eqn:Eres; [now apply Hempty |].
    assert (Hne : results_of db doc <> []) by (rewrite Eres; discriminate).
    destruct (populate_graded db _ _ _ Hrun Hne)
      as (graded & -> & Kg & _ & _ & _ & _ & _ & Kp).
    unfold resolved_group in Kg. rewrite Hgroups in Kg.
    unfold Api.positions. now rewrite Kg, Hnone.
Qed.

End Positions.

Section GradeEdges.
Context {R : Type} {num : Number R}.
Variable db : Database R.

(** [bool(doc.term_average)]. *)
Definition average_truthy (d : ResultDoc.t R) : bool :=
  match ResultDoc.term_average d with
  | Some avg => truthy avg
  | None => false
  end.

Lemma populate_grade_step doc doc' evs :
  Api.populate_student_result db doc = (Returned doc', evs) ->
  results_of db doc <> [] ->
  exists ungraded graded msgs rest,
    Api.overall_grade_step db ungraded = (Returned graded, msgs) /\
    evs = rest ++ msgs /\
    ResultDoc.term_average ungraded = ResultDoc.term_average doc' /\
    ResultDoc.overall_grade ungraded = ResultDoc.overall_grade doc /\
    ResultDoc.overall_grade doc' = ResultDoc.overall_grade graded.
Proof.
  intros Hrun Hne.
  apply populate_log in Hrun as (sd & td & _ & _ & H). cbv zeta in H.
  destruct (results_of db doc) as [| row rows]; [easy |].
  destruct H as (graded & msgs & Hstep & -> & ->).
  eexists; exists graded, msgs; eexists.
  split; [exact Hstep |]. split; [reflexivity |].
  destruct (positions_frame db graded) as (_ & _ & _ & _ & _ & -> & ->).
  pose proof Hstep as Hframe. apply overall_grade_step_frame in Hframe.
  destruct Hframe as (_ & _ & _ & _ & _ & -> & _).
  repeat split.
  unfold before_grade, with_tables, Api.totals. cbv zeta.
  rewrite append_subjects_eq, append_components_eq.
  destruct (ltb zero _); cbn;
    now destruct (grouped_frame db sd td doc) as (_ & _ & _ & _ & _ & _ & -> & _).
Qed.

Lemma populate_grade_without_settings doc doc' evs :
  Api.populate_student_result db doc = (Returned doc', evs) ->
  results_of db doc <> [] ->
  school_settings db = None ->
  average_truthy doc' = true ->
  ResultDoc.overall_grade doc' = Some "N/A" /\
  exists reason,
    In (LogError ("Error calculating overall grade: " ++ reason)) evs.
Proof.
  intros Hrun Hne Hsettings.
  destruct (populate_grade_step _ _ _ Hrun Hne)
    as (ungraded & graded & msgs & rest & Hstep & -> & Ha & _ & ->).
  unfold average_truthy. rewrite <- Ha. intro Htruthy.
  unfold Api.overall_grade_step in Hstep.
  destruct (ResultDoc.term_average ungraded) as [avg |]; [| discriminate].
  rewrite Htruthy, Hsettings in Hstep. cbn in Hstep.
  inversion Hstep; subst. split; [reflexivity |].
  eexists. apply in_or_app. right. left. reflexivity.
Qed.

(** Grade lookup failure.  For a record whose Student and Academic Term
    records exist and whose student has assessment results, when the School
    Settings record does not load the run still returns; when its term
    average is set and not zero, the overall grade is "N/A" and an error
    starting with "Error calculating overall grade: " is logged. *)
Theorem failed_grade_lookup_is_logged_not_raised
    (doc : ResultDoc.t R) (sd : Student.t) (td : AcademicTerm.t) :
  student_doc db (ResultDoc.student doc) = Some sd ->
  academic_term_doc db (ResultDoc.academic_term doc) = Some td ->
  results_of db doc <> [] ->
  school_settings db = None ->
  exists doc' evs,
    Api.populate_student_result db doc = (Returned doc', evs) /\
    (average_truthy doc' = true ->
     ResultDoc.overall_grade doc' = Some "N/A" /\
     exists reason,
       In (LogError ("Error calculating overall grade: " ++ reason)) evs).
Proof.
  intros Hsd Htd Hne Hsettings.
  destruct (populate_returns db doc sd td Hsd Htd) as (doc' & evs & Hrun).
  exists doc', evs. split; [exact Hrun |].
  exact (populate_grade_without_settings _ _ _ Hrun Hne Hsettings).
Qed.

(** No average, no grade.  For a record whose Student and Academic Term
    records exist the run returns, and when it ends with the term average
    unset or zero (as it does for a student with no assessment result) the
    overall grade is left as it was and no error is logged: School Settings
    is not consulted. *)
Theorem grade_untouched_without_average
    (doc : ResultDoc.t R) (sd : Student.t) (td : AcademicTerm.t) :
  student_doc db (ResultDoc.student doc) = Some sd ->
  academic_term_doc db (ResultDoc.academic_term doc) = Some td ->
  exists doc' evs,
    Api.populate_student_result db doc = (Returned doc', evs) /\
    (average_truthy doc' = false \/ results_of db doc = [] ->
     ResultDoc.overall_grade doc' = ResultDoc.overall_grade doc /\
     forall msg, ~ In (LogError msg) evs).
Proof.
  intros Hsd Htd.
  destruct (populate_returns db doc sd td Hsd Htd) as (doc' & evs & Hrun).
  exists doc', evs. split; [exact Hrun |].
  assert (Hgroup : forall d msg, ~ In (LogError msg) (snd (Api.group_info db d))).
  { intros d msg. unfold Api.group_info.
    destruct (student_groups db _); cbn; [| easy].
    intros [E | []]. discriminate. }
  destruct (results_of db doc) as [| row rows] eqn:Eres.
  - intros _. apply populate_log in Hrun as (sd' & td' & _ & _ & H).
    cbv zeta in H. rewrite Eres in H. destruct H as [-> ->]. split.
    + cbn. now destruct (grouped_frame db sd' td' doc)
        as (_ & _ & _ & _ & _ & _ & -> & _).
    + intros msg Hin. apply in_app_or in Hin as [Hin | [E | []]];
        [now apply Hgroup in Hin | discriminate].
  - intros [Hfalsy | E]; [| discriminate].
    assert (Hne : results_of db doc <> []) by (rewrite Eres; discriminate).
    pose proof Hrun as Hlog.
    apply populate_log in Hlog as (sd' & td' & _ & _ & H). cbv zeta in H.
    rewrite Eres in H. destruct H as (graded & msgs & Hstep & Hdoc & Hevs).
    destruct (positions_frame db graded) as (_ & _ & _ & _ & _ & Pa & Pg).
    pose proof Hstep as Hframe. apply overall_grade_step_frame in Hframe.
    destruct Hframe as (_ & _ & _ & _ & _ & Oa & _).
    unfold average_truthy in Hfalsy. rewrite Hdoc, Pa, Oa in Hfalsy.
    unfold Api.overall_grade_step in Hstep.
    assert (Hquiet : graded = before_grade db (row :: rows)
                                (with_group db (Api.student_info sd' td' doc))
                     /\ msgs = []).
    { destruct (ResultDoc.term_average (before_grade db _ _)) as [avg |].
      - rewrite Hfalsy in Hstep. inversion Hstep. now split.
      - inversion Hstep. now split. }
    destruct Hquiet as [-> ->]. subst doc' evs. rewrite Pg. split.
    + unfold before_grade, with_tables, Api.totals. cbv zeta.
      rewrite append_subjects_eq, append_components_eq.
      destruct (ltb zero _); cbn;
        now destruct (grouped_frame db sd' td' doc)
          as (_ & _ & _ & _ & _ & _ & -> & _).
    + intros msg Hin. rewrite app_nil_r in Hin. now apply Hgroup in Hin.
Qed.

End GradeEdges.

Section RunOutcome.
Context {R : Type} {num : Number R}.
Variable db : Database R.

(** Missing records.  The run raises exactly when the Student record or the
    Academic Term record of the stub does not exist: DoesNotExistError for
    the Student when that one is missing, else for the Academic Term; it
    has emitted nothing by then.  Otherwise it returns. *)
Theorem populate_raises_only_for_missing_records (doc : ResultDoc.t R) :
  match student_doc db (ResultDoc.student doc),
        academic_term_doc db (ResultDoc.academic_term doc) with
  | None, _ =>
      Api.populate_student_result db doc
        = (Raised (DoesNotExistError "Student" (ResultDoc.student doc)), [])
  | Some _, None =>
      Api.populate_student_result db doc
        = (Raised (DoesNotExistError "Academic Term" (ResultDoc.academic_term doc)),
           [])
  | Some _, Some _ =>
      exists doc' evs, Api.populate_student_result db doc = (Returned doc', evs)
  end.
Proof.
  destruct (student_doc db _) as [sd |] eqn:Hsd.
  - destruct (academic_term_doc db _) as [td |] eqn:Htd.
    + exact (populate_returns db doc sd td Hsd Htd).
    + unfold Api.populate_student_result. now rewrite Hsd, Htd.
  - unfold Api.populate_student_result. now rewrite Hsd.
Qed.

(** The populator persists nothing.  Whatever the database holds and
    however the run ends, its log holds only messages and error-log
    entries: no record is inserted and nothing is committed, so replaying
    it changes neither the pending nor the committed records. *)
Theorem populate_writes_nothing (doc : ResultDoc.t R)
    (pending committed : list (ResultDoc.t R)) :
  inserted (snd (Api.populate_student_result db doc)) = [] /\
  ~ In Commit (snd (Api.populate_student_result db doc)) /\
  replay (snd (Api.populate_student_result db doc)) pending committed
    = (pending, committed).
Proof.
  pose proof (populate_notices db doc) as H.
  split; [| split].
  - rewrite <- (app_nil_r (snd _)). now rewrite inserted_notices.
  - intro Hin. rewrite Forall_forall in H. exact (H _ Hin).
  - rewrite <- (app_nil_r (snd _)). now rewrite replay_notices.
Qed.

End RunOutcome.

Section ClassStatEdges.
Context {R : Type} {num : Number R}.
Variable db : Database R.

(** Without classmates, no statistics.  For a record whose Student and
    Academic Term records exist the run returns, and a subject row keeps the
    empty position and the statistics 0 it was appended with whenever the
    record ends with no (named) student group, or the row's course is
    unnamed, or the class query returns no score for it. *)
Theorem class_statistics_skipped_without_scores
    (doc : ResultDoc.t R) (sd : Student.t) (td : AcademicTerm.t) :
  student_doc db (ResultDoc.student doc) = Some sd ->
  academic_term_doc db (ResultDoc.academic_term doc) = Some td ->
  exists doc' evs,
    Api.populate_student_result db doc = (Returned doc', evs) /\
    forall row,
      In row (ResultDoc.subjects doc') ->
      opt_str_truthy (ResultDoc.student_group doc') = false
      \/ str_truthy (SubjectRow.subject row) = false
      \/ class_scores db (ResultDoc.student_group doc') (SubjectRow.subject row)
           (ResultDoc.assessment_group doc') (ResultDoc.academic_term doc')
           (ResultDoc.academic_year doc') = [] ->
      SubjectRow.subject_position row = "" /\
      SubjectRow.class_highest_score row = zero /\
      SubjectRow.class_lowest_score row = zero /\
      SubjectRow.class_average_score row = zero.
Proof.
  intros Hsd Htd.
  destruct (populate_returns db doc sd td Hsd Htd) as (doc' & evs & Hrun).
  exists doc', evs. split; [exact Hrun |].
  intros row Hin Hskip.
  destruct (populate_subject_row db _ _ _ _ Hrun Hin) as (_ & row0 & Hin0 & ->).
  destruct (class_stats_subject db doc' row0) as [Es _]. rewrite Es in Hskip.
  unfold initial_subjects in Hin0. apply in_map_iff in Hin0 as (item & <- & _).
  unfold Api.class_stats. cbn [SubjectRow.subject Api.subject_row_of] in *.
  destruct Hskip as [-> | [-> | ->]];
    rewrite ?andb_false_r; cbn [andb];
    repeat match goal with
           | |- context [if ?b then _ else _] => destruct b
           end; repeat split.
Qed.

(** The statistics bracket the class.  For a record whose Student and
    Academic Term records exist the run returns, and for every subject row
    whose class query returns at least one score (in a named group, for a
    named course): the class highest is not below the class lowest, and
    when the row's own score is one of the class scores it lies between
    them and its position is at most the number of scores. *)
Theorem class_statistics_bracket_the_scores
    (doc : ResultDoc.t R) (sd : Student.t) (td : AcademicTerm.t) :
  student_doc db (ResultDoc.student doc) = Some sd ->
  academic_term_doc db (ResultDoc.academic_term doc) = Some td ->
  exists doc' evs,
    Api.populate_student_result db doc = (Returned doc', evs) /\
    forall row first rest,
      In row (ResultDoc.subjects doc') ->
      opt_str_truthy (ResultDoc.student_group doc') = true ->
      str_truthy (SubjectRow.subject row) = true ->
      class_scores db (ResultDoc.student_group doc') (SubjectRow.subject row)
        (ResultDoc.assessment_group doc') (ResultDoc.academic_term doc')
        (ResultDoc.academic_year doc') = first :: rest ->
      let scores := first :: rest in
      ltb (SubjectRow.class_highest_score row) (SubjectRow.class_lowest_score row)
        = false /\
      (In (SubjectRow.total_score row) scores ->
       ltb (SubjectRow.class_highest_score row) (SubjectRow.total_score row) = false /\
       ltb (SubjectRow.total_score row) (SubjectRow.class_lowest_score row) = false /\
       exists position,
         SubjectRow.subject_position row = py_str position /\
         (1 <= position <= length scores)%nat).
Proof.
  intros Hsd Htd.
  destruct (populate_returns db doc sd td Hsd Htd) as (doc' & evs & Hrun).
  exists doc', evs. split; [exact Hrun |].
  intros row first rest Hin Hgroup Hsubject Hscores scores.
  destruct (populate_subject_row db _ _ _ _ Hrun Hin) as (_ & row0 & _ & ->).
  destruct (class_stats_subject db doc' row0) as [Es Et].
  rewrite Es in Hsubject, Hscores. rewrite Et.
  destruct (class_stats_computed db doc' row0 _ _ Hgroup Hsubject Hscores)
    as (-> & -> & -> & _).
  split; [apply py_max_upper, py_min_In |].
  intro Hown. split; [now apply py_max_upper |].
  split; [now apply py_min_lower |].
  eexists. split; [reflexivity |].
  pose proof (count_exceeding_lt (first :: rest) _ Hown) as Hlt.
  unfold scores. cbn [length] in *. lia.
Qed.

End ClassStatEdges.

Section BatchEdges.
Context {R : Type} {num : Number R}.
Variable db : Database R.

(** Missing generator.  When the generator record does not exist the call
    raises DoesNotExistError and has emitted nothing. *)
Lemma generate_without_generator docname :
  generator db docname = None ->
  Api.generate_class_results db docname
    = (Raised (DoesNotExistError "School Term Class Result Generator"
                 (Some docname)), []).
Proof.
  intro H. unfold Api.generate_class_results. now rewrite H.
Qed.

(** Empty group.  When the generator record exists with its four filters
    set and the roster of its student group is empty, the call returns
    after the single notice: no student is populated, nothing is inserted
    or committed and no closing message is printed. *)
Theorem empty_group_is_a_no_op (docname : string) (generator_doc : Generator.t) :
  generator db docname = Some generator_doc ->
  Api.filters_set generator_doc = true ->
  group_students db (Generator.student_group generator_doc) = [] ->
  Api.generate_class_results db docname
    = (Returned tt,
       [Msgprint ("No students found in "
                  ++ fmt (Generator.student_group generator_doc))]).
Proof.
  intros Hdoc Hfilters Hnone. unfold Api.generate_class_results.
  rewrite Hdoc. cbn [get_doc]. unfold bind at 1. cbn [fst snd ret].
  now rewrite Hfilters, Hnone.
Qed.

Lemma for_each_stops (body : string -> Action R unit) before s after e evs :
  (forall s', In s' before -> fst (body s') = Returned tt) ->
  body s = (Raised e, evs) ->
  for_each (before ++ s :: after) body
    = (Raised e, flat_map (fun s' => snd (body s')) before ++ evs).
Proof.
  intros Hbefore Hs. induction before as [| b before IH]; cbn [app for_each flat_map].
  - unfold bind. now rewrite Hs.
  - unfold bind. rewrite (Hbefore b (or_introl eq_refl)).
    rewrite IH by (intros s' Hs'; apply Hbefore; now right).
    cbn [fst snd]. now rewrite app_assoc.
Qed.

(** A failure part way.  When the generator record exists with its four
    filters set, the Academic Term record exists and the roster is
    [before ++ s :: after] where every student of [before] has a Student
    record and [s] has none, the call raises DoesNotExistError for [s]; the
    records of the students of [before] are committed, in roster order,
    nothing is pending, and no record is inserted for [s] or any student
    after it. *)
Theorem failure_part_way_keeps_earlier_records
    (docname : string) (generator_doc : Generator.t) (td : AcademicTerm.t)
    (before after : list string) (s : string) :
  generator db docname = Some generator_doc ->
  Api.filters_set generator_doc = true ->
  academic_term_doc db (Generator.academic_term generator_doc) = Some td ->
  group_students db (Generator.student_group generator_doc)
    = before ++ s :: after ->
  (forall s', In s' before -> student_doc db (Some s') <> None) ->
  student_doc db (Some s) = None ->
  let run := Api.generate_class_results db docname in
  fst run = Raised (DoesNotExistError "Student" (Some s)) /\
  replay (snd run) [] [] = ([], map (populated db generator_doc) before) /\
  inserted (snd run) = map (populated db generator_doc) before /\
  map (@ResultDoc.student R) (inserted (snd run)) = map Some before.
Proof.
  intros Hdoc Hfilters Htd Hroster Hbefore Hs run.
  assert (Hpass : forall s', In s' before ->
            Api.generate_one db generator_doc s'
              = (Returned tt, pass_log db generator_doc s')
            /\ ResultDoc.student (populated db generator_doc s') = Some s').
  { intros s' Hs'. destruct (student_doc db (Some s')) as [sd |] eqn:Hsd;
      [| now destruct (Hbefore s' Hs')].
    exact (generate_one_returns db generator_doc s' sd td Hsd Htd). }
  assert (Hfail : Api.generate_one db generator_doc s
                  = (Raised (DoesNotExistError "Student" (Some s)), [])).
  { unfold Api.generate_one, Api.populate_student_result.
    change (ResultDoc.student (Api.result_stub generator_doc s)) with (Some s).
    now rewrite Hs. }
  assert (Hrun : run = (Raised (DoesNotExistError "Student" (Some s)),
                        flat_map (pass_log db generator_doc) before)).
  { unfold run, Api.generate_class_results. rewrite Hdoc. cbn [get_doc].
    unfold bind at 1. cbn [fst snd ret]. rewrite Hfilters. cbn [negb app].
    rewrite Hroster.
    rewrite (for_each_stops _ before s after _ _
               (fun s' Hs' => f_equal fst (proj1 (Hpass s' Hs'))) Hfail).
    destruct (before ++ s :: after) eqn:E; [now destruct before |].
    unfold bind. cbn [fst snd]. f_equal. rewrite app_nil_r.
    clear -Hpass. induction before as [| b before IH]; [reflexivity |].
    cbn [flat_map]. rewrite (proj1 (Hpass b (or_introl eq_refl))). cbn [snd].
    f_equal. apply IH. intros s' Hs'. apply Hpass. now right. }
  rewrite Hrun. cbn [fst snd].
  assert (Hins : inserted (flat_map (pass_log db generator_doc) before)
                 = map (populated db generator_doc) before).
  { rewrite <- (app_nil_r (flat_map _ _)), inserted_passes. apply app_nil_r. }
  repeat split.
  - now rewrite <- (app_nil_r (flat_map _ _)), replay_passes.
  - exact Hins.
  - rewrite Hins, map_map. apply map_ext_in. intros s' Hs'.
    exact (proj2 (Hpass s' Hs')).
Qed.

(** The closing message counts the records.  When the generator record
    exists with its four filters set, the roster is not empty, every
    student of it has a Student record and the Academic Term record exists,
    the log ends with the message "Generated results for K students in
    G.", where K is the number of records the log inserts, and nothing is
    inserted or committed after it. *)
Theorem closing_message_counts_the_records
    (docname : string) (generator_doc : Generator.t) (td : AcademicTerm.t) :
  generator db docname = Some generator_doc ->
  Api.filters_set generator_doc = true ->
  group_students db (Generator.student_group generator_doc) <> [] ->
  (forall s, In s (group_students db (Generator.student_group generator_doc)) ->
             student_doc db (Some s) <> None) ->
  academic_term_doc db (Generator.academic_term generator_doc) = Some td ->
  let run := Api.generate_class_results db docname in
  exists log,
    snd run
    = log ++ [Msgprint ("Generated results for "
                        ++ py_str (length (inserted (snd run)))
                        ++ " students in "
                        ++ fmt (Generator.student_group generator_doc) ++ ".")].
Proof.
  intros Hdoc Hfilters Hne Hstudents Htd run.
  unfold run, Api.generate_class_results. rewrite Hdoc. cbn [get_doc].
  unfold bind at 1 3. cbn [fst snd ret]. rewrite Hfilters. cbn [negb app].
  rewrite (for_each_returns db generator_doc _ td Hstudents Htd).
  destruct (group_students db _) as [| s rest] eqn:E; [easy |].
  unfold bind. cbn [fst snd]. rewrite <- E.
  rewrite inserted_passes. cbn [inserted]. rewrite app_nil_r, length_map.
  eexists. reflexivity.
Qed.

End BatchEdges.

Section GradeRange.
Context {R : Type} {num : Number R}.
Variable db : Database R.

Lemma scan_grading_scale_result (scale : list (GradeBand.t R)) (avg : R)
    (start : string) :
  Api.scan_grading_scale scale avg start = start
  \/ exists band, In band scale /\ in_band band avg = true
                  /\ Api.scan_grading_scale scale avg start
                     = GradeBand.grade_code band.
Proof.
  induction scale as [| b scale IH]; cbn; [now left |].
  destruct (leb _ avg && leb avg _) eqn:E.
  - right. exists b. repeat split; [now left | exact E].
  - destruct IH as [-> | (band & Hin & Hband & ->)]; [now left |].
    right. exists band. repeat split; [now right | exact Hband].
Qed.

Lemma fallback_grade_letter (avg : R) :
  In (Api.fallback_grade avg) ["A"; "B"; "C"; "D"; "F"].
Proof.
  unfold Api.fallback_grade.
  repeat match goal with |- context [if ?b then _ else _] => destruct b end;
    cbn; tauto.
Qed.

(** The grade is always a known one.  For a record whose Student and
    Academic Term records exist and whose student has assessment results
    the run returns, and whenever it ends with a term average that is set
    and not zero an overall grade is written: "N/A" when School Settings
    does not load; one of A, B, C, D, F when no band is configured; and
    otherwise "N/A" or the code of a configured band whose range (min%, 0
    when unset, to max%, 100 when unset or zero) contains the average.  It
    never writes a code of a band that does not contain the average. *)
Theorem grade_written_is_sentinel_fallback_or_matching_band
    (doc : ResultDoc.t R) (sd : Student.t) (td : AcademicTerm.t) :
  student_doc db (ResultDoc.student doc) = Some sd ->
  academic_term_doc db (ResultDoc.academic_term doc) = Some td ->
  results_of db doc <> [] ->
  exists doc' evs,
    Api.populate_student_result db doc = (Returned doc', evs) /\
    forall avg,
      ResultDoc.term_average doc' = Some avg ->
      truthy avg = true ->
      exists grade,
        ResultDoc.overall_grade doc' = Some grade /\
        match school_settings db with
        | None => grade = "N/A"
        | Some settings =>
            match SchoolSettings.overall_grading_scale settings with
            | [] => In grade ["A"; "B"; "C"; "D"; "F"]
            | scale =>
                grade = "N/A"
                \/ exists band,
                     In band scale /\ in_band band avg = true
                     /\ grade = GradeBand.grade_code band
            end
        end.
Proof.
  intros Hsd Htd Hne.
  destruct (populate_returns db doc sd td Hsd Htd) as (doc' & evs & Hrun).
  exists doc', evs. split; [exact Hrun |].
  intros avg Havg Htruthy.
  destruct (school_settings db) as [settings |] eqn:Hsettings.
  - rewrite (populate_grade db doc doc' evs avg settings Hrun Hne Havg Htruthy
               Hsettings).
    eexists. split; [reflexivity |].
    destruct (SchoolSettings.overall_grading_scale settings) as [| b scale].
    + apply fallback_grade_letter.
    + destruct (scan_grading_scale_result (b :: scale) avg "N/A")
        as [-> | (band & Hin & Hband & ->)]; [now left | right; eauto].
  - destruct (populate_grade_without_settings db _ _ _ Hrun Hne Hsettings)
      as [-> _]; [| eauto].
    unfold average_truthy. now rewrite Havg.
Qed.

End GradeRange.

(* ------------------------------------------------------------------ *)
(** * Populating a populated record *)

Section Rerun.
Context {R : Type} {num : Number R}.
Variable db : Database R.

(** The run computed forwards, given the two records it loads. *)
Lemma populate_eval d sd td :
  student_doc db (ResultDoc.student d) = Some sd ->
  academic_term_doc db (ResultDoc.academic_term d) = Some td ->
  let grouped := with_group db (Api.student_info sd td d) in
  let notices := snd (Api.group_info db (Api.student_info sd td d)) in
  match results_of db d with
  | [] =>
      Api.populate_student_result db d
      = (Returned (ResultDoc.set_assessment_components []
                     (ResultDoc.set_subjects [] grouped)),
         notices ++ [Msgprint ("No Assessment Results found for student "
                               ++ fmt (ResultDoc.student d))])
  | results =>
      forall graded msgs,
        Api.overall_grade_step db (before_grade db results grouped)
          = (Returned graded, msgs) ->
        Api.populate_student_result db d
        = (Returned (Api.positions db graded), notices ++ msgs)
  end.
Proof.
  intros Hsd Htd grouped notices.
  destruct (populate_returns db d sd td Hsd Htd) as (d' & evs & Hrun).
  pose proof Hrun as Hlog.
  apply populate_log in Hlog as (sd' & td' & Hsd' & Htd' & H).
  rewrite Hsd in Hsd'. rewrite Htd in Htd'.
  inversion Hsd'; inversion Htd'; subst sd' td'. cbv zeta in H.
  fold grouped notices in H.
  destruct (results_of db d) as [| row rows].
  - destruct H as [-> ->]. exact Hrun.
  - destruct H as (graded & msgs & Hstep & -> & ->).
    intros graded' msgs' Hstep'. rewrite Hstep in Hstep'.
    inversion Hstep'; subst. exact Hrun.
Qed.

(** All the fields of a record. *)
Definition fields (d : ResultDoc.t R) :=
  (header d, ResultDoc.subjects d, ResultDoc.assessment_components d,
   ResultDoc.total_marks_obtained d, ResultDoc.total_max_marks d,
   ResultDoc.term_average d, ResultDoc.overall_grade d,
   ResultDoc.class_arm_position d, ResultDoc.class_position d).

Lemma fields_inj d1 d2 : fields d1 = fields d2 -> d1 = d2.
Proof.
  destruct d1, d2. unfold fields, header. cbn. intro H. now inversion H.
Qed.

(** A record with the grade and the two positions of another. *)
Definition with_ranks (grade : option string) (arm position : option nat)
    (d : ResultDoc.t R) : ResultDoc.t R :=
  ResultDoc.set_class_position position
    (ResultDoc.set_class_arm_position arm
       (ResultDoc.set_overall_grade grade d)).

Lemma class_stats_header d1 d2 row :
  header d1 = header d2 -> Api.class_stats db d1 row = Api.class_stats db d2 row.
Proof.
  intro H. apply class_stats_ext. unfold header in H. unfold same_keys.
  inversion H. repeat split; assumption.
Qed.

Lemma before_grade_fields results d :
  let subjects := map (Api.class_stats db d) (initial_subjects results) in
  let components := map Api.component_row_of results in
  let total := py_sum (map SubjectRow.total_score subjects) in
  let max := py_sum (map ComponentRow.max_score components) in
  fields (before_grade db results d)
  = (header d, subjects, components, Some total, Some max,
     (if ltb zero max then Some (round2 (mul (div total max) (of_Z 100)))
      else ResultDoc.term_average d),
     ResultDoc.overall_grade d, ResultDoc.class_arm_position d,
     ResultDoc.class_position d).
Proof.
  cbv zeta. unfold fields. rewrite before_grade_header.
  destruct (with_tables_frame db results d) as (_ & Ws & Wc & Wa & Wg & Wp).
  destruct (totals_frame (with_tables db results d)) as (_ & Ts & Tc & Tg & Tp).
  pose proof (totals_values (with_tables db results d)) as (T1 & T2 & T3).
  fold (before_grade db results d) in Ts, Tc, Tg, Tp, T1, T2, T3.
  assert (Tq : ResultDoc.class_position (before_grade db results d)
               = ResultDoc.class_position d).
  { unfold before_grade, with_tables, Api.totals. cbv zeta.
    rewrite append_subjects_eq, append_components_eq.
    match goal with |- context [if ?c then _ else _] => destruct c end;
      reflexivity. }
  rewrite Ts, Tc, T1, T2, T3, Tg, Tp, Tq, Ws, Wc, Wa, Wg, Wp.
  reflexivity.
Qed.

Lemma before_grade_with_ranks results d1 d2 :
  header d1 = header d2 ->
  ResultDoc.term_average d1 = ResultDoc.term_average (before_grade db results d2) ->
  before_grade db results d1
  = with_ranks (ResultDoc.overall_grade d1) (ResultDoc.class_arm_position d1)
      (ResultDoc.class_position d1) (before_grade db results d2).
Proof.
  intros Hh Ha. apply fields_inj.
  pose proof (before_grade_fields results d2) as F2. cbv zeta in F2.
  assert (A2 := f_equal (fun f => snd (fst (fst (fst f)))) F2). cbn [fst snd] in A2.
  unfold fields at 1 in A2. cbn [fst snd] in A2. rewrite A2 in Ha.
  rewrite (before_grade_fields results d1). cbv zeta.
  unfold with_ranks.
  transitivity
    (header (before_grade db results d2),
     ResultDoc.subjects (before_grade db results d2),
     ResultDoc.assessment_components (before_grade db results d2),
     ResultDoc.total_marks_obtained (before_grade db results d2),
     ResultDoc.total_max_marks (before_grade db results d2),
     ResultDoc.term_average (before_grade db results d2),
     ResultDoc.overall_grade d1, ResultDoc.class_arm_position d1,
     ResultDoc.class_position d1); [| reflexivity].
  change (header (before_grade db results d2),
          ResultDoc.subjects (before_grade db results d2),
          ResultDoc.assessment_components (before_grade db results d2),
          ResultDoc.total_marks_obtained (before_grade db results d2),
          ResultDoc.total_max_marks (before_grade db results d2),
          ResultDoc.term_average (before_grade db results d2))
    with (fst (fst (fst (fields (before_grade db results d2))))).
  rewrite F2. cbn [fst snd].
  rewrite (map_ext _ _ (fun row => class_stats_header d1 d2 row Hh)), Hh, Ha.
  repeat f_equal. now destruct (ltb zero _).
Qed.

Lemma overall_grade_step_with_ranks d graded msgs arm position :
  Api.overall_grade_step db d = (Returned graded, msgs) ->
  Api.overall_grade_step db
    (with_ranks (ResultDoc.overall_grade graded) arm position d)
  = (Returned (with_ranks (ResultDoc.overall_grade graded) arm position graded),
     msgs).
Proof.
  unfold Api.overall_grade_step.
  change (ResultDoc.term_average (with_ranks _ arm position d))
    with (ResultDoc.term_average d).
  destruct (ResultDoc.term_average d) as [avg |].
  - destruct (truthy avg).
    + destruct (school_settings db) as [settings |]; cbn; intro H;
        inversion H; subst; destruct d; reflexivity.
    + intro H. inversion H; subst. reflexivity.
  - intro H. inversion H; subst. reflexivity.
Qed.

Lemma positions_with_ranks graded :
  Api.positions db
    (with_ranks (ResultDoc.overall_grade graded)
       (ResultDoc.class_arm_position (Api.positions db graded))
       (ResultDoc.class_position (Api.positions db graded)) graded)
  = Api.positions db graded.
Proof.
  destruct graded. unfold Api.positions, with_ranks. cbn.
  destruct (opt_str_truthy student_group); [| reflexivity].
  destruct (class_arm_totals db _ _ _ _); cbn;
    destruct (opt_str_truthy (program_of_group db _)); cbn; try reflexivity;
    destruct (class_totals db _ _ _ _); reflexivity.
Qed.

Lemma grouped_again sd td d0 d1 :
  header d1 = header (with_group db (Api.student_info sd td d0)) ->
  fields (with_group db (Api.student_info sd td d1)) = fields d1.
Proof.
  unfold fields, header, with_group, Api.student_info. intro H.
  destruct d0, d1. cbn in *.
  destruct (student_groups db student) eqn:E0; cbn in H; inversion H; subst;
    rewrite E0; reflexivity.
Qed.

(** Populating again changes nothing.  A record a run returned, given to
    the populator again over the same database, comes back unchanged, with
    the same log. *)
Theorem repopulating_changes_nothing (doc doc' : ResultDoc.t R)
    (evs : list (Event R)) :
  Api.populate_student_result db doc = (Returned doc', evs) ->
  Api.populate_student_result db doc' = (Returned doc', evs).
Proof.
  intro Hrun.
  pose proof Hrun as Hlog.
  apply populate_log in Hlog as (sd & td & Hsd & Htd & H). cbv zeta in H.
  pose proof (populate_header db _ _ _ _ _ Hrun Hsd Htd) as Hh.
  assert (Hkeys : ResultDoc.student doc' = ResultDoc.student doc
                  /\ ResultDoc.assessment_group doc' = ResultDoc.assessment_group doc
                  /\ ResultDoc.academic_year doc' = ResultDoc.academic_year doc
                  /\ ResultDoc.academic_term doc' = ResultDoc.academic_term doc).
  { unfold header, with_group in Hh.
    destruct (student_groups db _); cbn in Hh; inversion Hh; repeat split. }
  destruct Hkeys as (Ks & Ka & Ky & Kt).
  assert (Hsd' : student_doc db (ResultDoc.student doc') = Some sd) by congruence.
  assert (Htd' : academic_term_doc db (ResultDoc.academic_term doc') = Some td)
    by congruence.
  assert (Hres : results_of db doc' = results_of db doc)
    by (unfold results_of; congruence).
  pose proof (populate_eval doc' sd td Hsd' Htd') as E. cbv zeta in E.
  rewrite Hres in E.
  assert (Hnotices : snd (Api.group_info db (Api.student_info sd td doc'))
                     = snd (Api.group_info db (Api.student_info sd td doc))).
  { unfold Api.group_info.
    change (ResultDoc.student (Api.student_info sd td doc'))
      with (ResultDoc.student doc').
    change (ResultDoc.student (Api.student_info sd td doc))
      with (ResultDoc.student doc).
    rewrite Ks. now destruct (student_groups db _). }
  rewrite Hnotices in E. clear Hnotices Hres Hsd' Htd'.
  destruct (results_of db doc) as [| row rows].
  - destruct H as [Hdoc' ->]. rewrite E, Ks. f_equal. f_equal.
    subst doc'. destruct (student_groups db (ResultDoc.student doc)) eqn:Hg;
      destruct doc; unfold with_group, Api.student_info; cbn in *;
      repeat (rewrite Hg; cbn); reflexivity.
  - destruct H as (graded & msgs & Hstep & Hdoc' & ->).
    set (results := row :: rows) in *.
    pose proof (grouped_again sd td doc doc' Hh) as Hagain.
    apply fields_inj in Hagain. rewrite Hagain in E.
    destruct (positions_frame db graded) as (_ & _ & _ & _ & _ & Pa & Pg).
    pose proof Hstep as Hframe. apply overall_grade_step_frame in Hframe.
    destruct Hframe as (_ & _ & _ & _ & _ & Oa & _).
    assert (Hh' : header doc'
                  = header (with_group db (Api.student_info sd td doc)))
      by exact Hh.
    pose proof (before_grade_with_ranks results doc'
                  (with_group db (Api.student_info sd td doc)) Hh'
                  ltac:(congruence)) as Hbg.
    rewrite Hdoc' in Hbg at 2. rewrite Pg in Hbg.
    pose proof (overall_grade_step_with_ranks _ _ _
                  (ResultDoc.class_arm_position doc')
                  (ResultDoc.class_position doc') Hstep) as Hstep'.
    rewrite <- Hbg in Hstep'.
    rewrite (E _ _ Hstep'). f_equal. rewrite Hdoc'.
    now rewrite positions_with_ranks.
Qed.

End Rerun.

(** * Worked runs of the further properties

    The school of [School], with two variants of its database: one whose
    School Settings record does not load, one with another roster for the
    class G1. *)

Module SchoolVariants.
Import Rational School.

(** The school when the School Settings record does not load. *)
Definition without_settings (d : Database Qc) : Database Qc := {|
  generator := generator d;
  group_students := group_students d;
  student_doc := student_doc d;
  academic_term_doc := academic_term_doc d;
  student_groups := student_groups d;
  count_group_students := count_group_students d;
  program_of_group := program_of_group d;
  count_program_enrollment := count_program_enrollment d;
  detailed_results := detailed_results d;
  class_scores := class_scores d;
  class_arm_totals := class_arm_totals d;
  class_totals := class_totals d;
  school_settings := None
|}.

(** The school with another roster for the class G1. *)
Definition with_roster (roster : list string) (d : Database Qc) : Database Qc := {|
  generator := generator d;
  group_students := fun parent =>
    if opt_str_eqb parent (Some "G1") then roster else [];
  student_doc := student_doc d;
  academic_term_doc := academic_term_doc d;
  student_groups := student_groups d;
  count_group_students := count_group_students d;
  program_of_group := program_of_group d;
  count_program_enrollment := count_program_enrollment d;
  detailed_results := detailed_results d;
  class_scores := class_scores d;
  class_arm_totals := class_arm_totals d;
  class_totals := class_totals d;
  school_settings := school_settings d
|}.

(** The generator record GEN-1. *)
Definition gen1 : Generator.t :=
  Generator.mk (Some "AG1") (Some "2025") (Some "T1") (Some "G1").

End SchoolVariants.

Module WorkedMore.
Import Rational RationalNumber School SchoolVariants.

Ltac evaluate Hrun :=
  match type of Hrun with
  | ?run = (Returned ?doc', _) =>
      let E := fresh "E" in
      assert (E : returned run = Some doc')
        by (unfold returned; rewrite Hrun; reflexivity);
      vm_compute in E; injection E as <-
  end.

(** The four rows of S1 (two criteria in each of English and Math) give two
    subject rows, and the total 160 counts each course once. *)
Lemma subjects_witness :
  exists doc' evs,
    Api.populate_student_result (db scale_ab) (stub "S1") = (Returned doc', evs) /\
    map (fun r => (SubjectRow.subject r, this (SubjectRow.total_score r),
                   SubjectRow.grade r))
      (ResultDoc.subjects doc')
    = [("English", 70%Q, "-"); ("Math", 90%Q, "-")] /\
    option_map this (ResultDoc.total_marks_obtained doc') = Some 160%Q.
Proof.
  destruct (subjects_are_the_first_rows_of_each_course (db scale_ab) (stub "S1")
              _ _ eq_refl eq_refl ltac:(discriminate))
    as (doc' & evs & Hrun & Hrows & _ & _ & Htotal).
  exists doc', evs. split; [exact Hrun |]. split.
  - apply (f_equal (map (fun s : string * Qc * string =>
             (fst (fst s), this (snd (fst s)), snd s)))) in Hrows.
    rewrite !map_map in Hrows. cbn [fst snd] in Hrows. rewrite Hrows.
    reflexivity.
  - rewrite Htotal. reflexivity.
Defined.

(** The four rows of S1 give four component rows, and the overall max 200
    is the sum of their maximum scores. *)
Lemma components_witness :
  exists doc' evs,
    Api.populate_student_result (db scale_ab) (stub "S1") = (Returned doc', evs) /\
    map (fun c => (ComponentRow.subject c, ComponentRow.criteria c,
                   this (ComponentRow.max_score c)))
      (ResultDoc.assessment_components doc')
    = [("English", Some "CA", 40%Q); ("English", Some "Exam", 60%Q);
       ("Math", Some "CA", 40%Q); ("Math", Some "Exam", 60%Q)] /\
    option_map this (ResultDoc.total_max_marks doc') = Some 200%Q.
Proof.
  destruct (components_are_the_rows (db scale_ab) (stub "S1")
              _ _ eq_refl eq_refl ltac:(discriminate))
    as (doc' & evs & Hrun & _ & Hrows & Hmax).
  exists doc', evs. split; [exact Hrun |]. split.
  - apply (f_equal (map (fun s : string * option string * Qc * Qc =>
             (fst (fst (fst s)), snd (fst (fst s)), this (snd s))))) in Hrows.
    rewrite !map_map in Hrows. cbn [fst snd] in Hrows. rewrite Hrows.
    reflexivity.
  - rewrite Hmax. reflexivity.
Defined.

(** In the program P1 with totals 170, 170 and 160, S1 is third; S4, who is
    in no class, gets no class position. *)
Lemma class_position_witness :
  (exists doc' evs,
     Api.populate_student_result (db scale_ab) (stub "S1") = (Returned doc', evs) /\
     ResultDoc.class_position doc' = Some 3%nat) /\
  (exists doc' evs,
     Api.populate_student_result (db scale_ab) (stub "S4") = (Returned doc', evs) /\
     ResultDoc.class_position doc' = None).
Proof.
  split.
  - destruct (class_position_counts_higher_totals (db scale_ab) (stub "S1")
                _ _ eq_refl eq_refl) as (doc' & evs & Hrun & Hprogram & _).
    exists doc', evs. split; [exact Hrun |].
    pose proof (Hprogram "G1" [] "P1" ("S2", q 170) [("S3", q 170); ("S1", q 160)]
                  eq_refl eq_refl ltac:(discriminate) eq_refl eq_refl eq_refl)
      as Hposition.
    cbv zeta in Hposition. evaluate Hrun. rewrite Hposition. reflexivity.
  - destruct (class_position_counts_higher_totals (db scale_ab) (stub "S4")
                _ _ eq_refl eq_refl) as (doc' & evs & Hrun & _ & _ & Hskip).
    exists doc', evs. split; [exact Hrun |]. exact (Hskip eq_refl eq_refl).
Defined.

(** With no School Settings record, S2 (average 85) gets N/A and the error
    is logged. *)
Lemma failed_grade_lookup_witness :
  exists doc' evs,
    Api.populate_student_result (without_settings (db scale_ab)) (stub "S2")
      = (Returned doc', evs) /\
    ResultDoc.overall_grade doc' = Some "N/A" /\
    evs = [LogError
             "Error calculating overall grade: School Settings School Settings not found"].
Proof.
  destruct (failed_grade_lookup_is_logged_not_raised
              (without_settings (db scale_ab)) (stub "S2")
              _ _ eq_refl eq_refl ltac:(discriminate) eq_refl)
    as (doc' & evs & Hrun & Hgrade).
  exists doc', evs. split; [exact Hrun |].
  assert (E : snd (Api.populate_student_result (without_settings (db scale_ab))
                     (stub "S2")) = evs) by now rewrite Hrun.
  vm_compute in E. evaluate Hrun.
  split; [exact (proj1 (Hgrade eq_refl)) | now subst evs].
Defined.

(** S6, whose average is 0, and S5, who has no result, keep the grade of
    the stub: none. *)
Lemma grade_untouched_witness :
  (exists doc' evs,
     Api.populate_student_result (db scale_ab) (stub "S6") = (Returned doc', evs) /\
     ResultDoc.overall_grade doc' = None) /\
  (exists doc' evs,
     Api.populate_student_result (db scale_ab) (stub "S5") = (Returned doc', evs) /\
     ResultDoc.overall_grade doc' = None).
Proof.
  split.
  - destruct (grade_untouched_without_average (db scale_ab) (stub "S6")
                _ _ eq_refl eq_refl) as (doc' & evs & Hrun & Hkept).
    exists doc', evs. split; [exact Hrun |]. evaluate Hrun.
    exact (proj1 (Hkept (or_introl eq_refl))).
  - destruct (grade_untouched_without_average (db scale_ab) (stub "S5")
                _ _ eq_refl eq_refl) as (doc' & evs & Hrun & Hkept).
    exists doc', evs. split; [exact Hrun |].
    exact (proj1 (Hkept (or_intror eq_refl))).
Defined.

(** The record of S1 carries the dates of T1, her gender and her name. *)
Lemma student_and_term_fields_witness :
  exists doc' evs,
    Api.populate_student_result (db scale_ab) (stub "S1") = (Returned doc', evs) /\
    ResultDoc.term_start_date doc' = Some "2025-01-06" /\
    ResultDoc.term_end_date doc' = Some "2025-04-11" /\
    ResultDoc.gender doc' = Some "Female" /\
    ResultDoc.student_admission_id doc' = Some "S1".
Proof.
  destruct (record_carries_student_and_term_fields (db scale_ab) (stub "S1")
              _ _ eq_refl eq_refl)
    as (doc' & evs & Hrun & H1 & H2 & H3 & H4 & _).
  exists doc', evs. repeat split; assumption.
Defined.

(** S1 is in G1, a class of 3 in a program of 3; S4 is in no class. *)
Lemma group_fields_witness :
  (exists doc' evs,
     Api.populate_student_result (db scale_ab) (stub "S1") = (Returned doc', evs) /\
     ResultDoc.student_group doc' = Some "G1" /\
     ResultDoc.number_of_students_in_class_group doc' = Some 3%nat /\
     ResultDoc.number_of_students_in_class doc' = Some 3%nat) /\
  (exists doc' evs,
     Api.populate_student_result (db scale_ab) (stub "S4") = (Returned doc', evs) /\
     ResultDoc.student_group doc' = None /\
     In (Msgprint "No Student Group found for S4") evs).
Proof.
  split.
  - destruct (group_fields_come_from_the_first_group (db scale_ab) (stub "S1")
                _ _ eq_refl eq_refl) as (doc' & evs & Hrun & Hgroup & _).
    exists doc', evs. split; [exact Hrun |]. exact (Hgroup "G1" [] eq_refl).
  - destruct (group_fields_come_from_the_first_group (db scale_ab) (stub "S4")
                _ _ eq_refl eq_refl) as (doc' & evs & Hrun & _ & Hnone).
    exists doc', evs. split; [exact Hrun |].
    destruct (Hnone eq_refl) as (Hg & _ & _ & Hnotice). split; assumption.
Defined.

(** Among 90, 90 and 80: 80 is third of three, 90 first, and 95 would be
    first too. *)
Lemma position_is_a_rank_witness :
  Api.position_among [q 90; q 90; q 80] (q 80) = 3%nat /\
  (Api.position_among [q 90; q 90; q 80] (q 90)
   <= Api.position_among [q 90; q 90; q 80] (q 80))%nat /\
  (Api.position_among [q 90; q 90; q 80] (q 80) <= 3)%nat.
Proof.
  destruct (position_is_a_rank [q 90; q 90; q 80] (q 80))
    as (_ & Hown & Hbetter).
  split; [reflexivity |]. split.
  - exact (Hbetter (q 90) eq_refl).
  - exact (Hown (or_intror (or_intror (or_introl eq_refl)))).
Defined.

(** S4 is in no class: her subject rows keep the empty position and the
    statistics 0. *)
Lemma class_statistics_skipped_witness :
  exists doc' evs,
    Api.populate_student_result (db scale_ab) (stub "S4") = (Returned doc', evs) /\
    map (fun r => (SubjectRow.subject r, SubjectRow.subject_position r,
                   this (SubjectRow.class_highest_score r)))
      (ResultDoc.subjects doc')
    = [("English", "", 0%Q); ("Math", "", 0%Q)].
Proof.
  destruct (class_statistics_skipped_without_scores (db scale_ab) (stub "S4")
              _ _ eq_refl eq_refl) as (doc' & evs & Hrun & Hrows).
  exists doc', evs. split; [exact Hrun |]. evaluate Hrun.
  cbn [map ResultDoc.subjects SubjectRow.subject].
  destruct (Hrows _ (or_introl eq_refl) (or_introl eq_refl)) as (-> & -> & _).
  destruct (Hrows _ (or_intror (or_introl eq_refl)) (or_introl eq_refl))
    as (-> & -> & _).
  reflexivity.
Defined.

(** In the record of S3 the Math score 80 is the class lowest, below the
    class highest 90, and her position 3 is within the 3 scores. *)
Lemma class_statistics_bracket_witness :
  exists doc' evs math,
    Api.populate_student_result (db scale_ab) (stub "S3") = (Returned doc', evs) /\
    nth_error (ResultDoc.subjects doc') 1 = Some math /\
    ltb (SubjectRow.class_highest_score math) (SubjectRow.class_lowest_score math)
      = false /\
    ltb (SubjectRow.total_score math) (SubjectRow.class_lowest_score math) = false /\
    SubjectRow.subject_position math = "3".
Proof.
  destruct (class_statistics_bracket_the_scores (db scale_ab) (stub "S3")
              _ _ eq_refl eq_refl) as (doc' & evs & Hrun & Hrows).
  exists doc', evs. evaluate Hrun. eexists.
  split; [exact Hrun |]. split; [reflexivity |].
  destruct (Hrows _ _ _ (or_intror (or_introl eq_refl)) eq_refl eq_refl eq_refl)
    as (Horder & Hown).
  destruct (Hown (or_intror (or_intror (or_introl eq_refl))))
    as (_ & Hlow & _).
  split; [exact Horder |]. split; [exact Hlow | reflexivity].
Defined.

(** GEN-1 over an empty class. *)
Lemma empty_group_witness :
  Api.generate_class_results (with_roster [] (db scale_ab)) "GEN-1"
  = (Returned tt, [Msgprint "No students found in G1"]).
Proof.
  exact (empty_group_is_a_no_op (with_roster [] (db scale_ab)) "GEN-1" gen1
           eq_refl eq_refl eq_refl).
Defined.

(** GEN-1 over the roster S1, S9, S2, where S9 has no Student record: the
    batch raises for S9 with the record of S1 committed and none for S2. *)
Lemma failure_part_way_witness :
  fst (Api.generate_class_results (with_roster ["S1"; "S9"; "S2"] (db scale_ab))
         "GEN-1")
  = Raised (DoesNotExistError "Student" (Some "S9")) /\
  map (@ResultDoc.student Qc)
    (snd (replay
            (snd (Api.generate_class_results
                    (with_roster ["S1"; "S9"; "S2"] (db scale_ab)) "GEN-1"))
            [] []))
  = [Some "S1"].
Proof.
  assert (Hbefore :
    forall s', In s' ["S1"] ->
      student_doc (with_roster ["S1"; "S9"; "S2"] (db scale_ab)) (Some s')
      <> None).
  { intros s' [<- | []]. discriminate. }
  destruct (failure_part_way_keeps_earlier_records
              (with_roster ["S1"; "S9"; "S2"] (db scale_ab)) "GEN-1" gen1 _
              ["S1"] ["S2"] "S9" eq_refl eq_refl eq_refl eq_refl Hbefore eq_refl)
    as (Hraised & Hreplay & Hinserted & Hlinked).
  split; [exact Hraised |].
  rewrite Hreplay. cbn [snd]. rewrite <- Hinserted. exact Hlinked.
Defined.

(** GEN-1 over S1, S2 and S3 ends with the count 3. *)
Lemma closing_message_witness :
  exists log,
    snd (Api.generate_class_results (db scale_ab) "GEN-1")
    = log ++ [Msgprint "Generated results for 3 students in G1."].
Proof.
  assert (Hstudents :
    forall s, In s (group_students (db scale_ab) (Some "G1")) ->
              student_doc (db scale_ab) (Some s) <> None).
  { intros s [<- | [<- | [<- | []]]]; discriminate. }
  destruct (closing_message_counts_the_records (db scale_ab) "GEN-1" gen1 _
              eq_refl eq_refl ltac:(discriminate) Hstudents eq_refl)
    as (log & Hlog).
  exists log. rewrite Hlog. reflexivity.
Defined.

(** With the bands (80, 100, A), (0, 79, B) the grade of S2 is the code of
    a band containing her average 85. *)
Lemma grade_written_witness :
  exists doc' evs,
    Api.populate_student_result (db scale_ab) (stub "S2") = (Returned doc', evs) /\
    exists grade,
      ResultDoc.overall_grade doc' = Some grade /\
      In grade ["N/A"; "A"; "B"].
Proof.
  destruct (grade_written_is_sentinel_fallback_or_matching_band (db scale_ab)
              (stub "S2") _ _ eq_refl eq_refl ltac:(discriminate))
    as (doc' & evs & Hrun & Hgrade).
  exists doc', evs. split; [exact Hrun |]. evaluate Hrun.
  destruct (Hgrade _ eq_refl eq_refl) as (grade & Hwritten & Hwhich).
  exists grade. split; [exact Hwritten |].
  cbn in Hwhich. destruct Hwhich as [-> | (band & [<- | [<- | []]] & _ & ->)];
    cbn; tauto.
Defined.

(** Populating the record of S1 again returns it unchanged. *)
Lemma repopulating_witness :
  exists doc' evs,
    Api.populate_student_result (db scale_ab) (stub "S1") = (Returned doc', evs) /\
    Api.populate_student_result (db scale_ab) doc' = (Returned doc', evs).
Proof.
  destruct (populate_returns (db scale_ab) (stub "S1") _ _ eq_refl eq_refl)
    as (doc' & evs & Hrun).
  exists doc', evs. split; [exact Hrun |].
  exact (repopulating_changes_nothing (db scale_ab) _ _ _ Hrun).
Defined.

End WorkedMore.
